(** * SmartSortierer: the suggestion engine and the file lifecycle

    A shallow embedding of [NAS/document_organizer.py] (the full service,
    module [DocumentOrganizer]) and [NAS/minimal_organizer.py] (the
    dependency-free variant, module [MinimalOrganizer]), followed by the
    properties of the suggestion pipeline, the learning store and the move
    operation.

    Conventions of the embedding.
    - A Python [str] is a list of Unicode code points ([pystr]); [len],
      slicing, [in], [split], [replace], [startswith] and [strip] are
      defined on it.  [str.lower] needs the Unicode case tables and is a
      field of [PyBuiltins].
    - A Python [float] is [pyfloat]: a rational, one of the two infinities,
      or NaN, with the IEEE comparisons.  Rounding is not modelled: the
      constants of the source (0.1, 0.2, 0.7, ...) denote the rationals
      they are written as.
    - [json.loads], [float(str)] and [str(value)] are library functions and
      are fields of [PyBuiltins].
    - Code that raises returns [inl e]; [try ... except] is a [match] on that
      sum.  Code that also mutates the process state or the file system runs
      in the monad [io], which keeps the state reached when the exception
      was raised. *)

From Stdlib Require Import ZArith QArith Lqa Ascii String.
From stdpp Require Import base option list gmap fin_maps sorting.

Set Default Proof Using "Type".
Set Warnings "-register-all".
Set Warnings "-automation".

Open Scope Z_scope.
Open Scope list_scope.

(* ===================================================================== *)
(** * Python values                                                       *)
(* ===================================================================== *)

Module Py.

(** ** Strings *)

Definition pychar := N.
Definition pystr := list N.

(** Decoder for the UTF-8 bytes of a literal of this file, so that the
    keyword tables can be written the way the source writes them. *)
Fixpoint utf8_decode (bs : list N) : pystr :=
  match bs with
  | [] => []
  | b :: r =>
      if (b <? 128)%N then b :: utf8_decode r
      else if (b <? 224)%N then
        match r with
        | c1 :: r' => ((b - 192) * 64 + (c1 - 128))%N :: utf8_decode r'
        | _ => []
        end
      else if (b <? 240)%N then
        match r with
        | c1 :: c2 :: r' =>
            ((b - 224) * 4096 + (c1 - 128) * 64 + (c2 - 128))%N :: utf8_decode r'
        | _ => []
        end
      else
        match r with
        | c1 :: c2 :: c3 :: r' =>
            ((b - 240) * 262144 + (c1 - 128) * 4096 + (c2 - 128) * 64 + (c3 - 128))%N
              :: utf8_decode r'
        | _ => []
        end
  end.

Definition u (s : string) : pystr :=
  utf8_decode (map N_of_ascii (list_ascii_of_string s)).

(** [s.startswith(p)] *)
Fixpoint startswith (p s : pystr) : bool :=
  match p, s with
  | [], _ => true
  | _ :: _, [] => false
  | a :: p', b :: s' => (a =? b)%N && startswith p' s'
  end.

(** [w in t] on strings: [w] occurs as a contiguous substring of [t]. *)
Fixpoint contains (w t : pystr) : bool :=
  startswith w t ||
  match t with
  | [] => false
  | _ :: t' => contains w t'
  end.

(** [s.split(sep)] for a non-empty separator: non-overlapping occurrences,
    scanned from the left.  [cur] holds the reversed characters of the
    piece being read. *)
Fixpoint split_go (sep : pystr) (skip : nat) (cur : pystr) (s : pystr) : list pystr :=
  match s with
  | [] => [rev cur]
  | c :: s' =>
      match skip with
      | S k => split_go sep k cur s'
      | O =>
          if startswith sep s
          then rev cur :: split_go sep (length sep - 1) [] s'
          else split_go sep 0 (c :: cur) s'
      end
  end.

Definition split (sep s : pystr) : list pystr := split_go sep 0 [] s.

(** [sep.join(parts)] *)
Fixpoint join (sep : pystr) (parts : list pystr) : pystr :=
  match parts with
  | [] => []
  | [p] => p
  | p :: rest => p ++ sep ++ join sep rest
  end.

(** [s.replace(old, new)] for a non-empty [old]. *)
Definition replace (old new s : pystr) : pystr := join new (split old s).

(** [s.rsplit(sep, 1)] for a one-character separator, given that the
    separator occurs: the text before the last occurrence and the text
    after it. *)
Fixpoint rsplit1 (sep : pychar) (s : pystr) : option (pystr * pystr) :=
  match s with
  | [] => None
  | c :: s' =>
      match rsplit1 sep s' with
      | Some (a, b) => Some (c :: a, b)
      | None => if (c =? sep)%N then Some ([], s') else None
      end
  end.

(** The characters [str.isspace] accepts. *)
Definition isspace (c : pychar) : bool :=
  ((9 <=? c) && (c <=? 13) || (28 <=? c) && (c <=? 32) || (c =? 133) || (c =? 160)
   || (c =? 5760) || (8192 <=? c) && (c <=? 8202) || (c =? 8232) || (c =? 8233)
   || (c =? 8239) || (c =? 8287) || (c =? 12288))%N.

Fixpoint lstrip (s : pystr) : pystr :=
  match s with
  | c :: s' => if isspace c then lstrip s' else s
  | [] => []
  end.

(** [s.strip()] *)
Definition strip (s : pystr) : pystr := rev (lstrip (rev (lstrip s))).

(** ** Floats *)

Inductive pyfloat : Type :=
  | Fin (q : Q)
  | PosInf
  | NegInf
  | NaN.

(** [x < y] on floats. *)
Definition flt (x y : pyfloat) : bool :=
  match x, y with
  | NaN, _ | _, NaN => false
  | Fin a, Fin b => negb (Qle_bool b a)
  | NegInf, NegInf => false
  | NegInf, _ => true
  | _, NegInf => false
  | PosInf, _ => false
  | Fin _, PosInf => true
  end.

(** [x <= y] on floats. *)
Definition fle (x y : pyfloat) : bool :=
  match x, y with
  | NaN, _ | _, NaN => false
  | Fin a, Fin b => Qle_bool a b
  | NegInf, _ => true
  | _, PosInf => true
  | _, NegInf => false
  | PosInf, Fin _ => false
  end.

(** [x > y] and [x >= y] *)
Definition fgt (x y : pyfloat) : bool := flt y x.
Definition fge (x y : pyfloat) : bool := fle y x.

(** The builtins [min(a, b)] and [max(a, b)]: the first argument is kept
    unless the second is strictly smaller (larger). *)
Definition py_min (a b : pyfloat) : pyfloat := if flt b a then b else a.
Definition py_max (a b : pyfloat) : pyfloat := if fgt b a then b else a.

(** ** Decoded JSON *)

Inductive json : Type :=
  | JNull
  | JBool (b : bool)
  | JInt (z : Z)
  | JFloat (f : pyfloat)
  | JStr (s : pystr)
  | JArr (items : list json)
  | JObj (fields : list (pystr * json)).

(** [d.get(k)] on a decoded object ([k in d] is [is_Some] of it); the
    decoder has already resolved repeated keys. *)
Fixpoint jget (k : pystr) (fields : list (pystr * json)) : option json :=
  match fields with
  | [] => None
  | (k', v) :: rest => if decide (k' = k) then Some v else jget k rest
  end.

(** Truth value of a decoded value, as [if v:] tests it. *)
Definition truthy (v : json) : bool :=
  match v with
  | JNull => false
  | JBool b => b
  | JInt z => negb (z =? 0)
  | JFloat (Fin q) => negb (Qeq_bool q 0)
  | JFloat _ => true
  | JStr s => negb (bool_decide (s = []))
  | JArr l => match l with [] => false | _ => true end
  | JObj l => match l with [] => false | _ => true end
  end.

(** ** Exceptions *)

Inductive exn : Type :=
  | TypeError
  | ValueError
  | OverflowError
  | JSONDecodeError
  | FileNotFoundError
  | FileExistsError
  | NotADirectoryError
  | ShutilError
  | AttributeError
  | HTTPError
  | KeyError
  | OSError (errno : Z).

Definition result (A : Type) : Type := exn + A.

#[export] Instance result_ret : MRet result := λ A a, inr a.
#[export] Instance result_bind : MBind result := λ A B k m,
  match m with
  | inl e => inl e
  | inr a => k a
  end.

(** ** Library functions the programs call *)

Class PyBuiltins := {
  (** [str.lower] *)
  lower : pystr → pystr;
  (** [json.loads]; [None] when it raises *)
  json_loads : pystr → option json;
  (** [float(s)] on a string; [None] when it raises [ValueError] *)
  float_of_str : pystr → option pyfloat;
  (** [str(v)] on a decoded value that is not a string *)
  repr : json → pystr;
}.

(** [str(v)] *)
Definition py_str `{PyBuiltins} (v : json) : pystr :=
  match v with
  | JStr s => s
  | _ => repr v
  end.

(** Integers at or above this magnitude do not fit a double. *)
Definition float_overflow : Z := 2 ^ 1024 - 2 ^ 970.

(** [float(v)] *)
Definition py_float `{PyBuiltins} (v : json) : result pyfloat :=
  match v with
  | JFloat f => inr f
  | JInt z => if Z.abs z <? float_overflow then inr (Fin (inject_Z z)) else inl OverflowError
  | JBool b => inr (Fin (if b then 1 else 0)%Q)
  | JStr s => match float_of_str s with Some f => inr f | None => inl ValueError end
  | JNull | JArr _ | JObj _ => inl TypeError
  end.

(** ASCII lower-casing; agrees with [str.lower] on ASCII text. *)
Definition ascii_lower (s : pystr) : pystr :=
  map (λ c, if (65 <=? c) && (c <=? 90) then c + 32 else c)%N s.

End Py.

(* ===================================================================== *)
(** * What both programs share                                            *)
(* ===================================================================== *)

Module Common.
Import Py.

(** A suggestion is a Python dict with the keys [folder], [reason] and
    [confidence]; the new-folder proposals of the minimal program also
    carry [folder_path] and [is_new].  An absent key is [None] / [false]. *)
Record suggestion : Type := Suggestion {
  folder : pystr;
  reason : pystr;
  confidence : pyfloat;
  folder_path : option json;
  is_new : bool;
}.

(** [{'folder': f, 'reason': r, 'confidence': c}] *)
Definition existing (f r : pystr) (c : pyfloat) : suggestion :=
  {| folder := f; reason := r; confidence := c; folder_path := None; is_new := false |}.

(** [sorted(l, key=..., reverse=True)]: a stable sort into descending key
    order.  [gt a b] reads "the key of [a] is greater than the key of [b]";
    an element is placed before the first one whose key is not greater. *)
Fixpoint insert_desc {A} (gt : A → A → bool) (x : A) (l : list A) : list A :=
  match l with
  | [] => [x]
  | y :: l' => if gt y x then y :: insert_desc gt x l' else x :: y :: l'
  end.

Fixpoint sort_desc {A} (gt : A → A → bool) (l : list A) : list A :=
  match l with
  | [] => []
  | x :: l' => insert_desc gt x (sort_desc gt l')
  end.

(** [sum(1 for word in words if word in text_lower)] *)
Definition hits (words : list pystr) (text_lower : pystr) : nat :=
  length (filter (λ w, contains w text_lower = true) words).

(** The [scores] dict of the keyword classifier, in insertion order. *)
Definition keyword_scores (table : list (pystr * list pystr))
    (target_folders : list pystr) (text_lower : pystr) : list (pystr * nat) :=
  flat_map (λ '(f, words),
    if decide (f ∈ target_folders) then
      let score := hits words text_lower in
      if decide (0 < score)%nat then [(f, score)] else []
    else []) table.

(** [[f for f in self.target_folders if f not in [s['folder'] for s in suggestions]]] *)
Definition remaining (target_folders : list pystr) (suggestions : list suggestion) : list pystr :=
  filter (λ f, f ∉ map folder suggestions) target_folders.

(** The padding loop of the keyword classifier:
    [while len(suggestions) < 3: ...].  Every iteration appends one entry
    or leaves the loop, so three iterations are enough ([fuel] is 3 at the
    call). *)
Fixpoint pad_fallback (fuel : nat) (target_folders : list pystr)
    (suggestions : list suggestion) : list suggestion :=
  match fuel with
  | O => suggestions
  | S k =>
      if decide (length suggestions < 3)%nat then
        let rem := remaining target_folders suggestions in
        if decide (u "Sonstiges" ∈ rem) then
          pad_fallback k target_folders
            (suggestions ++ [existing (u "Sonstiges") (u "Standard-Fallback") (Fin (1 # 10))])
        else
          match rem with
          | f :: _ =>
              pad_fallback k target_folders
                (suggestions ++ [existing f (u "Automatische Zuordnung") (Fin (1 # 10))])
          | [] => suggestions
          end
      else suggestions
  end.

(** The confidence mapping of the keyword classifier,
    [min(cap, score * step)], over exact rationals: the rounding of the
    binary floats of the source (3 * 0.2 is 0.6000000000000001 there) is
    not modelled. *)
Definition mapped (cap step : Q) (score : nat) : pyfloat :=
  py_min (Fin cap) (Fin (inject_Z (Z.of_nat score) * step)).

(** The keyword classifier of both programs; they differ in the table, the
    reason text and the constants of the confidence mapping. *)
Definition keyword_top2 (table : list (pystr * list pystr)) (why : pystr) (cap step : Q)
    (target_folders : list pystr) (text_lower : pystr) : list suggestion :=
  let scores := keyword_scores table target_folders text_lower in
  let sorted_folders := sort_desc (λ a b, Nat.ltb b.2 a.2) scores in
  map (λ '(f, score), existing f why (mapped cap step score)) (take 2 sorted_folders).

(** What the HTTP call to the model service produced. *)
Inductive http_outcome : Type :=
  | HttpRaised (e : exn)
  | HttpResponse (status_code : Z) (body : pystr).

(** The two statements that unwrap a fenced block:
    [if '```' in r: r = r.split('```')[1]; if r.startswith('json'): r = r[4:]] *)
Definition strip_fences (response : pystr) : pystr :=
  if contains (u "```") response then
    let inner := default [] (split (u "```") response !! 1%nat) in
    if startswith (u "json") inner then drop 4 inner else inner
  else response.

(** [result.get('response', '').strip()] on the decoded body of the reply. *)
Definition response_text (decoded : json) : result pystr :=
  match decoded with
  | JObj fields =>
      match default (JStr []) (jget (u "response") fields) with
      | JStr s => inr (strip s)
      | _ => inl AttributeError
      end
  | _ => inl AttributeError
  end.

End Common.

(* ===================================================================== *)
(** * The file system and the clock                                       *)
(* ===================================================================== *)

Module FS.
Import Py.

(** A path is the list of its components below the root; [Path(s)] drops
    empty and [.] components.  Relative paths are read from the root. *)
Definition path := list pystr.

Definition parse_path (s : pystr) : path :=
  filter (λ c, c ≠ [] ∧ c ≠ u ".") (split (u "/") s).

(** [base / s]: an absolute right operand replaces the base. *)
Definition joinpath (base : path) (s : pystr) : path :=
  if startswith (u "/") s then parse_path s else base ++ parse_path s.

(** [str(p)] *)
Definition path_str (p : path) : pystr := u "/" ++ join (u "/") p.

(** [p.name], [p.parent] *)
Definition name (p : path) : pystr := default [] (last p).
Definition parent (p : path) : path := removelast p.

(** [PurePath.stem] and [PurePath.suffix] of a file name: the last dot
    splits the name unless it is the first or the last character. *)
Definition stem_suffix (nm : pystr) : pystr * pystr :=
  match rsplit1 46%N nm with
  | Some (a, b) =>
      if bool_decide (a ≠ [] ∧ b ≠ []) then (a, 46%N :: b) else (nm, [])
  | None => (nm, [])
  end.

Inductive node : Type :=
  | File (content : pystr)
  | Dir.

Definition filesys := gmap path node.

(** The root always exists. *)
Definition stat (fs : gmap path node) (p : path) : option node :=
  if decide (p = []) then Some Dir else fs !! p.

(** [p.exists()], [p.is_dir()] *)
Definition path_exists (fs : gmap path node) (p : path) : bool :=
  match stat fs p with Some _ => true | None => false end.
Definition is_dir (fs : gmap path node) (p : path) : bool :=
  match stat fs p with Some Dir => true | _ => false end.

(** [os.mkdir(p)] *)
Definition os_mkdir (p : path) (fs : gmap path node) : result (gmap path node) :=
  match stat fs p with
  | Some _ => inl FileExistsError
  | None =>
      match stat fs (parent p) with
      | None => inl FileNotFoundError
      | Some (File _) => inl NotADirectoryError
      | Some Dir => inr (<[p := Dir]> fs)
      end
  end.

(** [Path.mkdir(parents=..., exist_ok=...)], as pathlib writes it: try
    [os.mkdir]; on [FileNotFoundError] create the parent first when
    [parents] is set; any other [OSError] is swallowed when [exist_ok] is
    set and the path is a directory.  The recursion is on the parent, so
    [fuel] is the number of components. *)
Fixpoint mkdir_fuel (fuel : nat) (parents exist_ok : bool) (p : path)
    (fs : gmap path node) : result (gmap path node) :=
  match os_mkdir p fs with
  | inr fs' => inr fs'
  | inl FileNotFoundError =>
      if parents && bool_decide (parent p ≠ p) then
        match fuel with
        | O => inl FileNotFoundError
        | S k =>
            match mkdir_fuel k true true (parent p) fs with
            | inl e => inl e
            | inr fs1 =>
                match os_mkdir p fs1 with
                | inr fs2 => inr fs2
                | inl FileNotFoundError => inl FileNotFoundError
                | inl e => if exist_ok && is_dir fs1 p then inr fs1 else inl e
                end
            end
        end
      else inl FileNotFoundError
  | inl e => if exist_ok && is_dir fs p then inr fs else inl e
  end.

Definition mkdir (parents exist_ok : bool) (p : path) (fs : gmap path node) :
    result (gmap path node) :=
  mkdir_fuel (length p) parents exist_ok p fs.

(** Re-rooting of everything at or below [src] to [dst]. *)
Definition reroot (src dst : path) (fs : gmap path node) : gmap path node :=
  list_to_map
    (map (λ '(k, v),
            (if bool_decide (src `prefix_of` k) then dst ++ drop (length src) k else k, v))
         (map_to_list fs)).

(** The relocation inside [shutil.move]: [os.rename(src, dst)] and, when
    that raises, the copy-and-delete it falls back to.  [dst] is absent or
    a regular file here.  A regular file replaces whatever [dst] held; a
    directory moves with everything below it (the copy creates missing
    parents), cannot replace a file and cannot move into itself. *)
Definition relocate (src dst : path) (fs : gmap path node) : result (gmap path node) :=
  match stat fs src with
  | None => inl FileNotFoundError
  | Some (File c) =>
      match stat fs (parent dst) with
      | Some Dir => inr (<[dst := File c]> (delete src fs))
      | Some (File _) => inl NotADirectoryError
      | None => inl FileNotFoundError
      end
  | Some Dir =>
      if bool_decide (src `prefix_of` dst) then inl ShutilError
      else
        match stat fs dst, stat fs (parent dst) with
        | Some _, _ => inl FileExistsError
        | None, Some (File _) => inl NotADirectoryError
        | None, _ =>
            match mkdir true true (parent dst) fs with
            | inl e => inl e
            | inr fs1 => inr (reroot src dst fs1)
            end
        end
  end.

(** [shutil.move(src, dst)]: a destination that is a directory receives
    the source under its own name, unless that name is taken; otherwise
    the source is relocated onto the destination.  [fault] is a failure
    the operating system reports for the relocation before anything is
    written (permission denied, read-only file system): the file system
    is then as it was.  A copy from one file system to another that fails
    half-way and leaves a part of the file at the destination is not
    modelled. *)
Definition shutil_move (fault : option exn) (src dst : path) (fs : gmap path node) :
    result (gmap path node * path) :=
  let real_dst := if is_dir fs dst then dst ++ [name src] else dst in
  if is_dir fs dst && path_exists fs real_dst then inl ShutilError
  else
    match fault with
    | Some e => inl e
    | None =>
        match relocate src real_dst fs with
        | inl e => inl e
        | inr fs' => inr (fs', real_dst)
        end
    end.

(** ** The clock *)

Record datetime : Type := Datetime {
  year : N; month : N; day : N;
  hour : N; minute : N; second : N;
  microsecond : N;
}.

(** [n] in decimal, zero-padded to [w] digits. *)
Fixpoint digits (w : nat) (n : N) : pystr :=
  match w with
  | O => []
  | S k => digits k (n / 10)%N ++ [(48 + n mod 10)%N]
  end.

(** [dt.strftime("%Y%m%d_%H%M%S")] *)
Definition strftime_stamp (dt : datetime) : pystr :=
  digits 4 (year dt) ++ digits 2 (month dt) ++ digits 2 (day dt) ++ u "_" ++
  digits 2 (hour dt) ++ digits 2 (minute dt) ++ digits 2 (second dt).

(** [dt.isoformat()] *)
Definition isoformat (dt : datetime) : pystr :=
  digits 4 (year dt) ++ u "-" ++ digits 2 (month dt) ++ u "-" ++ digits 2 (day dt) ++
  u "T" ++ digits 2 (hour dt) ++ u ":" ++ digits 2 (minute dt) ++ u ":" ++
  digits 2 (second dt) ++
  (if (microsecond dt =? 0)%N then [] else u "." ++ digits 6 (microsecond dt)).

End FS.

(* ===================================================================== *)
(** * document_organizer.py                                               *)
(* ===================================================================== *)

Module DocumentOrganizer.
Import Py Common FS.

(** ** DocumentProcessor: the suggestion engine *)

Section Suggestions.
Context `{!PyBuiltins}.

(** The [keywords] dict of [_fallback_suggestions], in its order. *)
Definition keywords : list (pystr * list pystr) :=
  [ (u "Rechnungen",
      [u "rechnung"; u "invoice"; u "betrag"; u "eur"; u "€"; u "ustid"; u "mwst"]);
    (u "Bank", [u "iban"; u "bic"; u "überweisung"; u "konto"; u "bank"]);
    (u "Vertraege", [u "vertrag"; u "contract"; u "vereinbarung"; u "bedingungen"]);
    (u "Auto", [u "kfz"; u "auto"; u "fahrzeug"; u "versicherung"; u "werkstatt"]);
    (u "Arbeit", [u "arbeit"; u "gehalt"; u "firma"; u "unternehmen"; u "job"]) ].

(** [_fallback_suggestions]: the two best keyword folders at
    [min(0.7, score * 0.2)], padded to three. *)
Definition _fallback_suggestions (target_folders : list pystr) (text_content : pystr) :
    list suggestion :=
  let text_lower := lower text_content in
  pad_fallback 3 target_folders
    (keyword_top2 keywords (u "Schlüsselwörter gefunden") (7 # 10) (1 # 5)
       target_folders text_lower).

(** The body of the validation loop of [_parse_llm_response] for one item:
    the entry it appends, if any.  [float] failing with [TypeError] or
    [ValueError] gives 0.0; any other exception leaves the loop. *)
Definition validate_item (target_folders : list pystr) (item : json) :
    result (list suggestion) :=
  match item with
  | JObj fields =>
      match jget (u "folder") fields, jget (u "reason") fields,
            jget (u "confidence") fields with
      | Some (JStr f), Some r, Some c =>
          if decide (f ∈ target_folders) then
            match py_float c with
            | inr x =>
                inr [existing f (take 100 (py_str r)) (py_max (Fin 0) (py_min (Fin 1) x))]
            | inl TypeError | inl ValueError =>
                inr [existing f (take 100 (py_str r))
                       (py_max (Fin 0) (py_min (Fin 1) (Fin 0)))]
            | inl e => inl e
            end
          else inr []
      | _, _, _ => inr []
      end
  | _ => inr []
  end.

Fixpoint validate (target_folders : list pystr) (items : list json) :
    result (list suggestion) :=
  match items with
  | [] => inr []
  | item :: rest =>
      v ← validate_item target_folders item;
      vs ← validate target_folders rest;
      inr (v ++ vs)
  end.

(** The padding loop of [_parse_llm_response]; three iterations are
    enough, as for [pad_fallback]. *)
Fixpoint pad_parse (fuel : nat) (target_folders : list pystr)
    (valid_suggestions : list suggestion) : list suggestion :=
  match fuel with
  | O => valid_suggestions
  | S k =>
      if decide (length valid_suggestions < 3)%nat then
        match remaining target_folders valid_suggestions with
        | [] => valid_suggestions
        | f :: _ =>
            pad_parse k target_folders
              (valid_suggestions ++
                 [existing f (u "Allgemeine Zuordnung") (Fin (1 # 10))])
        end
      else valid_suggestions
  end.

(** The first half of the [try] block of [_parse_llm_response]: unwrap,
    decode, check for a list, validate the items. *)
Definition validated (target_folders : list pystr) (response : pystr) :
    result (list suggestion) :=
  let response := strip_fences response in
  match json_loads (strip response) with
  | None => inl JSONDecodeError
  | Some (JArr items) => validate target_folders items
  | Some _ => inl ValueError
  end.

(** The [try] block of [_parse_llm_response]: the validated items are
    sorted by confidence, padded and cut to three. *)
Definition parse_body (target_folders : list pystr) (response : pystr) :
    result (list suggestion) :=
  valid_suggestions ← validated target_folders response;
  let valid_suggestions :=
    sort_desc (λ a b, fgt (confidence a) (confidence b)) valid_suggestions in
  inr (take 3 (pad_parse 3 target_folders valid_suggestions)).

(** [_parse_llm_response]: every exception of the block ends in the
    keyword classifier, called on the empty text. *)
Definition _parse_llm_response (target_folders : list pystr) (response : pystr) :
    list suggestion :=
  match parse_body target_folders response with
  | inr suggestions => suggestions
  | inl _ => _fallback_suggestions target_folders []
  end.

(** [result = response.json(); llm_response = result.get('response', '').strip()] *)
Definition llm_response (body : pystr) : result pystr :=
  from_option inr (inl JSONDecodeError) (json_loads body) ≫= response_text.

(** [get_folder_suggestions].  The prompt (document text, folder list and
    learning hints) only reaches the model service, whose answer
    [outcome] is an input here. *)
Definition get_folder_suggestions (target_folders : list pystr)
    (outcome : http_outcome) (text_content : pystr) : list suggestion :=
  if decide (target_folders = []) then
    replicate 3 (existing (u "Sonstiges") (u "Keine Zielordner gefunden") (Fin (1 # 10)))
  else
    match outcome with
    | HttpRaised _ => _fallback_suggestions target_folders text_content
    | HttpResponse status_code body =>
        if status_code =? 200 then
          match llm_response body with
          | inr llm_response => _parse_llm_response target_folders llm_response
          | inl _ => _fallback_suggestions target_folders text_content
          end
        else _fallback_suggestions target_folders text_content
    end.

End Suggestions.

(** ** Process state *)

(** One entry of [learning_data['decisions']]. *)
Record decision : Type := Decision {
  d_timestamp : pystr;
  d_filename : pystr;
  d_folder : pystr;
}.

(** [learning_data]: the decision log and the keyword index per folder. *)
Record learning : Type := Learning {
  decisions : list decision;
  folder_keywords : gmap pystr (list pystr);
}.

(** One value of the global [pending_files] dict. *)
Record pending_info : Type := PendingInfo {
  p_path : pystr;
  p_suggestions : list suggestion;
  p_text_preview : pystr;
  p_timestamp : pystr;
}.

(** The process and the disk.  [learning_file] is the structure that
    [processed/learning_data.json] holds, and [None] when the file does
    not hold a JSON document: it is missing, empty or cut off. *)
Record world : Type := World {
  fs : gmap path node;
  ablage_path : path;
  target_folders : list pystr;
  learning_data : learning;
  learning_file : option learning;
  pending_files : gmap pystr pending_info;
}.

(** Where the write of the learning file fails: in [open], before the
    file is touched (permission denied, the path is a directory), or
    after [open(..., 'w')] has truncated the file, while [json.dump]
    writes or when the file is closed (disk full, I/O error). *)
Inductive save_failure : Type :=
  | AtOpen (ex : exn)
  | AfterOpen (ex : exn).

Definition raised (f : save_failure) : exn :=
  match f with AtOpen ex | AfterOpen ex => ex end.

(** What the surroundings contribute to one request: the two readings of
    the clock and the failures the operating system reports. *)
Record env : Type := Env {
  now_move : datetime;
  now_learn : datetime;
  move_fault : option exn;
  save_fault : option save_failure;
}.

(** State and exceptions: a computation returns the state it reached and
    either the exception it raised or its value. *)
Definition io (A : Type) : Type := world → world * result A.

#[export] Instance io_ret : MRet io := λ A a w, (w, inr a).
#[export] Instance io_bind : MBind io := λ A B k m w,
  match m w with
  | (w', inl e) => (w', inl e)
  | (w', inr a) => k a w'
  end.

Definition get : io world := λ w, (w, inr w).
Definition put (w : world) : io unit := λ _, (w, inr tt).
Definition raise {A} (e : exn) : io A := λ w, (w, inl e).

(** A file-system operation run on the [fs] of the state. *)
Definition on_fs {A} (op : gmap path node → result (gmap path node * A)) : io A := λ w,
  match op (fs w) with
  | inl e => (w, inl e)
  | inr (fs', a) =>
      (World fs' (ablage_path w) (target_folders w) (learning_data w)
             (learning_file w) (pending_files w), inr a)
  end.

Definition set_learning (l : learning) : io unit := λ w,
  (World (fs w) (ablage_path w) (target_folders w) l (learning_file w) (pending_files w),
   inr tt).

(** Someone else writes a file: the state after [p] receives the content
    [c]. *)
Definition arrive (p : path) (c : pystr) (w : world) : world :=
  World (<[p := File c]> (fs w)) (ablage_path w) (target_folders w) (learning_data w)
        (learning_file w) (pending_files w).

(** [_save_learning_data]: the whole structure is written out.  A write
    that fails after the file was opened leaves a file that was truncated
    and holds at most a beginning of the text, which is no JSON
    document. *)
Definition _save_learning_data (e : env) : io unit := λ w,
  match save_fault e with
  | Some (AtOpen ex) => (w, inl ex)
  | Some (AfterOpen ex) =>
      (World (fs w) (ablage_path w) (target_folders w) (learning_data w)
             None (pending_files w), inl ex)
  | None =>
      (World (fs w) (ablage_path w) (target_folders w) (learning_data w)
             (Some (learning_data w)) (pending_files w), inr tt)
  end.

(** ** DocumentProcessor: learning *)

Section Learning.
Context `{!PyBuiltins}.

(** [filename.lower().replace('.pdf', '').replace('.docx', '').split('_')] *)
Definition filename_keywords (filename : pystr) : list pystr :=
  split (u "_") (replace (u ".docx") [] (replace (u ".pdf") [] (lower filename))).

(** The loop over [keywords]: a keyword longer than three characters is
    appended unless the list has it. *)
Fixpoint add_keywords (keywords : list pystr) (known : list pystr) : list pystr :=
  match keywords with
  | [] => known
  | keyword :: rest =>
      if decide ((3 < length keyword)%nat ∧ keyword ∉ known)
      then add_keywords rest (known ++ [keyword])
      else add_keywords rest known
  end.

(** [l[-n:]] *)
Definition last_n {A} (n : nat) (l : list A) : list A := drop (length l - n) l.

(** The in-memory part of [_update_learning_data]. *)
Definition learn (stamp filename chosen_folder : pystr) (l : learning) : learning :=
  let decisions1 := decisions l ++ [Decision stamp filename chosen_folder] in
  let known := default [] (folder_keywords l !! chosen_folder) in
  let index := <[chosen_folder := add_keywords (filename_keywords filename) known]>
                 (folder_keywords l) in
  Learning (last_n 100 decisions1) index.

Definition _update_learning_data (e : env) (filename chosen_folder : pystr) : io unit :=
  w ← get;
  set_learning (learn (isoformat (now_learn e)) filename chosen_folder (learning_data w));;
  _save_learning_data e.

(** A run of calls of [_update_learning_data], each with its own
    surroundings.  A write that fails raises after the structure in memory
    was updated, so the run goes on from the updated state. *)
Definition record_all (calls : list (env * pystr * pystr)) (w : world) : world :=
  foldl (λ w '(e, filename, chosen_folder),
           (_update_learning_data e filename chosen_folder w).1) w calls.

(** The record a call appends. *)
Definition record_of (call : env * pystr * pystr) : decision :=
  let '(e, filename, chosen_folder) := call in
  Decision (isoformat (now_learn e)) filename chosen_folder.

(** ** DocumentProcessor: the move *)

(** The destination name of [move_file] and of the minimal program's
    [move_file], given the colliding name: stem, timestamp, suffix. *)
Definition stamped_name (e : env) (nm : pystr) : pystr :=
  let '(stem, suffix) := stem_suffix nm in
  stem ++ u "_" ++ strftime_stamp (now_move e) ++ suffix.

(** The destination [move_file] settles on: the plain name, or the stamped
    name when the plain name is taken.  It is computed once. *)
Definition target_file (e : env) (fs : gmap path node) (target_dir : path) (nm : pystr) :
    path :=
  if path_exists fs (joinpath target_dir nm)
  then joinpath target_dir (stamped_name e nm)
  else joinpath target_dir nm.

Definition move_file (e : env) (file_path target_folder : pystr) : io pystr :=
  let file_path := parse_path file_path in
  w ← get;
  let target_dir := joinpath (ablage_path w) target_folder in
  on_fs (λ fs, fs' ← mkdir false true target_dir fs; inr (fs', tt));;
  w ← get;
  let target_file := target_file e (fs w) target_dir (name file_path) in
  on_fs (shutil_move (move_fault e) file_path target_file);;
  _update_learning_data e (name file_path) target_folder;;
  mret (path_str target_file).

End Learning.

(** ** InboxHandler and the web application *)

Section Service.
Context `{!PyBuiltins}.

(** [text_content[:300] + "..." if len(text_content) > 300 else text_content] *)
Definition text_preview (text_content : pystr) : pystr :=
  if decide (300 < length text_content)%nat
  then take 300 text_content ++ u "..."
  else text_content.

Definition set_pending (p : gmap pystr pending_info) (w : world) : world :=
  World (fs w) (ablage_path w) (target_folders w) (learning_data w) (learning_file w) p.

(** [InboxHandler.process_new_file].  [text_content] is what
    [extract_text] returned for the file and [outcome] what the model
    service answered; [now] is the clock. *)
Definition process_new_file (now : datetime) (file_path : pystr)
    (text_content : pystr) (outcome : http_outcome) (w : world) : world :=
  let file_path := parse_path file_path in
  if startswith (u ".") (name file_path) || startswith (u "~") (name file_path) then w
  else
    let suggestions := get_folder_suggestions (target_folders w) outcome text_content in
    set_pending
      (<[name file_path :=
           {| p_path := path_str file_path;
              p_suggestions := suggestions;
              p_text_preview := text_preview text_content;
              p_timestamp := isoformat now |}]> (pending_files w)) w.

(** What a route answers: the JSON body and the status code. *)
Inductive response : Type :=
  | Success (message new_path : pystr)
  | Failure (status : Z) (error : pystr)
  | FailureExn (status : Z) (e : exn).

(** [api_move_file], for a request with the fields [filename] and
    [folder]. *)
Definition api_move_file (e : env) (filename target_folder : pystr) (w : world) :
    world * response :=
  match pending_files w !! filename with
  | None => (w, Failure 404 (u "Datei nicht gefunden"))
  | Some file_info =>
      if decide (target_folder ∈ target_folders w) then
        match move_file e (p_path file_info) target_folder w with
        | (w', inr new_path) =>
            (set_pending (delete filename (pending_files w')) w',
             Success (u "Datei nach " ++ target_folder ++ u " verschoben") new_path)
        | (w', inl ex) => (w', FailureExn 500 ex)
        end
      else (w, Failure 400 (u "Ungültiger Zielordner"))
  end.

End Service.

(** ** DocumentProcessor and InboxHandler: the parts around the pipeline *)

(** The loop of [wait_for_file_ready].  [polls] are the outcomes of
    [file_path.stat()] in the iterations that begin before the deadline,
    in order: the size, or [None] for [FileNotFoundError].  The sleeping
    between them is not modelled. *)
Fixpoint wait_loop (last_size : Z) (polls : list (option Z)) : bool :=
  match polls with
  | [] => false
  | None :: rest => wait_loop last_size rest
  | Some current_size :: rest =>
      if (current_size =? last_size) && (0 <? current_size) then true
      else wait_loop current_size rest
  end.

Definition wait_for_file_ready (polls : list (option Z)) : bool := wait_loop (-1) polls.

Section Watcher.
Context `{!PyBuiltins}.

(** [InboxHandler.on_created] for the event of [src_path]. *)
Definition on_created (is_directory : bool) (src_path : pystr) (polls : list (option Z))
    (now : datetime) (text_content : pystr) (outcome : http_outcome) (w : world) : world :=
  if is_directory then w
  else if wait_for_file_ready polls
       then process_new_file now src_path text_content outcome w
       else w.

(** The [pending_count] field of [api_status]. *)
Definition pending_count (w : world) : nat := size (pending_files w).

(** One hint of [_get_learning_hints]. *)
Definition hint (folder keyword : pystr) : pystr :=
  u "Hinweis: '" ++ keyword ++ u "' wurde früher oft in '" ++ folder ++ u "' einsortiert.".

(** The list [hints] that the two loops of [_get_learning_hints] build.
    [items] is [folder_keywords.items()], in the order of the dict. *)
Definition hints (items : list (pystr * list pystr)) (text_lower : pystr) : list pystr :=
  flat_map (λ '(folder, keywords),
              map (hint folder)
                  (filter (λ keyword, contains (lower keyword) text_lower = true) keywords))
           items.

(** [_get_learning_hints] *)
Definition _get_learning_hints (items : list (pystr * list pystr)) (text_lower : pystr) :
    pystr :=
  let hints := hints items text_lower in
  if decide (hints = []) then []
  else u "Lern-Hinweise:" ++ [10%N] ++ join [10%N] (take 3 hints).

End Watcher.

End DocumentOrganizer.

(* ===================================================================== *)
(** * minimal_organizer.py                                                *)
(* ===================================================================== *)

Module MinimalOrganizer.
Import Py Common FS.

(** ** SimpleDocumentOrganizer: suggestions *)

Section Suggestions.
Context `{!PyBuiltins}.

(** [with urllib.request.urlopen(req) as response:
       result = json.loads(response.read().decode())
       llm_response = result.get('response', '').strip()]
    [urlopen] raises for a status outside 2xx. *)
Definition llm_text (outcome : http_outcome) : result pystr :=
  match outcome with
  | HttpRaised e => inl e
  | HttpResponse status_code body =>
      if (200 <=? status_code) && (status_code <? 300) then
        from_option inr (inl JSONDecodeError) (json_loads body) ≫= response_text
      else inl HTTPError
  end.

(** [suggestions[:3]], as the list the [for] loop walks: a list or a
    string can be sliced, any other decoded value raises. *)
Definition slice3 (suggestions : json) : result (list json) :=
  match suggestions with
  | JArr items => inr (take 3 items)
  | JStr s => inr (map (λ c, JStr [c]) (take 3 s))
  | JObj _ => inl KeyError
  | _ => inl TypeError
  end.

(** [item.get(k, d)] *)
Definition jget_default (k : pystr) (d : json) (fields : list (pystr * json)) : json :=
  default d (jget k fields).

(** One item of the validation loop of [get_folder_suggestions_llm]. *)
Definition validate_item (target_folders : list pystr) (item : json) :
    result (list suggestion) :=
  match item with
  | JObj fields =>
      match jget (u "folder") fields with
      | Some (JStr f) =>
          if decide (f ∈ target_folders) then
            c ← py_float (jget_default (u "confidence") (JFloat (Fin (1 # 2))) fields);
            inr [existing f
                   (take 80 (py_str (jget_default (u "reason") (JStr (u "KI-Vorschlag")) fields)))
                   c]
          else inr []
      | _ => inr []
      end
  | _ => inr []
  end.

Fixpoint validate (target_folders : list pystr) (items : list json) :
    result (list suggestion) :=
  match items with
  | [] => inr []
  | item :: rest =>
      v ← validate_item target_folders item;
      vs ← validate target_folders rest;
      inr (v ++ vs)
  end.

(** [[s for s in l if s['confidence'] >= t]] *)
Definition good (t : Q) (l : list suggestion) : list suggestion :=
  filter (λ s, fge (confidence s) (Fin t) = true) l.

(** [get_default_creation_suggestions] *)
Definition get_default_creation_suggestions (text_content : pystr) : list suggestion :=
  let text_lower := lower text_content in
  let suggestions := [] in
  let suggestions :=
    if existsb (λ word, contains word text_lower)
               [u "rechnung"; u "invoice"; u "betrag"; u "eur"; u "€"]
    then suggestions ++
           [ {| folder := u "📁 Neue Rechnungen";
                folder_path := Some (JStr (u "Neue Rechnungen"));
                reason := u "Rechnungsinhalt erkannt";
                confidence := Fin (8 # 10);
                is_new := true |} ]
    else suggestions in
  let suggestions :=
    if existsb (λ word, contains word text_lower)
               [u "vertrag"; u "contract"; u "vereinbarung"]
    then suggestions ++
           [ {| folder := u "📁 Verträge / Neue Kategorie";
                folder_path := Some (JStr (u "Verträge/Neue Kategorie"));
                reason := u "Vertragsinhalt erkannt";
                confidence := Fin (7 # 10);
                is_new := true |} ]
    else suggestions in
  let suggestions :=
    if decide (length suggestions < 3)%nat then
      let remaining :=
        [ {| folder := u "📁 Dokumente / Neue Kategorie";
             folder_path := Some (JStr (u "Dokumente/Neue Kategorie"));
             reason := u "Allgemeine Dokumentenablage";
             confidence := Fin (5 # 10);
             is_new := true |};
          {| folder := u "📁 Temporär / Zu Sortieren";
             folder_path := Some (JStr (u "Temporär/Zu Sortieren"));
             reason := u "Temporäre Ablage für spätere Sortierung";
             confidence := Fin (4 # 10);
             is_new := true |} ] in
      suggestions ++ take (3 - length suggestions) remaining
    else suggestions in
  take 3 suggestions.

(** One item of the loop of [get_folder_creation_suggestions]. *)
Definition creation_item (item : json) : result (list suggestion) :=
  match item with
  | JObj fields =>
      match jget (u "folder") fields with
      | Some folder_name =>
          let subfolder := jget_default (u "subfolder") JNull fields in
          let '(full_path, display_name) :=
            if truthy subfolder then
              (JStr (py_str folder_name ++ u "/" ++ py_str subfolder),
               u "📁 " ++ py_str folder_name ++ u " / " ++ py_str subfolder)
            else (folder_name, u "📁 " ++ py_str folder_name) in
          c ← py_float (jget_default (u "confidence") (JFloat (Fin (7 # 10))) fields);
          inr [ {| folder := display_name;
                   folder_path := Some full_path;
                   reason := take 100 (py_str (jget_default (u "reason")
                                                 (JStr (u "Neuer Ordner-Vorschlag")) fields));
                   confidence := c;
                   is_new := true |} ]
      | None => inr []
      end
  | _ => inr []
  end.

Fixpoint creation_items (items : list json) : result (list suggestion) :=
  match items with
  | [] => inr []
  | item :: rest =>
      v ← creation_item item;
      vs ← creation_items rest;
      inr (v ++ vs)
  end.

(** [get_folder_creation_suggestions]; [outcome] is the answer of the
    model service to the folder-name prompt. *)
Definition get_folder_creation_suggestions (outcome : http_outcome)
    (text_content : pystr) : list suggestion :=
  let attempt : result (list suggestion) :=
    llm_response ← llm_text outcome;
    suggestions ← from_option inr (inl JSONDecodeError)
                    (json_loads (strip (strip_fences llm_response)));
    items ← slice3 suggestions;
    creation_items items in
  match attempt with
  | inr creation_suggestions => creation_suggestions
  | inl _ => get_default_creation_suggestions text_content
  end.

(** The [keywords] dict of [get_fallback_suggestions], in its order. *)
Definition keywords : list (pystr * list pystr) :=
  [ (u "Rechnungen",
      [u "rechnung"; u "invoice"; u "betrag"; u "eur"; u "€"; u "mwst"; u "ust"]);
    (u "Bank", [u "iban"; u "bic"; u "überweisung"; u "konto"; u "bank"; u "sparkasse"]);
    (u "Vertraege", [u "vertrag"; u "contract"; u "vereinbarung"; u "bedingungen"]);
    (u "Auto", [u "kfz"; u "auto"; u "fahrzeug"; u "versicherung"; u "werkstatt"; u "tüv"]);
    (u "Arbeit", [u "arbeit"; u "gehalt"; u "firma"; u "unternehmen"; u "job"; u "lohn"]) ].

(** The suggestions [get_fallback_suggestions] has assembled when it
    reaches its quality gate. *)
Definition fallback_candidates (target_folders : list pystr) (text_content : pystr) :
    list suggestion :=
  pad_fallback 3 target_folders
    (keyword_top2 keywords (u "Schlüsselwörter erkannt") (8 # 10) (3 # 10)
       target_folders (lower text_content)).

(** [get_fallback_suggestions]; [creation] is the answer of the model
    service to the folder-name prompt, should the quality gate ask for it. *)
Definition get_fallback_suggestions (target_folders : list pystr)
    (creation : http_outcome) (text_content : pystr) : list suggestion :=
  let suggestions := fallback_candidates target_folders text_content in
  let good_fallback := good (5 # 10) suggestions in
  if decide (2 ≤ length good_fallback)%nat then take 3 suggestions
  else get_folder_creation_suggestions creation text_content.

(** The validated list of [get_folder_suggestions_llm], when the [try]
    block gets that far. *)
Definition validated (target_folders : list pystr) (choice : http_outcome) :
    result (list suggestion) :=
  llm_response ← llm_text choice;
  suggestions ← from_option inr (inl JSONDecodeError)
                  (json_loads (strip (strip_fences llm_response)));
  items ← slice3 suggestions;
  validate target_folders items.

(** [get_folder_suggestions_llm]; [choice] is the answer of the model
    service to the folder-choice prompt and [creation] its answer to the
    folder-name prompt. *)
Definition get_folder_suggestions_llm (target_folders : list pystr)
    (choice creation : http_outcome) (text_content : pystr) : list suggestion :=
  match validated target_folders choice with
  | inr valid =>
      let good_suggestions := good (6 # 10) valid in
      if decide (2 ≤ length good_suggestions)%nat then valid
      else get_folder_creation_suggestions creation text_content
  | inl _ => get_fallback_suggestions target_folders creation text_content
  end.

End Suggestions.

(** ** SimpleDocumentOrganizer: folders and the move *)

(** The organizer object and the disk.  The program keeps no registry of
    pending files: what is pending is what the inbox directory holds. *)
Record world : Type := World {
  fs : gmap path node;
  inbox_path : path;
  ablage_path : path;
  target_folders : list pystr;
}.

Record env : Type := Env {
  now_move : datetime;
  move_fault : option exn;
}.

Definition io (A : Type) : Type := world → world * result A.

#[export] Instance io_ret : MRet io := λ A a w, (w, inr a).
#[export] Instance io_bind : MBind io := λ A B k m w,
  match m w with
  | (w', inl e) => (w', inl e)
  | (w', inr a) => k a w'
  end.

Definition get : io world := λ w, (w, inr w).

Definition on_fs {A} (op : gmap path node → result (gmap path node * A)) : io A := λ w,
  match op (fs w) with
  | inl e => (w, inl e)
  | inr (fs', a) => (World fs' (inbox_path w) (ablage_path w) (target_folders w), inr a)
  end.

Definition set_target_folders (l : list pystr) : io unit := λ w,
  (World (fs w) (inbox_path w) (ablage_path w) l, inr tt).

(** Someone else writes a file: the state after [p] receives the content
    [c]. *)
Definition arrive (p : path) (c : pystr) (w : world) : world :=
  World (<[p := File c]> (fs w)) (inbox_path w) (ablage_path w) (target_folders w).

(** [a < b] on strings, by code points. *)
Fixpoint str_ltb (a b : pystr) : bool :=
  match a, b with
  | _, [] => false
  | [], _ :: _ => true
  | x :: a', y :: b' => (x <? y)%N || (x =? y)%N && str_ltb a' b'
  end.

(** [_get_target_folders]: the sorted names of the directories directly
    below [ablage/] that do not start with a dot. *)
Definition _get_target_folders : io (list pystr) := λ w,
  match stat (fs w) (ablage_path w) with
  | None => (w, inr [])
  | Some (File _) => (w, inl NotADirectoryError)
  | Some Dir =>
      let folders :=
        omap (λ '(p, n),
                match n with
                | Dir =>
                    if bool_decide (p ≠ [] ∧ parent p = ablage_path w)
                       && negb (startswith (u ".") (name p))
                    then Some (name p) else None
                | File _ => None
                end)
             (map_to_list (fs w)) in
      (w, inr (sort_desc str_ltb folders))
  end.

(** [name, ext = filename.rsplit('.', 1) if '.' in filename else (filename, '')]
    and then [f"{name}_{timestamp}.{ext}" if ext else f"{name}_{timestamp}"] *)
Definition stamped_name (e : env) (filename : pystr) : pystr :=
  let '(nm, ext) := default (filename, []) (rsplit1 46%N filename) in
  if bool_decide (ext ≠ [])
  then nm ++ u "_" ++ strftime_stamp (now_move e) ++ u "." ++ ext
  else nm ++ u "_" ++ strftime_stamp (now_move e).

(** The destination [move_file] settles on; it is computed once. *)
Definition target_file (e : env) (fs : gmap path node) (target_dir : path)
    (filename : pystr) : path :=
  if path_exists fs (joinpath target_dir filename)
  then joinpath target_dir (stamped_name e filename)
  else joinpath target_dir filename.

Definition move_file (e : env) (filename target_folder : pystr) (is_new_folder : bool) :
    io pystr :=
  w ← get;
  let source := joinpath (inbox_path w) filename in
  let target_dir := joinpath (ablage_path w) target_folder in
  on_fs (λ fs, fs' ← mkdir true true target_dir fs; inr (fs', tt));;
  (if is_new_folder then _get_target_folders ≫= set_target_folders else mret tt);;
  w ← get;
  let target_file := target_file e (fs w) target_dir filename in
  on_fs (shutil_move (move_fault e) source target_file);;
  mret (path_str target_file).

(** [create_folder] *)
Definition create_folder (folder_path : pystr) : io pystr :=
  w ← get;
  let full_path := joinpath (ablage_path w) folder_path in
  on_fs (λ fs, fs' ← mkdir true true full_path fs; inr (fs', tt));;
  (_get_target_folders ≫= set_target_folders);;
  mret (path_str full_path).

(** The [files] field of the [/status] route: the names of the regular
    files directly in the inbox, [f.name for f in inbox.glob('*') if
    f.is_file()].  The order of a directory listing is not fixed; the one
    of the map stands for it. *)
Definition status_files (w : world) : list pystr :=
  omap (λ '(p, n),
          match n with
          | File _ =>
              if bool_decide (p ≠ [] ∧ parent p = inbox_path w) then Some (name p) else None
          | Dir => None
          end)
       (map_to_list (fs w)).

(** ** SimpleHTTPHandler: the two move routes *)

Section Service.
Context `{!PyBuiltins}.

Inductive response : Type :=
  | Success (message target_path : pystr) (folder_created : bool)
  | Plain (status : Z)
  | FailureExn (status : Z) (e : exn).

(** The part of the [/api/move] branch that reads the request: the file
    name, the target folder and whether it is new.  A field that is not a
    string makes the path arithmetic of [move_file] raise before anything
    is touched. *)
Definition move_request (data : json) : result (pystr * pystr * bool) :=
  match data with
  | JObj fields =>
      filename ← from_option inr (inl KeyError) (jget (u "filename") fields);
      folder_data ← from_option inr (inl KeyError) (jget (u "folder") fields);
      '(target_folder, is_new_folder) ←
        match folder_data with
        | JObj f =>
            if truthy (default JNull (jget (u "is_new") f)) then
              target_folder ← from_option inr (inl KeyError) (jget (u "folder_path") f);
              inr (target_folder, true)
            else inr (JStr (replace (u "🗂 ") [] (py_str folder_data)), false)
        | _ => inr (JStr (replace (u "🗂 ") [] (py_str folder_data)), false)
        end;
      match filename, target_folder with
      | JStr filename, JStr target_folder => inr (filename, target_folder, is_new_folder)
      | _, _ => inl TypeError
      end
  | _ => inl TypeError
  end.

(** The [/api/move] branch of [do_POST]; [post_data] is the request body. *)
Definition api_move (e : env) (post_data : pystr) (w : world) : world * response :=
  match from_option inr (inl JSONDecodeError) (json_loads post_data) ≫= move_request with
  | inl ex => (w, FailureExn 500 ex)
  | inr (filename, target_folder, is_new_folder) =>
      match move_file e filename target_folder is_new_folder w with
      | (w', inr result_path) =>
          (w', Success (u "Datei verschoben nach " ++ target_folder ++
                        (if is_new_folder then u " (neuer Ordner erstellt)" else []))
                       result_path is_new_folder)
      | (w', inl ex) => (w', FailureExn 500 ex)
      end
  end.

(** The [/move] branch of [do_POST], for the decoded form fields. *)
Definition form_move (e : env) (filename folder : pystr) (w : world) : world * response :=
  match move_file e filename folder false w with
  | (w', inr _) => (w', Plain 200)
  | (w', inl ex) => (w', FailureExn 500 ex)
  end.

End Service.

End MinimalOrganizer.

(* ===================================================================== *)
(** * Concrete inputs                                                     *)
(* ===================================================================== *)

Module Samples.
Import Py Common FS.

(** A JSON text, written with ['] where the text has a double quote. *)
Definition js (s : string) : pystr :=
  map (λ c, if (c =? 39)%N then 34%N else c) (u s).

Definition item (f r : string) (c : Q) : json :=
  JObj [(u "folder", JStr (u f)); (u "reason", JStr (u r)); (u "confidence", JFloat (Fin c))].

(** Model answers: a single item at confidence 0.0, the same folder
    three times, one good item, an item for a folder that does not exist
    next to one that does, and the third of these inside a fenced block. *)
Definition low_text : pystr :=
  js "[{'folder': 'A', 'reason': 'r', 'confidence': 0.0}]".
Definition same_text : pystr :=
  js "[{'folder': 'A', 'reason': 'x', 'confidence': 0.9}, {'folder': 'A', 'reason': 'y', 'confidence': 0.8}, {'folder': 'A', 'reason': 'z', 'confidence': 0.7}]".
Definition bank_text : pystr :=
  js "[{'folder': 'Bank', 'reason': 'IBAN', 'confidence': 0.9}]".
Definition unknown_text : pystr :=
  js "[{'folder': 'Steuer', 'reason': 'x', 'confidence': 0.9}, {'folder': 'Bank', 'reason': 'y', 'confidence': 0.4}]".
Definition fenced_text : pystr :=
  u "```json" ++ [10%N] ++ bank_text ++ [10%N] ++ u "```".

(** The bodies of the HTTP replies that carry these answers. *)
Definition low_body : pystr :=
  js "{'response': '[{\'folder\': \'A\', \'reason\': \'r\', \'confidence\': 0.0}]'}".
Definition same_body : pystr :=
  js "{'response': '[{\'folder\': \'A\', \'reason\': \'x\', \'confidence\': 0.9}, {\'folder\': \'A\', \'reason\': \'y\', \'confidence\': 0.8}, {\'folder\': \'A\', \'reason\': \'z\', \'confidence\': 0.7}]'}".
Definition unknown_body : pystr :=
  js "{'response': '[{\'folder\': \'Steuer\', \'reason\': \'x\', \'confidence\': 0.9}, {\'folder\': \'Bank\', \'reason\': \'y\', \'confidence\': 0.4}]'}".
Definition fenced_body : pystr :=
  js "{'response': '```json\n[{\'folder\': \'Bank\', \'reason\': \'IBAN\', \'confidence\': 0.9}]\n```'}".
Definition bank_body : pystr :=
  js "{'response': '[{\'folder\': \'Bank\', \'reason\': \'IBAN\', \'confidence\': 0.9}]'}".
Definition prose_body : pystr :=
  js "{'response': 'Ich kann das nicht beantworten.'}".

(** What [json.loads] returns on these texts. *)
Definition decoded : list (pystr * json) :=
  [ (low_text, JArr [item "A" "r" 0]);
    (same_text, JArr [item "A" "x" (9 # 10); item "A" "y" (8 # 10); item "A" "z" (7 # 10)]);
    (bank_text, JArr [item "Bank" "IBAN" (9 # 10)]);
    (unknown_text, JArr [item "Steuer" "x" (9 # 10); item "Bank" "y" (4 # 10)]);
    (low_body, JObj [(u "response", JStr low_text)]);
    (same_body, JObj [(u "response", JStr same_text)]);
    (unknown_body, JObj [(u "response", JStr unknown_text)]);
    (fenced_body, JObj [(u "response", JStr fenced_text)]);
    (bank_body, JObj [(u "response", JStr bank_text)]);
    (prose_body, JObj [(u "response", JStr (u "Ich kann das nicht beantworten."))]) ].

(** Builtins that agree with Python on every argument the examples pass:
    the texts are ASCII, [json.loads] is asked for the texts of [decoded]
    or for text that is not JSON, and neither [float] of a string nor
    [str] of a value that is not a string is reached. *)
Definition sample_builtins : PyBuiltins :=
  {| lower := ascii_lower;
     json_loads := λ s, (λ hit, hit.2.2) <$> list_find (λ kv, kv.1 = s) decoded;
     float_of_str := λ _, None;
     repr := λ _, [] |}.

(** A model answer with one item above and one below the threshold of
    the quality gate, the reply that carries it, and a reply without a
    [response] field. *)
Definition mixed_text : pystr :=
  js "[{'folder': 'Bank', 'reason': 'IBAN', 'confidence': 0.9}, {'folder': 'Rechnungen', 'reason': 'Betrag', 'confidence': 0.4}]".
Definition mixed_body : pystr :=
  js "{'response': '[{\'folder\': \'Bank\', \'reason\': \'IBAN\', \'confidence\': 0.9}, {\'folder\': \'Rechnungen\', \'reason\': \'Betrag\', \'confidence\': 0.4}]'}".
Definition empty_body : pystr := js "{}".

(** [sample_builtins] with these texts decoded as well. *)
Definition more_builtins : PyBuiltins :=
  {| lower := ascii_lower;
     json_loads := λ s,
       (λ hit, hit.2.2) <$>
         list_find (λ kv, kv.1 = s)
           (decoded ++
            [ (mixed_text, JArr [item "Bank" "IBAN" (9 # 10); item "Rechnungen" "Betrag" (4 # 10)]);
              (mixed_body, JObj [(u "response", JStr mixed_text)]);
              (empty_body, JObj []) ]);
     float_of_str := λ _, None;
     repr := λ _, [] |}.

(** Folder sets. *)
Definition abc : list pystr := [u "A"; u "B"; u "C"].
Definition office : list pystr := [u "Bank"; u "Rechnungen"; u "Sonstiges"].

(** A directory tree: the inbox with one file, and the folder Bank. *)
Definition nas : path := [u "home"; u "u"; u "NAS"].
Definition inbox : path := nas ++ [u "inbox"].
Definition ablage : path := nas ++ [u "ablage"].

Definition tree : gmap path node :=
  list_to_map
    [ ([u "home"], Dir); ([u "home"; u "u"], Dir); (nas, Dir);
      (inbox, Dir); (ablage, Dir); (ablage ++ [u "Bank"], Dir);
      (inbox ++ [u "scan.pdf"], File (u "first")) ].

(** A state of the full service with nothing pending. *)
Definition idle : DocumentOrganizer.world :=
  {| DocumentOrganizer.fs := tree;
     DocumentOrganizer.ablage_path := ablage;
     DocumentOrganizer.target_folders := [u "Bank"];
     DocumentOrganizer.learning_data := DocumentOrganizer.Learning [] ∅;
     DocumentOrganizer.learning_file := Some (DocumentOrganizer.Learning [] ∅);
     DocumentOrganizer.pending_files := ∅ |}.

(** A state of the minimal service. *)
Definition minimal : MinimalOrganizer.world :=
  {| MinimalOrganizer.fs := tree;
     MinimalOrganizer.inbox_path := inbox;
     MinimalOrganizer.ablage_path := ablage;
     MinimalOrganizer.target_folders := [u "Bank"] |}.

Definition noon : datetime := Datetime 2025 3 14 12 0 0 0.
Definition noon_later : datetime := Datetime 2025 3 14 12 0 0 500000.

(** Surroundings without failures, for the full and the minimal service. *)
Definition calm (now : datetime) : DocumentOrganizer.env :=
  DocumentOrganizer.Env now now None None.
Definition calm_minimal (now : datetime) : MinimalOrganizer.env :=
  MinimalOrganizer.Env now None.

(** The full service with [scan.pdf] pending. *)
Definition waiting : DocumentOrganizer.world :=
  DocumentOrganizer.set_pending
    {[ u "scan.pdf" :=
         {| DocumentOrganizer.p_path := u "/home/u/NAS/inbox/scan.pdf";
            DocumentOrganizer.p_suggestions := [];
            DocumentOrganizer.p_text_preview := u "first";
            DocumentOrganizer.p_timestamp := isoformat noon |} ]}
    idle.


(** Surroundings in which the operating system refuses the relocation
    (errno 13, permission denied). *)
Definition denied : DocumentOrganizer.env :=
  DocumentOrganizer.Env noon noon (Some (OSError 13)) None.

(** 101 confirmations of files called [brief_steuer.pdf] for Bank. *)
Definition confirmations : list (DocumentOrganizer.env * pystr * pystr) :=
  replicate 101 (calm noon, u "brief_steuer.pdf", u "Bank").

End Samples.

(* ===================================================================== *)
(** * What the specification asks of a result                             *)
(* ===================================================================== *)

Module Spec.
Import Py Common FS.

(** A confidence in [0.0, 1.0]. *)
Definition in_unit (x : pyfloat) : Prop :=
  match x with
  | Fin q => (0 <= q <= 1)%Q
  | _ => False
  end.

(** [a] does not rank below [b]. *)
Definition conf_ge (a b : suggestion) : Prop := fge (confidence a) (confidence b) = true.

(** Sorted non-increasing by confidence. *)
Definition sorted_desc (l : list suggestion) : Prop := Sorted conf_ge l.

(** No folder twice among the entries that are not new. *)
Definition no_dup_existing (l : list suggestion) : Prop :=
  NoDup (map folder (filter (λ s, is_new s = false) l)).

(** A result set as the data model describes it. *)
Definition three_ranked (target_folders : list pystr) (l : list suggestion) : Prop :=
  length l = 3%nat ∧
  Forall (λ s, is_new s = true ∨ folder s ∈ target_folders) l ∧
  Forall (λ s, in_unit (confidence s)) l ∧
  sorted_desc l ∧
  no_dup_existing l.

(** An entry for an existing folder with a confidence in range. *)
Definition sound (target_folders : list pystr) (s : suggestion) : Prop :=
  folder s ∈ target_folders ∧ is_new s = false ∧ in_unit (confidence s).

(** The confidence is at least 0.1, the confidence of a padding entry. *)
Definition above_padding (s : suggestion) : Prop :=
  fge (confidence s) (Fin (1 # 10)) = true.

(** What a padding loop appends: entries at confidence 0.1 for folders
    of the set. *)
Definition pad_entry (target_folders : list pystr) (s : suggestion) : Prop :=
  folder s ∈ target_folders ∧ is_new s = false ∧ confidence s = Fin (1 # 10).

(** A list grown from [base] by padding. *)
Definition padded (target_folders : list pystr) (base r : list suggestion) : Prop :=
  ∃ extra, r = base ++ extra ∧ Forall (pad_entry target_folders) extra ∧
           (NoDup (map folder base) → NoDup (map folder r)).

(** The confidence [x] is [t] or more, and how many suggestions of a list
    have a confidence of [t] or more.  NaN is not. *)
Definition reaches (t : Q) (x : pyfloat) : bool :=
  match x with
  | Fin q => Qle_bool t q
  | PosInf => true
  | NaN | NegInf => false
  end.

Fixpoint count_reaching (t : Q) (l : list suggestion) : nat :=
  match l with
  | [] => 0
  | s :: l' => (if reaches t (confidence s) then 1 else 0) + count_reaching t l'
  end.

(** A new-folder proposal as the proposer builds it. *)
Definition proposal (s : suggestion) : Prop :=
  is_new s = true ∧ is_Some (folder_path s).


(** A file name as a directory lists it: not empty, not [.], no slash. *)
Definition plain_name (s : pystr) : Prop := s ≠ [] ∧ s ≠ u "." ∧ 47%N ∉ s.

(** [kw] is in the keyword index of [folder]. *)
Definition indexed (l : DocumentOrganizer.learning) (folder kw : pystr) : Prop :=
  kw ∈ default [] (DocumentOrganizer.folder_keywords l !! folder).


(** A list of folders with Sonstiges, if it has it, moved to the front. *)
Definition sonstiges_first (l : list pystr) : list pystr :=
  if decide (u "Sonstiges" ∈ l) then u "Sonstiges" :: filter (λ f, f ≠ u "Sonstiges") l
  else l.

(** The entry the keyword classifier pads with for the folder [f], and the
    one [_parse_llm_response] pads with. *)
Definition fallback_pad (f : pystr) : suggestion :=
  existing f
    (if decide (f = u "Sonstiges") then u "Standard-Fallback" else u "Automatische Zuordnung")
    (Fin (1 # 10)).
Definition parse_pad (f : pystr) : suggestion :=
  existing f (u "Allgemeine Zuordnung") (Fin (1 # 10)).

(** The keyword list of [folder] in the index, empty when the folder has
    none. *)
Definition keywords_of (l : DocumentOrganizer.learning) (folder : pystr) : list pystr :=
  default [] (DocumentOrganizer.folder_keywords l !! folder).

(** [items] lists the keyword index of [l], in some order. *)
Definition index_items (l : DocumentOrganizer.learning)
    (items : list (pystr * list pystr)) : Prop :=
  items ≡ₚ map_to_list (DocumentOrganizer.folder_keywords l).

(** The write of the call did not fail; it failed in [open]; it failed
    after the file was opened. *)
Definition saved (call : DocumentOrganizer.env * pystr * pystr) : Prop :=
  DocumentOrganizer.save_fault call.1.1 = None.
Definition failed_at_open (call : DocumentOrganizer.env * pystr * pystr) : Prop :=
  ∃ ex, DocumentOrganizer.save_fault call.1.1 = Some (DocumentOrganizer.AtOpen ex).
Definition cut_off (call : DocumentOrganizer.env * pystr * pystr) : Prop :=
  ∃ ex, DocumentOrganizer.save_fault call.1.1 = Some (DocumentOrganizer.AfterOpen ex).

(** What the learning file holds after a write of [learned] with the
    outcome [fault], when it held [before]. *)
Definition file_after (fault : option DocumentOrganizer.save_failure)
    (learned : DocumentOrganizer.learning) (before : option DocumentOrganizer.learning) :
    option DocumentOrganizer.learning :=
  match fault with
  | None => Some learned
  | Some (DocumentOrganizer.AtOpen _) => before
  | Some (DocumentOrganizer.AfterOpen _) => None
  end.

(** A path whose components the operating system takes as they are: none
    is [..], which it would resolve against the directory tree, and none
    holds a NUL character, which the path functions of Python refuse with
    [ValueError].  The file-system model looks a path up component by
    component and does neither.  The limits of a file system on the
    length of a name are not modelled. *)
Definition ordinary (p : path) : Prop := Forall (λ c, c ≠ u ".." ∧ 0%N ∉ c) p.

(** No regular file lies on the way to [p], and on that way a path exists
    only if the paths above it do. *)
Definition no_file_on (fs : gmap path node) (p : path) : Prop :=
  ∀ q c, q `prefix_of` p → stat fs q ≠ Some (File c).
Definition ancestors_first (fs : gmap path node) (p : path) : Prop :=
  ∀ q1 q2, q1 `prefix_of` q2 → q2 `prefix_of` p → stat fs q1 = None → stat fs q2 = None.

(** No word of the keyword table of a folder of [target_folders] occurs in
    the text. *)
Definition no_keyword_hit (table : list (pystr * list pystr)) (target_folders : list pystr)
    (text_lower : pystr) : Prop :=
  ∀ f words, (f, words) ∈ table → f ∈ target_folders → hits words text_lower = 0%nat.

End Spec.

(* ===================================================================== *)
(** * Properties                                                          *)
(* ===================================================================== *)

Import Py Common FS Spec.

(** ** Floats *)

Lemma fle_trans x y z : fle x y = true → fle y z = true → fle x z = true.
Proof.
  destruct x, y, z; simpl; try done.
  rewrite !Qle_bool_iff. apply Qle_trans.
Qed.

Lemma fgt_fge x y : fgt x y = true → fge x y = true.
Proof.
  unfold fgt, fge. destruct x, y; simpl; try done.
  rewrite negb_true_iff, Qle_bool_iff. intros Hn.
  destruct (Qle_bool q q0) eqn:E; [done|].
  destruct (Qlt_le_dec q0 q) as [Hlt|Hle].
  - by apply Qlt_le_weak.
  - apply Qle_bool_iff in Hle. congruence.
Qed.

Lemma not_fgt_fge x y : in_unit x → in_unit y → fgt x y = false → fge y x = true.
Proof.
  unfold fgt, fge. destruct x, y; simpl; try done. intros _ _.
  by rewrite negb_false_iff.
Qed.

(** [max(0.0, min(1.0, x))] lies in the unit interval whatever [x] is. *)
Lemma clamp_in_unit x : in_unit (py_max (Fin 0) (py_min (Fin 1) x)).
Proof.
  unfold py_max, py_min, fgt.
  destruct x as [q| | |]; simpl; try (split; discriminate).
  destruct (Qle_bool 1 q) eqn:E1; simpl.
  - split; discriminate.
  - destruct (Qle_bool q 0) eqn:E0; simpl.
    + split; discriminate.
    + split.
      * destruct (Qlt_le_dec 0 q) as [H|H]; [by apply Qlt_le_weak|].
        apply Qle_bool_iff in H. congruence.
      * destruct (Qlt_le_dec q 1) as [H|H]; [by apply Qlt_le_weak|].
        apply Qle_bool_iff in H. congruence.
Qed.

(** ** The stable descending sort *)

Section Sorting.
Context {A : Type} (gt : A → A → bool) (R : A → A → Prop) (P : A → Prop).
Hypothesis gt_R : ∀ a b, P a → P b → gt a b = true → R a b.
Hypothesis not_gt_R : ∀ a b, P a → P b → gt a b = false → R b a.
Hypothesis R_trans : ∀ a b c, R a b → R b c → R a c.

Lemma insert_desc_perm x l : insert_desc gt x l ≡ₚ x :: l.
Proof using Type.
  induction l as [|y l IH]; simpl; [done|].
  destruct (gt y x); [|done].
  rewrite IH. apply Permutation_swap.
Qed.

Lemma sort_desc_perm l : sort_desc gt l ≡ₚ l.
Proof using Type.
  induction l as [|x l IH]; simpl; [done|].
  by rewrite insert_desc_perm, IH.
Qed.

Lemma insert_desc_sorted x l :
  P x → Forall P l → StronglySorted R l → StronglySorted R (insert_desc gt x l).
Proof using gt_R not_gt_R R_trans.
  intros Hx Hl Hs. induction Hs as [|y l Hs IH Hy]; simpl.
  - repeat constructor.
  - apply Forall_cons in Hl as [HPy HPl].
    destruct (gt y x) eqn:E.
    + constructor; [by apply IH|].
      rewrite insert_desc_perm. constructor; [by apply gt_R|done].
    + constructor; [by constructor|].
      constructor; [by apply not_gt_R|].
      eapply Forall_impl; [exact Hy|]. intros z Hz. simpl in Hz.
      eapply R_trans; [|exact Hz]. by apply not_gt_R.
Qed.

Lemma sort_desc_sorted l : Forall P l → StronglySorted R (sort_desc gt l).
Proof using gt_R not_gt_R R_trans.
  induction 1 as [|x l Hx Hl IH]; simpl; [constructor|].
  apply insert_desc_sorted; [done| |done].
  by rewrite sort_desc_perm.
Qed.

End Sorting.

(** ** Padding *)

Lemma map_fmap {A B} (f : A → B) (l : list A) : map f l = f <$> l.
Proof. reflexivity. Qed.

Lemma padded_refl F base : padded F base base.
Proof. exists []. by rewrite app_nil_r. Qed.

Lemma padded_step F base f why r :
  f ∈ remaining F base →
  padded F (base ++ [existing f why (Fin (1 # 10))]) r →
  padded F base r.
Proof.
  intros Hf (extra & -> & Hextra & Hnd).
  apply list_elem_of_filter in Hf as [Hnew HF].
  exists (existing f why (Fin (1 # 10)) :: extra). split_and!.
  - by rewrite <- app_assoc.
  - by constructor.
  - intros Hb. apply Hnd.
    rewrite map_app. simpl. apply NoDup_app. split_and!; [done| |apply NoDup_singleton].
    intros x Hx Hf%list_elem_of_singleton. by subst x.
Qed.

(** When nothing remains, the suggestions name every folder. *)
Lemma remaining_nil_length F l :
  NoDup F → remaining F l = [] → (length F ≤ length l)%nat.
Proof.
  intros HF Hrem.
  rewrite <- (length_map folder l). apply submseteq_length, NoDup_submseteq; [done|].
  intros f Hf. destruct (decide (f ∈ map folder l)) as [|Hn]; [done|].
  by destruct (filter_nil_not_elem_of _ _ f Hrem Hn).
Qed.

Lemma pad_fallback_padded fuel F base : padded F base (pad_fallback fuel F base).
Proof.
  revert base. induction fuel as [|k IH]; intros base; simpl; [apply padded_refl|].
  case_decide; [|apply padded_refl].
  case_decide as HS.
  - eapply padded_step; [exact HS|apply IH].
  - destruct (remaining F base) as [|f rest] eqn:E; [apply padded_refl|].
    eapply padded_step; [|apply IH]. rewrite E. by left.
Qed.

Lemma pad_fallback_length fuel F base :
  NoDup F → (3 ≤ length F)%nat → (length base ≤ 3)%nat → (3 ≤ fuel + length base)%nat →
  length (pad_fallback fuel F base) = 3%nat.
Proof.
  intros HF H3. revert base. induction fuel as [|k IH]; intros base Hb Hk; simpl; [lia|].
  case_decide as Hlt; [|lia].
  case_decide as HS.
  - apply IH; rewrite length_app; simpl; lia.
  - destruct (remaining F base) as [|f rest] eqn:E.
    + apply remaining_nil_length in E; [lia|done].
    + apply IH; rewrite length_app; simpl; lia.
Qed.

Section PadParse.
Context `{!PyBuiltins}.

Lemma pad_parse_padded fuel F base :
  padded F base (DocumentOrganizer.pad_parse fuel F base).
Proof.
  revert base. induction fuel as [|k IH]; intros base; simpl; [apply padded_refl|].
  case_decide; [|apply padded_refl].
  destruct (remaining F base) as [|f rest] eqn:E; [apply padded_refl|].
  eapply padded_step; [|apply IH]. rewrite E. by left.
Qed.

Lemma pad_parse_length fuel F base :
  NoDup F → (3 ≤ length F)%nat → (3 ≤ fuel + length base)%nat →
  (3 ≤ length (DocumentOrganizer.pad_parse fuel F base))%nat.
Proof.
  intros HF H3. revert base. induction fuel as [|k IH]; intros base Hk; simpl; [lia|].
  case_decide as Hlt; [|lia].
  destruct (remaining F base) as [|f rest] eqn:E.
  - apply remaining_nil_length in E; [lia|done].
  - apply IH; rewrite length_app; simpl; lia.
Qed.

Lemma pad_parse_full fuel F base :
  (3 ≤ length base)%nat → DocumentOrganizer.pad_parse fuel F base = base.
Proof. intros Hb. destruct fuel; simpl; [done|]. case_decide; [lia|done]. Qed.

End PadParse.

(** A padded list keeps what its base had. *)
Lemma padded_sound F base r :
  padded F base r → Forall (sound F) base → Forall (sound F) r.
Proof.
  intros (extra & -> & Hextra & _) Hb. apply Forall_app. split; [done|].
  eapply Forall_impl; [exact Hextra|]. intros s (HF & Hn & Hc).
  split_and!; [done..|]. rewrite Hc. simpl. split; discriminate.
Qed.

Lemma padded_sorted F base r :
  padded F base r → StronglySorted conf_ge base → Forall above_padding base →
  StronglySorted conf_ge r.
Proof.
  intros (extra & -> & Hextra & _) Hs Hab. apply StronglySorted_app. split_and!; [|done|].
  - intros a b Ha Hb. rewrite Forall_forall in Hab, Hextra.
    destruct (Hextra b Hb) as (_ & _ & Hc). unfold conf_ge. rewrite Hc. by apply Hab.
  - clear Hs Hab. induction Hextra as [|s extra (_ & _ & Hc) Hextra IH]; constructor; [done|].
    eapply Forall_impl; [exact Hextra|]. intros t (_ & _ & Hc').
    unfold conf_ge. by rewrite Hc, Hc'.
Qed.

Lemma sound_no_dup_existing F l :
  Forall (sound F) l → NoDup (map folder l) → no_dup_existing l.
Proof.
  intros Hs Hnd. unfold no_dup_existing.
  replace (filter (λ s, is_new s = false) l) with l; [done|].
  induction Hs as [|s l (_ & Hn & _) Hs IH]; [done|].
  rewrite filter_cons_True by done. f_equal. apply IH. by inversion Hnd.
Qed.

Lemma sound_three_ranked F l :
  length l = 3%nat → Forall (sound F) l → StronglySorted conf_ge l → NoDup (map folder l) →
  three_ranked F l.
Proof.
  intros Hlen Hs Hsorted Hnd. split_and!; [done| | | |].
  - eapply Forall_impl; [exact Hs|]. intros s (? & _ & _). by right.
  - eapply Forall_impl; [exact Hs|]. by intros s (_ & _ & ?).
  - by apply StronglySorted_Sorted.
  - by eapply sound_no_dup_existing.
Qed.

(** ** The keyword classifier *)

Lemma Qle_bool_false a b : Qle_bool a b = false → (b < a)%Q.
Proof.
  intros E. destruct (Qlt_le_dec b a) as [|H]; [done|].
  apply Qle_bool_iff in H. congruence.
Qed.

Lemma py_min_fin cap x :
  py_min (Fin cap) (Fin x) = Fin (if Qle_bool cap x then cap else x).
Proof. unfold py_min. simpl. by destruct (Qle_bool cap x). Qed.

Section KeywordClassifier.
Context (table : list (pystr * list pystr)) (why : pystr) (cap step : Q).
Context (F : list pystr) (text_lower : pystr).
Hypothesis table_keys : NoDup (map fst table).
Hypothesis cap_range : (1 # 10 <= cap <= 1)%Q.
Hypothesis step_range : (1 # 10 <= step)%Q.

Lemma scaled_mono (m n : nat) :
  (m ≤ n)%nat → (inject_Z (Z.of_nat m) * step <= inject_Z (Z.of_nat n) * step)%Q.
Proof using step_range.
  intros Hmn. apply Qmult_le_compat_r.
  - rewrite <- Zle_Qle. lia.
  - clear Hmn. lra.
Qed.

Lemma mapped_mono (m n : nat) :
  (m ≤ n)%nat → fge (mapped cap step n) (mapped cap step m) = true.
Proof using step_range.
  intros Hmn%scaled_mono. unfold mapped. rewrite !py_min_fin. unfold fge. simpl.
  apply Qle_bool_iff. revert Hmn.
  generalize (inject_Z (Z.of_nat m) * step)%Q, (inject_Z (Z.of_nat n) * step)%Q.
  intros x y Hxy.
  destruct (Qle_bool cap x) eqn:E1, (Qle_bool cap y) eqn:E2;
    rewrite ?Qle_bool_iff in *; try apply Qle_bool_false in E1;
    try apply Qle_bool_false in E2; lra.
Qed.

Lemma mapped_range (n : nat) :
  (1 ≤ n)%nat →
  in_unit (mapped cap step n) ∧ fge (mapped cap step n) (Fin (1 # 10)) = true.
Proof using cap_range step_range.
  intros Hn%scaled_mono. change (inject_Z (Z.of_nat 1)) with 1%Q in Hn.
  unfold mapped. rewrite py_min_fin. unfold fge. simpl. rewrite Qle_bool_iff.
  revert Hn. generalize (inject_Z (Z.of_nat n) * step)%Q. intros x Hx.
  destruct (Qle_bool cap x) eqn:E; [|apply Qle_bool_false in E]; lra.
Qed.

Lemma keyword_scores_spec :
  Forall (λ fs, fs.1 ∈ F ∧ (1 ≤ fs.2)%nat) (keyword_scores table F text_lower) ∧
  map fst (keyword_scores table F text_lower) `sublist_of` map fst table.
Proof using Type.
  unfold keyword_scores. clear table_keys.
  induction table as [|[f words] rest [IH1 IH2]]; simpl; [by split|].
  repeat case_decide; simpl; split;
    try done; try (by apply sublist_cons); try (by apply sublist_skip).
  constructor; [split; [done|simpl; lia]|done].
Qed.

Lemma keyword_top2_spec :
  let top := keyword_top2 table why cap step F text_lower in
  (length top ≤ 2)%nat ∧ Forall (sound F) top ∧ Forall above_padding top ∧
  NoDup (map folder top) ∧ StronglySorted conf_ge top.
Proof using table_keys cap_range step_range.
  destruct keyword_scores_spec as [Hscores Hsub].
  unfold keyword_top2.
  set (scores := keyword_scores table F text_lower) in *.
  set (gt := λ a b : pystr * nat, Nat.ltb b.2 a.2).
  assert (Hperm : sort_desc gt scores ≡ₚ scores) by apply sort_desc_perm.
  assert (Hsorted : StronglySorted (λ a b : pystr * nat, (b.2 ≤ a.2)%nat) (sort_desc gt scores)).
  { apply (sort_desc_sorted gt _ (λ _, True)).
    - intros a b _ _ E%Nat.ltb_lt. lia.
    - intros a b _ _ E%Nat.ltb_ge. lia.
    - intros a b c ??. lia.
    - by apply Forall_true. }
  assert (Htop : Forall (λ fs : pystr * nat, fs.1 ∈ F ∧ (1 ≤ fs.2)%nat)
                   (take 2 (sort_desc gt scores))).
  { apply Forall_take. by rewrite Hperm. }
  simpl. split_and!.
  - rewrite length_map, length_take. lia.
  - rewrite map_fmap. apply Forall_fmap. eapply Forall_impl; [exact Htop|].
    intros [f n] [HF Hn]. simpl in *. split_and!; [done..|]. by apply mapped_range.
  - rewrite map_fmap. apply Forall_fmap. eapply Forall_impl; [exact Htop|].
    intros [f n] [HF Hn]. simpl in *. by apply mapped_range.
  - rewrite map_map.
    replace (map _ (take 2 (sort_desc gt scores)))
      with (take 2 (map fst (sort_desc gt scores))).
    + eapply sublist_NoDup; [|apply sublist_take].
      rewrite !map_fmap, Hperm. by eapply sublist_NoDup.
    + rewrite !map_fmap, <- fmap_take. apply list_fmap_ext. by intros ? [??] ?.
  - rewrite map_fmap. eapply StronglySorted_fmap;
      [|eapply StronglySorted_app_1_l; rewrite take_drop; exact Hsorted].
    intros [f m] [g n] Hle. simpl in *. by apply mapped_mono.
Qed.

End KeywordClassifier.

Lemma classifier_three_ranked table why cap step F text_lower :
  NoDup (map fst table) → (1 # 10 <= cap <= 1)%Q → (1 # 10 <= step)%Q →
  NoDup F → (3 ≤ length F)%nat →
  let r := pad_fallback 3 F (keyword_top2 table why cap step F text_lower) in
  three_ranked F r ∧ Forall (sound F) r.
Proof.
  intros Htable Hcap Hstep HF H3 r.
  destruct (keyword_top2_spec table why cap step F text_lower Htable Hcap Hstep)
    as (Hlen & Hsound & Habove & Hnd & Hsorted).
  pose proof (pad_fallback_padded 3 F (keyword_top2 table why cap step F text_lower)) as Hp.
  fold r in Hp.
  assert (Forall (sound F) r) as Hr by by eapply padded_sound.
  split; [|done]. apply sound_three_ranked; [|done| |].
  - apply pad_fallback_length; [done|done|lia|lia].
  - by eapply padded_sorted.
  - destruct Hp as (extra & _ & _ & Hk). by apply Hk.
Qed.

(** ** The suggestion engine of the full service *)

Section SuggestionEngine.
Context `{!PyBuiltins}.

Lemma keywords_NoDup : NoDup (map fst DocumentOrganizer.keywords).
Proof. apply (bool_decide_unpack _). by vm_compute. Qed.

Lemma fallback_three_ranked F text :
  NoDup F → (3 ≤ length F)%nat →
  three_ranked F (DocumentOrganizer._fallback_suggestions F text) ∧
  Forall (sound F) (DocumentOrganizer._fallback_suggestions F text).
Proof.
  intros HF H3.
  apply classifier_three_ranked; [apply keywords_NoDup|done|done|done|done].
Qed.

Lemma validate_item_sound F item v :
  DocumentOrganizer.validate_item F item = inr v → Forall (sound F) v.
Proof.
  unfold DocumentOrganizer.validate_item. intros Hv.
  repeat (case_match; simplify_eq; try done);
    repeat constructor; simpl; try done; apply clamp_in_unit.
Qed.

Lemma validate_sound F items valid :
  DocumentOrganizer.validate F items = inr valid → Forall (sound F) valid.
Proof.
  revert valid. induction items as [|item rest IH]; simpl; intros valid Hv.
  - by simplify_eq.
  - destruct (DocumentOrganizer.validate_item F item) as [|v] eqn:E1; [done|].
    destruct (DocumentOrganizer.validate F rest) as [|vs] eqn:E2; [done|].
    simpl in Hv. simplify_eq. apply Forall_app. split; [by eapply validate_item_sound|by apply IH].
Qed.

Lemma conf_ge_trans a b c : conf_ge a b → conf_ge b c → conf_ge a c.
Proof. unfold conf_ge, fge. intros ??. by eapply fle_trans. Qed.

(** The list [_parse_llm_response] returns when validation got through. *)
Lemma ranked_valid F valid :
  NoDup F → (3 ≤ length F)%nat → Forall (sound F) valid →
  let r := take 3 (DocumentOrganizer.pad_parse 3 F
                     (sort_desc (λ a b, fgt (confidence a) (confidence b)) valid)) in
  length r = 3%nat ∧ Forall (sound F) r ∧
  (Forall above_padding valid ∨ (3 ≤ length valid)%nat → sorted_desc r) ∧
  (NoDup (map folder valid) → no_dup_existing r).
Proof.
  intros HF H3 Hvalid. cbv zeta.
  set (gt := λ a b : suggestion, fgt (confidence a) (confidence b)).
  assert (Hperm : sort_desc gt valid ≡ₚ valid) by apply sort_desc_perm.
  assert (Hsorted : StronglySorted conf_ge (sort_desc gt valid)).
  { apply (sort_desc_sorted gt _ (λ s, in_unit (confidence s))).
    - intros a b _ _. apply fgt_fge.
    - intros a b Ha Hb. by apply not_fgt_fge.
    - apply conf_ge_trans.
    - eapply Forall_impl; [exact Hvalid|]. by intros s (_ & _ & ?). }
  pose proof (pad_parse_padded 3 F (sort_desc gt valid)) as Hp.
  assert (Forall (sound F) (DocumentOrganizer.pad_parse 3 F (sort_desc gt valid))) as Hs.
  { eapply padded_sound; [done|]. by rewrite Hperm. }
  assert (∀ l : list suggestion, StronglySorted conf_ge l → sorted_desc (take 3 l)) as Htake.
  { intros l Hl. apply StronglySorted_Sorted.
    eapply StronglySorted_app_1_l. rewrite take_drop. exact Hl. }
  split_and!.
  - rewrite length_take. apply Nat.min_l.
    apply pad_parse_length; [done|done|lia].
  - by apply Forall_take.
  - intros [Hab|Hlen]; apply Htake.
    + eapply padded_sorted; [done..|]. by rewrite Hperm.
    + rewrite pad_parse_full; [done|]. by rewrite Hperm.
  - intros Hnd. apply (sound_no_dup_existing F); [by apply Forall_take|].
    rewrite map_fmap, fmap_take. eapply sublist_NoDup; [|apply sublist_take].
    destruct Hp as (extra & _ & _ & Hk). rewrite <- map_fmap. apply Hk.
    by rewrite map_fmap, Hperm.
Qed.

Lemma parse_cases F response :
  match DocumentOrganizer.validated F response with
  | inr valid =>
      DocumentOrganizer._parse_llm_response F response =
        take 3 (DocumentOrganizer.pad_parse 3 F
                  (sort_desc (λ a b, fgt (confidence a) (confidence b)) valid)) ∧
      Forall (sound F) valid
  | inl _ =>
      DocumentOrganizer._parse_llm_response F response =
        DocumentOrganizer._fallback_suggestions F []
  end.
Proof.
  unfold DocumentOrganizer._parse_llm_response, DocumentOrganizer.parse_body.
  destruct (DocumentOrganizer.validated F response) as [e|valid] eqn:E; simpl; [done|].
  split; [done|]. unfold DocumentOrganizer.validated in E.
  repeat case_match; simplify_eq. by eapply validate_sound.
Qed.

Lemma suggestions_dispatch F outcome text :
  (3 ≤ length F)%nat →
  DocumentOrganizer.get_folder_suggestions F outcome text =
    DocumentOrganizer._fallback_suggestions F text ∨
  ∃ response,
    DocumentOrganizer.get_folder_suggestions F outcome text =
      DocumentOrganizer._parse_llm_response F response.
Proof.
  intros H3. unfold DocumentOrganizer.get_folder_suggestions.
  case_decide as E; [subst F; simpl in H3; lia|].
  repeat case_match; eauto.
Qed.

End SuggestionEngine.

(** ** Code fences *)










Section Malformed.
Context `{!PyBuiltins}.



End Malformed.


(* ===================================================================== *)
(** * The claims                                                          *)
(* ===================================================================== *)

(** ** C1: three sound suggestions *)

(** C1, as amended.  For a folder set without repetitions that has at
    least three folders, [get_folder_suggestions] returns exactly three
    suggestions, each for a folder of the set, none flagged new, each
    with a confidence in [0, 1]; the result is the keyword classifier's
    or that of [_parse_llm_response] on some model text.  The keyword
    classifier's list is sorted non-increasing by confidence and names no
    folder twice.  The list built from a validated model answer is sorted
    when no validated item has a confidence below 0.1 (that of a padding
    entry) or when there are at least three validated items, and it names
    no folder twice when the validated items name no folder twice; when
    validation raises, it is a keyword classifier's list. *)
Theorem suggest_three_sound `{!PyBuiltins} (F : list pystr) :
  NoDup F → (3 ≤ length F)%nat →
  (∀ outcome text,
     let r := DocumentOrganizer.get_folder_suggestions F outcome text in
     length r = 3%nat ∧ Forall (sound F) r ∧
     (r = DocumentOrganizer._fallback_suggestions F text ∨
      ∃ response, r = DocumentOrganizer._parse_llm_response F response)) ∧
  (∀ text, three_ranked F (DocumentOrganizer._fallback_suggestions F text)) ∧
  (∀ response,
     let r := DocumentOrganizer._parse_llm_response F response in
     match DocumentOrganizer.validated F response with
     | inr valid =>
         (Forall above_padding valid ∨ (3 ≤ length valid)%nat → sorted_desc r) ∧
         (NoDup (map folder valid) → no_dup_existing r)
     | inl _ => three_ranked F r
     end).
Proof.
  intros HF H3.
  assert (∀ response,
            let r := DocumentOrganizer._parse_llm_response F response in
            length r = 3%nat ∧ Forall (sound F) r) as Hparse.
  { intros response. pose proof (parse_cases F response) as Hc. cbv zeta.
    destruct (DocumentOrganizer.validated F response) as [e|valid].
    - rewrite Hc. destruct (fallback_three_ranked F [] HF H3) as [(? & _) ?]. done.
    - destruct Hc as [-> Hvalid].
      destruct (ranked_valid F valid HF H3 Hvalid) as (? & ? & _). done. }
  split_and!.
  - intros outcome text r.
    destruct (suggestions_dispatch F outcome text H3) as [E|[response E]]; fold r in E.
    + rewrite E. destruct (fallback_three_ranked F text HF H3) as [(? & _) ?]. eauto.
    + rewrite E. destruct (Hparse response). eauto.
  - intros text. by apply fallback_three_ranked.
  - intros response. pose proof (parse_cases F response) as Hc. cbv zeta.
    destruct (DocumentOrganizer.validated F response) as [e|valid].
    + rewrite Hc. by apply fallback_three_ranked.
    + destruct Hc as [-> Hvalid].
      destruct (ranked_valid F valid HF H3 Hvalid) as (_ & _ & ? & ?). done.
Qed.

(** The theorem at the folders A, B, C. *)
Lemma suggest_three_sound_witness :
  NoDup Samples.abc ∧ (3 ≤ length Samples.abc)%nat ∧
  three_ranked Samples.abc
    (@DocumentOrganizer._fallback_suggestions Samples.sample_builtins
       Samples.abc (u "Rechnung")).
Proof.
  assert (NoDup Samples.abc) as Hnd by (apply (bool_decide_unpack _); by vm_compute).
  assert (3 ≤ length Samples.abc)%nat as H3 by (simpl; lia).
  split_and!; [done|done|].
  exact (proj1 (proj2 (@suggest_three_sound Samples.sample_builtins Samples.abc Hnd H3)) _).
Defined.

(** C1 as stated fails on the model path: an item at confidence 0.0 is
    followed by padding at 0.1, and an answer that names one folder three
    times is returned as it is. *)
Lemma suggest_three_ranked_fails :
  ¬ three_ranked Samples.abc
      (@DocumentOrganizer.get_folder_suggestions Samples.sample_builtins
         Samples.abc (HttpResponse 200 Samples.low_body) (u "x")) ∧
  ¬ three_ranked Samples.abc
      (@DocumentOrganizer.get_folder_suggestions Samples.sample_builtins
         Samples.abc (HttpResponse 200 Samples.same_body) (u "x")).
Proof.
  split; intros (_ & _ & _ & Hs & Hd).
  - unfold sorted_desc in Hs. vm_compute in Hs.
    inversion Hs as [|? ? _ Hhd]; subst. inversion Hhd as [|? ? Hrel]; subst.
    discriminate Hrel.
  - unfold no_dup_existing in Hd. vm_compute in Hd.
    apply NoDup_cons in Hd as [Hin _]. apply Hin. by left.
Qed.

(** ** C2: malformed model answers *)




(** A model text that is not JSON: the keyword classifier runs on the
    empty text, not on the preview, so the invoice vocabulary of the
    preview goes unused.  The handlers of [get_folder_suggestions] itself
    pass the preview. *)
Lemma parse_failure_ignores_preview :
  @DocumentOrganizer.get_folder_suggestions Samples.sample_builtins Samples.office
    (HttpResponse 200 Samples.prose_body) (u "Rechnung Betrag") =
  @DocumentOrganizer._fallback_suggestions Samples.sample_builtins Samples.office [] ∧
  @DocumentOrganizer.get_folder_suggestions Samples.sample_builtins Samples.office
    (HttpResponse 200 Samples.prose_body) (u "Rechnung Betrag") ≠
  @DocumentOrganizer.get_folder_suggestions Samples.sample_builtins Samples.office
    (HttpResponse 500 Samples.prose_body) (u "Rechnung Betrag").
Proof. split; [by vm_compute|]. intros H. vm_compute in H. discriminate H. Qed.

(** ** C7: the quality gate of the minimal service *)

Section Creation.
Context `{!PyBuiltins}.

Lemma creation_item_spec item l :
  MinimalOrganizer.creation_item item = inr l → Forall proposal l ∧ (length l ≤ 1)%nat.
Proof.
  unfold MinimalOrganizer.creation_item. intros Hl.
  repeat (case_match; simplify_eq; try done); simpl in *;
    try (destruct (py_float _); simplify_eq; simpl in *; simplify_eq);
    (split; [repeat constructor; simpl; eauto|simpl; lia]).
Qed.

Lemma creation_items_spec items l :
  MinimalOrganizer.creation_items items = inr l →
  Forall proposal l ∧ (length l ≤ length items)%nat.
Proof.
  revert l. induction items as [|item rest IH]; simpl; intros l Hl.
  - simplify_eq. by split.
  - destruct (MinimalOrganizer.creation_item item) as [|v] eqn:E1; [done|].
    destruct (MinimalOrganizer.creation_items rest) as [|vs] eqn:E2; [done|].
    simpl in Hl. simplify_eq.
    destruct (creation_item_spec _ _ E1), (IH _ eq_refl).
    split; [by apply Forall_app|]. rewrite length_app. lia.
Qed.

Lemma slice3_length suggestions items :
  MinimalOrganizer.slice3 suggestions = inr items → (length items ≤ 3)%nat.
Proof.
  destruct suggestions; simpl; intros; simplify_eq;
    rewrite ?length_map, length_take; lia.
Qed.

Lemma default_creation_spec text :
  let d := MinimalOrganizer.get_default_creation_suggestions text in
  Forall proposal d ∧ (length d ≤ 3)%nat ∧
  (existsb (λ word, contains word (lower text))
     [u "rechnung"; u "invoice"; u "betrag"; u "eur"; u "€"] = true ∨
   existsb (λ word, contains word (lower text))
     [u "vertrag"; u "contract"; u "vereinbarung"] = true →
   length d = 3%nat).
Proof.
  unfold MinimalOrganizer.get_default_creation_suggestions.
  destruct (existsb _ _), (existsb _ _); simpl;
    (split_and!; [repeat constructor; simpl; eauto|lia|intros [?|?]; done]).
Qed.

Lemma creation_spec outcome text :
  let r := MinimalOrganizer.get_folder_creation_suggestions outcome text in
  Forall proposal r ∧ (length r ≤ 3)%nat.
Proof.
  unfold MinimalOrganizer.get_folder_creation_suggestions.
  destruct (MinimalOrganizer.llm_text outcome) as [|llm] eqn:E1; simpl;
    [by destruct (default_creation_spec text) as (? & ? & _)|].
  destruct (json_loads _) as [suggestions|]; simpl;
    [|by destruct (default_creation_spec text) as (? & ? & _)].
  destruct (MinimalOrganizer.slice3 suggestions) as [|items] eqn:E2; simpl;
    [by destruct (default_creation_spec text) as (? & ? & _)|].
  destruct (MinimalOrganizer.creation_items items) as [|l] eqn:E3; simpl;
    [by destruct (default_creation_spec text) as (? & ? & _)|].
  destruct (creation_items_spec _ _ E3). apply slice3_length in E2.
  split; [done|lia].
Qed.

End Creation.

(** The filter of the quality gate keeps the suggestions whose
    confidence is the threshold or more. *)
Lemma good_count (t : Q) (l : list suggestion) :
  length (MinimalOrganizer.good t l) = count_reaching t l.
Proof.
  unfold MinimalOrganizer.good. induction l as [|s l IH]; [done|].
  cbn [count_reaching]. rewrite <- IH.
  assert (fge (confidence s) (Fin t) = reaches t (confidence s)) as E
    by by destruct (confidence s).
  destruct (reaches t (confidence s)).
  - by rewrite filter_cons_True by done.
  - rewrite filter_cons_False; [done|]. by rewrite E.
Qed.

(** C7.  In the minimal service, when fewer than two suggestions of the
    validated model answer have a confidence of 0.6 or more, and when on
    the keyword path fewer than two candidates have a confidence of 0.5
    or more, the result is that of the new-folder proposer; every entry of
    it is flagged new, so none of the weak suggestions for existing
    folders is returned.  With two or more such suggestions the gate lets
    them pass: the result is the validated list, and on the keyword path
    the first three candidates. *)
Theorem quality_gate_delegates `{!PyBuiltins} (F : list pystr)
    (choice creation : http_outcome) (text : pystr) :
  (∀ valid,
     MinimalOrganizer.validated F choice = inr valid →
     ((count_reaching (6 # 10) valid < 2)%nat →
        MinimalOrganizer.get_folder_suggestions_llm F choice creation text =
        MinimalOrganizer.get_folder_creation_suggestions creation text) ∧
     ((2 ≤ count_reaching (6 # 10) valid)%nat →
        MinimalOrganizer.get_folder_suggestions_llm F choice creation text = valid)) ∧
  ((count_reaching (5 # 10) (MinimalOrganizer.fallback_candidates F text) < 2)%nat →
     MinimalOrganizer.get_fallback_suggestions F creation text =
     MinimalOrganizer.get_folder_creation_suggestions creation text ∧
     ∀ e, MinimalOrganizer.validated F choice = inl e →
          MinimalOrganizer.get_folder_suggestions_llm F choice creation text =
          MinimalOrganizer.get_folder_creation_suggestions creation text) ∧
  ((2 ≤ count_reaching (5 # 10) (MinimalOrganizer.fallback_candidates F text))%nat →
     MinimalOrganizer.get_fallback_suggestions F creation text =
     take 3 (MinimalOrganizer.fallback_candidates F text)) ∧
  Forall (λ s, is_new s = true)
    (MinimalOrganizer.get_folder_creation_suggestions creation text).
Proof.
  split_and!.
  - intros valid Hv. unfold MinimalOrganizer.get_folder_suggestions_llm.
    rewrite Hv, good_count. split; intros Hg; case_decide; (done || lia).
  - intros Hg.
    assert (MinimalOrganizer.get_fallback_suggestions F creation text =
            MinimalOrganizer.get_folder_creation_suggestions creation text) as Hf.
    { unfold MinimalOrganizer.get_fallback_suggestions. rewrite good_count.
      case_decide; [lia|done]. }
    split; [done|]. intros e He.
    unfold MinimalOrganizer.get_folder_suggestions_llm. by rewrite He.
  - intros Hg. unfold MinimalOrganizer.get_fallback_suggestions. rewrite good_count.
    case_decide; [done|lia].
  - destruct (creation_spec creation text) as [Hp _].
    eapply Forall_impl; [exact Hp|]. by intros s [? _].
Qed.

(** The theorem at a model answer with Bank at 0.9 and Rechnungen at 0.4,
    and at a text whose keywords give Rechnungen 0.6, Bank 0.3 and
    Sonstiges 0.1: one suggestion reaches the threshold, the others do
    not, and the proposer is asked. *)
Lemma quality_gate_delegates_witness :
  @MinimalOrganizer.get_folder_suggestions_llm Samples.more_builtins Samples.office
    (HttpResponse 200 Samples.mixed_body) (HttpRaised HTTPError) (u "Hallo") =
  @MinimalOrganizer.get_folder_creation_suggestions Samples.more_builtins
    (HttpRaised HTTPError) (u "Hallo") ∧
  map (λ s, (folder s, confidence s))
    (@MinimalOrganizer.fallback_candidates Samples.more_builtins Samples.office
       (u "rechnung betrag iban")) =
  [(u "Rechnungen", Fin (6 # 10)); (u "Bank", Fin (3 # 10)); (u "Sonstiges", Fin (1 # 10))] ∧
  @MinimalOrganizer.get_fallback_suggestions Samples.more_builtins Samples.office
    (HttpRaised HTTPError) (u "rechnung betrag iban") =
  @MinimalOrganizer.get_folder_creation_suggestions Samples.more_builtins
    (HttpRaised HTTPError) (u "rechnung betrag iban").
Proof.
  split_and!.
  - refine (proj1 (proj1 (@quality_gate_delegates Samples.more_builtins Samples.office
                            (HttpResponse 200 Samples.mixed_body) (HttpRaised HTTPError)
                            (u "Hallo"))
                     [existing (u "Bank") (u "IBAN") (Fin (9 # 10));
                      existing (u "Rechnungen") (u "Betrag") (Fin (4 # 10))] _) _).
    + by vm_compute.
    + vm_compute. lia.
  - by vm_compute.
  - refine (proj1 (proj1 (proj2 (@quality_gate_delegates Samples.more_builtins
                                   Samples.office (HttpRaised HTTPError)
                                   (HttpRaised HTTPError) (u "rechnung betrag iban"))) _)).
    vm_compute. lia.
Defined.

(** ** C8: the preview kept for a pending file *)

Lemma text_preview_length text :
  (length (DocumentOrganizer.text_preview text) ≤ 303)%nat.
Proof.
  unfold DocumentOrganizer.text_preview. case_decide; [|lia].
  rewrite length_app, length_take. change (length (u "...")) with 3%nat. lia.
Qed.

(** The entry [process_new_file] stores for a file it does not ignore. *)
Lemma stored_entry `{!PyBuiltins} (now : datetime) (file_path text : pystr)
    (outcome : http_outcome) (w : DocumentOrganizer.world) :
  let nm := name (parse_path file_path) in
  startswith (u ".") nm = false → startswith (u "~") nm = false →
  ∃ info,
    DocumentOrganizer.pending_files
      (DocumentOrganizer.process_new_file now file_path text outcome w) !! nm = Some info ∧
    DocumentOrganizer.p_text_preview info = DocumentOrganizer.text_preview text.
Proof.
  intros nm Hdot Htilde. unfold DocumentOrganizer.process_new_file.
  fold nm. rewrite Hdot, Htilde. simpl. rewrite lookup_insert_eq.
  eexists. split; done.
Qed.

(** C8, as amended.  For every discovered file (one whose name starts
    with neither [.] nor [~]) the pending entry stored under its name has
    a text preview of at most 303 characters: the text itself when it has
    at most 300 characters, and otherwise its first 300 characters
    followed by three dots. *)
Theorem pending_preview_bounded `{!PyBuiltins} (now : datetime) (file_path text : pystr)
    (outcome : http_outcome) (w : DocumentOrganizer.world) :
  let nm := name (parse_path file_path) in
  startswith (u ".") nm = false → startswith (u "~") nm = false →
  ∃ info,
    DocumentOrganizer.pending_files
      (DocumentOrganizer.process_new_file now file_path text outcome w) !! nm = Some info ∧
    (length (DocumentOrganizer.p_text_preview info) ≤ 303)%nat ∧
    ((length text ≤ 300)%nat → DocumentOrganizer.p_text_preview info = text) ∧
    ((300 < length text)%nat →
     DocumentOrganizer.p_text_preview info = take 300 text ++ u "...").
Proof.
  intros nm Hdot Htilde.
  destruct (stored_entry now file_path text outcome w Hdot Htilde) as (info & Hinfo & Hp).
  exists info. split; [done|]. rewrite Hp. split_and!.
  - apply text_preview_length.
  - intros Hle. unfold DocumentOrganizer.text_preview. case_decide; [lia|done].
  - intros Hlt. unfold DocumentOrganizer.text_preview. case_decide; [done|lia].
Qed.

(** The theorem at a text of 301 letters. *)
Lemma pending_preview_bounded_witness :
  ∃ info,
    DocumentOrganizer.pending_files
      (@DocumentOrganizer.process_new_file Samples.sample_builtins Samples.noon
         (u "/home/u/NAS/inbox/scan.pdf") (replicate 301 97%N) (HttpRaised HTTPError)
         Samples.idle) !! u "scan.pdf" = Some info ∧
    (length (DocumentOrganizer.p_text_preview info) ≤ 303)%nat.
Proof.
  destruct (@pending_preview_bounded Samples.sample_builtins Samples.noon
              (u "/home/u/NAS/inbox/scan.pdf") (replicate 301 97%N) (HttpRaised HTTPError)
              Samples.idle eq_refl eq_refl) as (info & Hinfo & Hlen & _).
  exists info. split; [exact Hinfo|exact Hlen].
Defined.

(** C8 as stated fails: a text of 301 characters is kept as 303. *)
Lemma pending_preview_exceeds_300 :
  ¬ ∀ info,
      DocumentOrganizer.pending_files
        (@DocumentOrganizer.process_new_file Samples.sample_builtins Samples.noon
           (u "/home/u/NAS/inbox/scan.pdf") (replicate 301 97%N) (HttpRaised HTTPError)
           Samples.idle) !! u "scan.pdf" = Some info →
      (length (DocumentOrganizer.p_text_preview info) ≤ 300)%nat.
Proof.
  intros Hall.
  destruct (@stored_entry Samples.sample_builtins Samples.noon
              (u "/home/u/NAS/inbox/scan.pdf") (replicate 301 97%N) (HttpRaised HTTPError)
              Samples.idle eq_refl eq_refl) as (info & Hinfo & Hp).
  specialize (Hall info Hinfo). rewrite Hp in Hall.
  vm_compute in Hall. lia.
Qed.

(** ** C9: new-folder proposals *)




(** ** C6: the learning store *)

Lemma last_n_app_last_n {A} (n : nat) (l m : list A) :
  DocumentOrganizer.last_n n (DocumentOrganizer.last_n n l ++ m) =
  DocumentOrganizer.last_n n (l ++ m).
Proof.
  unfold DocumentOrganizer.last_n.
  destruct (decide (length l ≤ n)%nat) as [Hle|Hgt].
  - replace (length l - n)%nat with 0%nat by lia. done.
  - rewrite !length_app, length_drop.
    replace (length l - (length l - n) + length m - n)%nat with (length m) by lia.
    replace (length l + length m - n)%nat with ((length l - n) + length m)%nat by lia.
    rewrite <- drop_drop. f_equal. rewrite drop_app_le by lia. done.
Qed.

Lemma last_n_length {A} (n : nat) (l : list A) :
  (length (DocumentOrganizer.last_n n l) ≤ n)%nat.
Proof. unfold DocumentOrganizer.last_n. rewrite length_drop. lia. Qed.

Section LearningStore.
Context `{!PyBuiltins}.

Lemma update_learning_data e filename chosen_folder w :
  DocumentOrganizer.learning_data
    (DocumentOrganizer._update_learning_data e filename chosen_folder w).1 =
  DocumentOrganizer.learn (isoformat (DocumentOrganizer.now_learn e)) filename chosen_folder
    (DocumentOrganizer.learning_data w).
Proof.
  unfold DocumentOrganizer._update_learning_data, DocumentOrganizer._save_learning_data,
    DocumentOrganizer.set_learning, DocumentOrganizer.get, mbind, DocumentOrganizer.io_bind.
  simpl. by destruct (DocumentOrganizer.save_fault e) as [[]|].
Qed.

Lemma record_all_cons call calls w :
  DocumentOrganizer.record_all (call :: calls) w =
  DocumentOrganizer.record_all calls
    (DocumentOrganizer._update_learning_data call.1.1 call.1.2 call.2 w).1.
Proof. by destruct call as [[e filename] chosen_folder]. Qed.

Lemma record_all_decisions calls w :
  calls ≠ [] →
  DocumentOrganizer.decisions
    (DocumentOrganizer.learning_data (DocumentOrganizer.record_all calls w)) =
  DocumentOrganizer.last_n 100
    (DocumentOrganizer.decisions (DocumentOrganizer.learning_data w) ++
     map DocumentOrganizer.record_of calls).
Proof.
  revert w. induction calls as [|call calls IH]; intros w Hne; [done|].
  rewrite record_all_cons.
  destruct (decide (calls = [])) as [->|Hcalls].
  - simpl. rewrite update_learning_data. by destruct call as [[e filename] chosen_folder].
  - rewrite IH by done. rewrite update_learning_data. simpl.
    rewrite last_n_app_last_n, <- app_assoc.
    by destruct call as [[e filename] chosen_folder].
Qed.

Lemma add_keywords_spec keywords known :
  (∀ kw, kw ∈ known → kw ∈ DocumentOrganizer.add_keywords keywords known) ∧
  (∀ kw, kw ∈ keywords → (3 < length kw)%nat →
         kw ∈ DocumentOrganizer.add_keywords keywords known).
Proof.
  revert known. induction keywords as [|keyword rest IH]; intros known; simpl.
  - split; [done|]. by intros kw ?%not_elem_of_nil.
  - case_decide as Hd.
    + destruct (IH (known ++ [keyword])) as [Hk Hr]. split.
      * intros kw Hkw. apply Hk, elem_of_app. by left.
      * intros kw [->|Hkw]%elem_of_cons Hlen; [|by apply Hr].
        apply Hk, elem_of_app. right. by left.
    + destruct (IH known) as [Hk Hr]. split; [done|].
      intros kw [->|Hkw]%elem_of_cons Hlen; [|by apply Hr].
      apply Hk. destruct (decide (keyword ∈ known)); [done|]. by destruct Hd.
Qed.

Lemma learn_indexed stamp filename chosen_folder l :
  (∀ folder kw, indexed l folder kw →
                indexed (DocumentOrganizer.learn stamp filename chosen_folder l) folder kw) ∧
  (∀ kw, kw ∈ DocumentOrganizer.filename_keywords filename → (3 < length kw)%nat →
         indexed (DocumentOrganizer.learn stamp filename chosen_folder l) chosen_folder kw).
Proof.
  unfold indexed, DocumentOrganizer.learn. simpl.
  destruct (add_keywords_spec (DocumentOrganizer.filename_keywords filename)
              (default [] (DocumentOrganizer.folder_keywords l !! chosen_folder)))
    as [Hk Hr].
  split.
  - intros folder kw Hkw. destruct (decide (chosen_folder = folder)) as [->|Hne].
    + rewrite lookup_insert_eq. simpl. by apply Hk.
    + by rewrite lookup_insert_ne.
  - intros kw Hkw Hlen. rewrite lookup_insert_eq. simpl. by apply Hr.
Qed.

Lemma record_all_indexed calls w :
  (∀ folder kw,
     indexed (DocumentOrganizer.learning_data w) folder kw →
     indexed (DocumentOrganizer.learning_data (DocumentOrganizer.record_all calls w))
       folder kw) ∧
  (∀ e filename chosen_folder kw,
     (e, filename, chosen_folder) ∈ calls →
     kw ∈ DocumentOrganizer.filename_keywords filename → (3 < length kw)%nat →
     indexed (DocumentOrganizer.learning_data (DocumentOrganizer.record_all calls w))
       chosen_folder kw).
Proof.
  revert w. induction calls as [|call calls IH]; intros w.
  - split; [done|]. by intros ???? ?%not_elem_of_nil.
  - rewrite record_all_cons.
    destruct (IH (DocumentOrganizer._update_learning_data call.1.1 call.1.2 call.2 w).1)
      as [Hk Hr].
    destruct (learn_indexed (isoformat (DocumentOrganizer.now_learn call.1.1))
                call.1.2 call.2 (DocumentOrganizer.learning_data w)) as [Hk1 Hr1].
    rewrite <- update_learning_data in Hk1, Hr1.
    split.
    + intros folder kw Hkw. by apply Hk, Hk1.
    + intros e filename chosen_folder kw [Heq|Hin]%elem_of_cons Hkw Hlen.
      * subst call. apply Hk. by apply Hr1.
      * by eapply Hr.
Qed.

End LearningStore.

(** C6.  After any run of [record_decision] calls the decision log is the
    last 100 entries of the old log followed by the new records, in call
    order; after 101 calls it is the records of calls 2 to 101, so its
    length is 100 and the first record is gone.  The keyword index only
    grows: a keyword indexed before the run is indexed after it, and so
    is every token longer than three characters of the file name of every
    call of the run, evicted or not.  The tokens are those of the
    lower-cased name, without its [.pdf] and [.docx] markers, split at
    the underscore. *)
Theorem decision_log_capped_index_grows `{!PyBuiltins}
    (calls : list (DocumentOrganizer.env * pystr * pystr)) (w : DocumentOrganizer.world) :
  let before := DocumentOrganizer.learning_data w in
  let after := DocumentOrganizer.learning_data (DocumentOrganizer.record_all calls w) in
  let records := map DocumentOrganizer.record_of calls in
  (calls ≠ [] →
     DocumentOrganizer.decisions after =
       DocumentOrganizer.last_n 100 (DocumentOrganizer.decisions before ++ records) ∧
     (length (DocumentOrganizer.decisions after) ≤ 100)%nat) ∧
  (length calls = 101%nat →
     DocumentOrganizer.decisions after = drop 1 records ∧
     length (DocumentOrganizer.decisions after) = 100%nat) ∧
  (∀ folder kw, indexed before folder kw → indexed after folder kw) ∧
  (∀ e filename chosen_folder kw,
     (e, filename, chosen_folder) ∈ calls →
     kw ∈ DocumentOrganizer.filename_keywords filename → (3 < length kw)%nat →
     indexed after chosen_folder kw).
Proof.
  cbv zeta. destruct (record_all_indexed calls w) as [Hk Hr]. split_and!; [| |done|done].
  - intros Hne. rewrite record_all_decisions by done. split; [done|apply last_n_length].
  - intros Hlen. assert (calls ≠ []) as Hne by (intros ->; done).
    rewrite record_all_decisions by done. unfold DocumentOrganizer.last_n.
    assert (length (map DocumentOrganizer.record_of calls) = 101%nat) as Hm
      by by rewrite length_map.
    rewrite length_app, Hm.
    replace (length (DocumentOrganizer.decisions (DocumentOrganizer.learning_data w))
             + 101 - 100)%nat
      with (length (DocumentOrganizer.decisions (DocumentOrganizer.learning_data w)) + 1)%nat
      by lia.
    rewrite drop_app_add. split; [done|]. rewrite length_drop. lia.
Qed.

(** The theorem at 101 confirmations for one folder. *)
Lemma decision_log_capped_index_grows_witness :
  length (DocumentOrganizer.decisions
            (DocumentOrganizer.learning_data
               (@DocumentOrganizer.record_all Samples.sample_builtins
                  Samples.confirmations Samples.idle))) = 100%nat ∧
  indexed (DocumentOrganizer.learning_data
             (@DocumentOrganizer.record_all Samples.sample_builtins
                Samples.confirmations Samples.idle))
    (u "Bank") (u "steuer").
Proof.
  pose proof (@decision_log_capped_index_grows Samples.sample_builtins
                Samples.confirmations Samples.idle) as (_ & Hcap & _ & Htok).
  split.
  - exact (proj2 (Hcap eq_refl)).
  - refine (Htok (Samples.calm Samples.noon) (u "brief_steuer.pdf") (u "Bank") (u "steuer")
              _ _ _).
    + by left.
    + apply (bool_decide_unpack _). by vm_compute.
    + vm_compute. lia.
Defined.

(** ** The file system *)

(** [mkdir(exist_ok=True)] on a directory that exists changes nothing. *)
Lemma mkdir_existing parents p fs :
  is_dir fs p = true → mkdir parents true p fs = inr fs.
Proof.
  intros Hd. unfold mkdir.
  assert (os_mkdir p fs = inl FileExistsError) as Hos.
  { unfold os_mkdir. unfold is_dir in Hd. by destruct (stat fs p) as [[]|]. }
  destruct (length p); simpl; rewrite Hos, Hd; done.
Qed.

(** ** C3 and C4: the confirmation route of the full service *)

Section Confirmation.
Context `{!PyBuiltins}.

(** [move_file] never touches the pending registry, whether it returns or
    raises. *)
Lemma move_file_pending e file_path target_folder w :
  DocumentOrganizer.pending_files (DocumentOrganizer.move_file e file_path target_folder w).1 =
  DocumentOrganizer.pending_files w.
Proof.
  unfold DocumentOrganizer.move_file, DocumentOrganizer._update_learning_data,
    DocumentOrganizer._save_learning_data, DocumentOrganizer.set_learning,
    DocumentOrganizer.on_fs, DocumentOrganizer.get, mbind, mret,
    DocumentOrganizer.io_bind, DocumentOrganizer.io_ret.
  simpl. repeat (case_match; simplify_eq; simpl in *; try done).
Qed.

(** What [move_file] does up to a relocation that raises. *)
Lemma move_file_relocation_raises e file_path target_folder w fs1 ex :
  let target_dir := joinpath (DocumentOrganizer.ablage_path w) target_folder in
  let src := parse_path file_path in
  mkdir false true target_dir (DocumentOrganizer.fs w) = inr fs1 →
  shutil_move (DocumentOrganizer.move_fault e) src
    (DocumentOrganizer.target_file e fs1 target_dir (name src)) fs1 = inl ex →
  DocumentOrganizer.move_file e file_path target_folder w =
    (DocumentOrganizer.World fs1 (DocumentOrganizer.ablage_path w)
       (DocumentOrganizer.target_folders w) (DocumentOrganizer.learning_data w)
       (DocumentOrganizer.learning_file w) (DocumentOrganizer.pending_files w), inl ex).
Proof.
  intros target_dir src Hmk Hmv.
  unfold DocumentOrganizer.move_file, DocumentOrganizer.on_fs, DocumentOrganizer.get,
    mbind, DocumentOrganizer.io_bind.
  simpl. fold target_dir src. rewrite Hmk. simpl. by rewrite Hmv.
Qed.

End Confirmation.

(** C3, as amended.  In the full service a confirmation whose file name
    is not in the pending registry is answered with 404, and one whose
    file is pending but whose target folder is not in the folder set with
    400; in both cases the state after the request is the state before
    it: no file moved, no directory created, the registry and the
    learning data untouched. *)
Theorem confirm_move_rejected `{!PyBuiltins} (e : DocumentOrganizer.env)
    (filename target_folder : pystr) (w : DocumentOrganizer.world) :
  (DocumentOrganizer.pending_files w !! filename = None ∨
   target_folder ∉ DocumentOrganizer.target_folders w) →
  ∃ status error,
    DocumentOrganizer.api_move_file e filename target_folder w =
      (w, DocumentOrganizer.Failure status error) ∧
    (DocumentOrganizer.pending_files w !! filename = None → status = 404) ∧
    (is_Some (DocumentOrganizer.pending_files w !! filename) → status = 400).
Proof.
  intros Hbad. unfold DocumentOrganizer.api_move_file.
  destruct (DocumentOrganizer.pending_files w !! filename) as [info|] eqn:E.
  - destruct Hbad as [|Hnot]; [done|]. case_decide; [done|].
    eexists _, _. split_and!; [done|done|done].
  - eexists _, _. split_and!; [done|done|]. by intros [??].
Qed.

(** The theorem at a file nobody announced. *)
Lemma confirm_move_rejected_witness :
  ∃ error,
    @DocumentOrganizer.api_move_file Samples.sample_builtins
      (Samples.calm Samples.noon) (u "ghost.pdf") (u "Bank") Samples.waiting =
    (Samples.waiting, DocumentOrganizer.Failure 404 error).
Proof.
  assert (DocumentOrganizer.pending_files Samples.waiting !! u "ghost.pdf" = None) as Hnone
    by by vm_compute.
  destruct (@confirm_move_rejected Samples.sample_builtins (Samples.calm Samples.noon)
              (u "ghost.pdf") (u "Bank") Samples.waiting (or_introl Hnone))
    as (status & error & Hr & H404 & _).
  exists error. rewrite Hr. by rewrite (H404 Hnone).
Defined.

(** C3 as stated fails in the minimal service, which has no registry and
    does not look at the folder set.  A move to a folder that is not in
    the set goes through and creates it; a move of a file that is not in
    the inbox is answered with an error after the directory was
    created. *)
Lemma confirm_move_minimal_has_effects :
  (u "Neu" ∉ MinimalOrganizer.target_folders Samples.minimal) ∧
  (let r := @MinimalOrganizer.form_move (Samples.calm_minimal Samples.noon)
              (u "scan.pdf") (u "Neu") Samples.minimal in
   r.2 = MinimalOrganizer.Plain 200 ∧
   MinimalOrganizer.fs Samples.minimal !! (Samples.ablage ++ [u "Neu"]) = None ∧
   MinimalOrganizer.fs r.1 !! (Samples.ablage ++ [u "Neu"]) = Some Dir ∧
   MinimalOrganizer.fs r.1 !! (Samples.ablage ++ [u "Neu"; u "scan.pdf"]) =
     Some (File (u "first"))) ∧
  (let r := @MinimalOrganizer.form_move (Samples.calm_minimal Samples.noon)
              (u "ghost.pdf") (u "Neu") Samples.minimal in
   MinimalOrganizer.fs Samples.minimal !! (Samples.inbox ++ [u "ghost.pdf"]) = None ∧
   r.2 = MinimalOrganizer.FailureExn 500 FileNotFoundError ∧
   MinimalOrganizer.fs r.1 !! (Samples.ablage ++ [u "Neu"]) = Some Dir).
Proof.
  split_and!.
  - apply (bool_decide_unpack _). by vm_compute.
  - by vm_compute.
  - by vm_compute.
Qed.

(** C4.  When a confirmation passes both checks and the relocation
    raises, the route answers 500 with that exception, and the state it
    leaves has the pending registry of the state before (the entry of the
    file included) and the learning data of the state before. *)
Theorem move_failure_surfaced `{!PyBuiltins} (e : DocumentOrganizer.env)
    (filename target_folder : pystr) (w : DocumentOrganizer.world)
    (info : DocumentOrganizer.pending_info) (fs1 : gmap path node) (ex : exn) :
  let target_dir := joinpath (DocumentOrganizer.ablage_path w) target_folder in
  let src := parse_path (DocumentOrganizer.p_path info) in
  DocumentOrganizer.pending_files w !! filename = Some info →
  target_folder ∈ DocumentOrganizer.target_folders w →
  mkdir false true target_dir (DocumentOrganizer.fs w) = inr fs1 →
  shutil_move (DocumentOrganizer.move_fault e) src
    (DocumentOrganizer.target_file e fs1 target_dir (name src)) fs1 = inl ex →
  ∃ w',
    DocumentOrganizer.api_move_file e filename target_folder w =
      (w', DocumentOrganizer.FailureExn 500 ex) ∧
    DocumentOrganizer.pending_files w' = DocumentOrganizer.pending_files w ∧
    DocumentOrganizer.pending_files w' !! filename = Some info ∧
    DocumentOrganizer.learning_data w' = DocumentOrganizer.learning_data w ∧
    DocumentOrganizer.learning_file w' = DocumentOrganizer.learning_file w.
Proof.
  intros target_dir src Hpending Hfolder Hmk Hmv.
  unfold DocumentOrganizer.api_move_file. rewrite Hpending.
  case_decide; [|done].
  rewrite (move_file_relocation_raises e _ target_folder w fs1 ex Hmk Hmv).
  eexists. split; [done|]. simpl. by split_and!.
Qed.

(** The theorem at a relocation the operating system refuses. *)
Lemma move_failure_surfaced_witness :
  ∃ w',
    @DocumentOrganizer.api_move_file Samples.sample_builtins Samples.denied
      (u "scan.pdf") (u "Bank") Samples.waiting =
      (w', DocumentOrganizer.FailureExn 500 (OSError 13)) ∧
    is_Some (DocumentOrganizer.pending_files w' !! u "scan.pdf").
Proof.
  assert (DocumentOrganizer.pending_files Samples.waiting !! u "scan.pdf" =
          Some {| DocumentOrganizer.p_path := u "/home/u/NAS/inbox/scan.pdf";
                  DocumentOrganizer.p_suggestions := [];
                  DocumentOrganizer.p_text_preview := u "first";
                  DocumentOrganizer.p_timestamp := isoformat Samples.noon |}) as Hp
    by by vm_compute.
  assert (u "Bank" ∈ DocumentOrganizer.target_folders Samples.waiting) as Hf by by left.
  destruct (@move_failure_surfaced Samples.sample_builtins Samples.denied
              (u "scan.pdf") (u "Bank") Samples.waiting _ Samples.tree (OSError 13) Hp Hf)
    as (w' & Hr & _ & Hentry & _).
  - apply mkdir_existing. by vm_compute.
  - by vm_compute.
  - exists w'. split; [exact Hr|]. rewrite Hentry. by eexists.
Defined.

(** ** Paths and names *)

Lemma slash_eq : u "/" = [47%N].
Proof. reflexivity. Qed.

Lemma elem_of_rev {A} (x : A) (l : list A) : x ∈ rev l ↔ x ∈ l.
Proof. rewrite !list_elem_of_In. symmetry. apply in_rev. Qed.

Lemma split_go_slash_cons cur c s :
  split_go [47%N] 0 cur (c :: s) =
    if (47 =? c)%N then rev cur :: split_go [47%N] 0 [] s
    else split_go [47%N] 0 (c :: cur) s.
Proof. cbn [split_go startswith]. by destruct (47 =? c)%N. Qed.

Lemma split_go_slash_none cur s :
  47%N ∉ s → split_go [47%N] 0 cur s = [rev cur ++ s].
Proof.
  revert cur. induction s as [|c s IH]; intros cur Hs.
  - simpl. by rewrite app_nil_r.
  - apply not_elem_of_cons in Hs as [Hc Hs]. rewrite split_go_slash_cons.
    assert ((47 =? c)%N = false) as -> by (apply N.eqb_neq; congruence).
    rewrite IH by done. simpl. by rewrite <- app_assoc.
Qed.

Lemma split_go_slash_pieces cur s piece :
  47%N ∉ cur → piece ∈ split_go [47%N] 0 cur s → 47%N ∉ piece.
Proof.
  revert cur. induction s as [|c s IH]; intros cur Hcur.
  - simpl. intros ->%list_elem_of_singleton. by rewrite elem_of_rev.
  - rewrite split_go_slash_cons. destruct (47 =? c)%N eqn:E.
    + intros [->|Hp]%elem_of_cons; [by rewrite elem_of_rev|].
      eapply (IH []); [apply not_elem_of_nil|done].
    + apply IH. apply not_elem_of_cons. split; [|done].
      apply N.eqb_neq in E. congruence.
Qed.

Lemma parse_path_plain s : plain_name s → parse_path s = [s].
Proof.
  intros (Hne & Hdot & Hs). unfold parse_path, split. rewrite slash_eq.
  rewrite split_go_slash_none by done. simpl.
  by rewrite filter_cons_True, filter_nil.
Qed.

Lemma joinpath_plain base s : plain_name s → joinpath base s = base ++ [s].
Proof.
  intros Hs. unfold joinpath. rewrite parse_path_plain by done.
  destruct Hs as (Hne & _ & Hs). destruct s as [|c s]; [done|].
  apply not_elem_of_cons in Hs as [Hc _]. rewrite slash_eq. cbn [startswith].
  assert ((47 =? c)%N = false) as -> by (apply N.eqb_neq; congruence). done.
Qed.

Lemma parse_path_components s c : c ∈ parse_path s → plain_name c.
Proof.
  unfold parse_path, split. rewrite slash_eq.
  intros [[Hne Hdot] Hc]%list_elem_of_filter. split_and!; [done..|].
  eapply split_go_slash_pieces; [apply not_elem_of_nil|done].
Qed.

Lemma name_plain s : parse_path s ≠ [] → plain_name (name (parse_path s)).
Proof.
  intros Hne. unfold name.
  destruct (last (parse_path s)) as [c|] eqn:E.
  - simpl. eapply parse_path_components, last_Some_elem_of, E.
  - by apply last_None in E.
Qed.

Lemma parent_snoc (dir : path) (x : pystr) : parent (dir ++ [x]) = dir.
Proof. apply removelast_last. Qed.











(** ** Relocation of a regular file *)

Lemma stat_insert_eq (fs : gmap path node) k v : k ≠ [] → stat (<[k := v]> fs) k = Some v.
Proof. intros Hk. unfold stat. case_decide; [done|]. apply lookup_insert_eq. Qed.

Lemma stat_insert_ne (fs : gmap path node) k v q :
  k ≠ q → stat (<[k := v]> fs) q = stat fs q.
Proof. intros Hk. unfold stat. case_decide; [done|]. by apply lookup_insert_ne. Qed.

Lemma stat_delete_ne (fs : gmap path node) k q : k ≠ q → stat (delete k fs) q = stat fs q.
Proof. intros Hk. unfold stat. case_decide; [done|]. by apply lookup_delete_ne. Qed.

Lemma stat_file_ne_nil (fs : gmap path node) p c : stat fs p = Some (File c) → p ≠ [].
Proof. intros Hs ->. done. Qed.

(** [shutil.move] of a regular file onto a path that is not a directory
    and whose parent is one: the file is now there, whatever was there
    before. *)
Lemma shutil_move_file (fs : gmap path node) src dst c :
  stat fs src = Some (File c) → is_dir fs dst = false → is_dir fs (parent dst) = true →
  shutil_move None src dst fs = inr (<[dst := File c]> (delete src fs), dst).
Proof.
  intros Hsrc Hdst Hparent. unfold shutil_move, relocate.
  rewrite Hdst. simpl. rewrite Hsrc.
  unfold is_dir in Hparent. by destruct (stat fs (parent dst)) as [[]|].
Qed.

Section Moves.
Context `{!PyBuiltins}.


End Moves.

(** A move of the minimal service into a folder that exists. *)
Lemma min_move_file_ok e filename target_folder w c dst :
  let src := joinpath (MinimalOrganizer.inbox_path w) filename in
  let target_dir := joinpath (MinimalOrganizer.ablage_path w) target_folder in
  is_dir (MinimalOrganizer.fs w) target_dir = true →
  stat (MinimalOrganizer.fs w) src = Some (File c) →
  MinimalOrganizer.target_file e (MinimalOrganizer.fs w) target_dir filename = dst →
  is_dir (MinimalOrganizer.fs w) dst = false → parent dst = target_dir →
  MinimalOrganizer.move_fault e = None →
  ∃ w',
    MinimalOrganizer.move_file e filename target_folder false w =
      (w', inr (path_str dst)) ∧
    MinimalOrganizer.fs w' = <[dst := File c]> (delete src (MinimalOrganizer.fs w)) ∧
    MinimalOrganizer.inbox_path w' = MinimalOrganizer.inbox_path w ∧
    MinimalOrganizer.ablage_path w' = MinimalOrganizer.ablage_path w.
Proof.
  intros src target_dir Hdir Hsrc Htarget Hdst Hparent Hmove.
  unfold MinimalOrganizer.move_file, MinimalOrganizer.on_fs, MinimalOrganizer.get,
    mbind, mret, MinimalOrganizer.io_bind, MinimalOrganizer.io_ret.
  simpl. fold src target_dir. rewrite (mkdir_existing _ _ _ Hdir). simpl.
  rewrite Htarget, Hmove.
  rewrite (shutil_move_file _ _ _ c) by (by rewrite ?Hparent).
  simpl. eexists. split_and!; done.
Qed.


(** ** C5: two files of one name *)



(** ** C10: the stamped name is not checked *)



(* ===================================================================== *)
(** * Further properties of the code                                      *)
(* ===================================================================== *)

(** ** Waiting for a file to be written *)

(** The loop answers yes exactly when the size it remembers, followed by
    the sizes it reads, has a positive size twice in a row. *)
Lemma wait_loop_spec last_size polls :
  DocumentOrganizer.wait_loop last_size polls = true ↔
  ∃ l1 s l2, last_size :: omap id polls = l1 ++ s :: s :: l2 ∧ 0 < s.
Proof.
  revert last_size. induction polls as [|[current|] rest IH]; intros last_size; simpl.
  - split; [done|]. intros (l1 & s & l2 & E & _).
    destruct l1 as [|? [|]]; simplify_eq.
  - destruct ((current =? last_size) && (0 <? current)) eqn:E.
    + apply andb_true_iff in E as [->%Z.eqb_eq Hpos%Z.ltb_lt].
      split; [|done]. intros _. by exists [], last_size, (omap id rest).
    + rewrite IH. split.
      * intros (l1 & s & l2 & E' & Hs). exists (last_size :: l1), s, l2.
        split; [|done]. simpl. by rewrite <- E'.
      * intros (l1 & s & l2 & E' & Hs). destruct l1 as [|x l1].
        -- simpl in E'. simplify_eq. apply andb_false_iff in E as [E|E].
           ++ by rewrite Z.eqb_refl in E.
           ++ apply Z.ltb_ge in E. lia.
        -- simpl in E'. simplify_eq. by exists l1, s, l2.
  - apply IH.
Qed.

(** X1.  [wait_for_file_ready] answers yes exactly when two polls that
    found the file, with no such poll between them, read the same size
    and that size is positive.  Polls that do not find the file are
    skipped and do not reset the size read before; a file that stays
    empty is never ready. *)
Theorem wait_for_file_ready_iff (polls : list (option Z)) :
  DocumentOrganizer.wait_for_file_ready polls = true ↔
  ∃ l1 s l2, omap id polls = l1 ++ s :: s :: l2 ∧ 0 < s.
Proof.
  unfold DocumentOrganizer.wait_for_file_ready. rewrite wait_loop_spec. split.
  - intros (l1 & s & l2 & E & Hs). destruct l1 as [|x l1]; simpl in E; simplify_eq.
    + lia.
    + by exists l1, s, l2.
  - intros (l1 & s & l2 & E & Hs). exists (-1 :: l1), s, l2. split; [|done].
    simpl. by rewrite E.
Qed.

(** The theorem at a file seen twice at 10 bytes, with a poll between
    that did not find it. *)
Lemma wait_for_file_ready_iff_witness :
  DocumentOrganizer.wait_for_file_ready [Some 0; Some 10; None; Some 10] = true.
Proof.
  apply (proj2 (wait_for_file_ready_iff [Some 0; Some 10; None; Some 10])).
  exists [0], 10, []. split; [reflexivity|lia].
Defined.

(** ** Paths written out and read back *)

Lemma split_go_slash_component cur c rest :
  47%N ∉ c →
  split_go [47%N] 0 cur (c ++ 47%N :: rest) = (rev cur ++ c) :: split_go [47%N] 0 [] rest.
Proof.
  revert cur. induction c as [|x c IH]; intros cur Hc.
  - rewrite app_nil_r, app_nil_l, split_go_slash_cons. done.
  - apply not_elem_of_cons in Hc as [Hx Hc].
    change ((x :: c) ++ 47%N :: rest) with (x :: (c ++ 47%N :: rest)).
    rewrite split_go_slash_cons.
    assert ((47 =? x)%N = false) as -> by (apply N.eqb_neq; congruence).
    rewrite IH by done. simpl. by rewrite <- app_assoc.
Qed.

Lemma split_slash_join (p : path) :
  Forall plain_name p → p ≠ [] → split [47%N] (join [47%N] p) = p.
Proof.
  unfold split. induction 1 as [|c p Hc Hp IH]; intros Hne; [done|].
  destruct p as [|d p].
  - simpl. rewrite split_go_slash_none by apply Hc. done.
  - change (join [47%N] (c :: d :: p)) with (c ++ 47%N :: join [47%N] (d :: p)).
    rewrite split_go_slash_component by apply Hc. simpl. f_equal. by apply IH.
Qed.

(** [Path(str(p))] is [p] again. *)
Lemma parse_path_str (p : path) : Forall plain_name p → parse_path (path_str p) = p.
Proof.
  intros Hp. unfold parse_path, path_str. rewrite slash_eq.
  destruct (decide (p = [])) as [->|Hne]; [done|].
  change ([47%N] ++ join [47%N] p) with ([] ++ 47%N :: join [47%N] p).
  unfold split. rewrite split_go_slash_component by apply not_elem_of_nil.
  change (split_go [47%N] 0 [] (join [47%N] p)) with (split [47%N] (join [47%N] p)).
  rewrite split_slash_join by done. simpl.
  rewrite filter_cons_False by (intros [? _]; done).
  clear Hne. induction Hp as [|c p (Hc & Hdot & _) Hp IH]; [done|].
  rewrite filter_cons_True by done. by f_equal.
Qed.

Lemma parse_path_all_plain s : Forall plain_name (parse_path s).
Proof. apply Forall_forall. intros c. apply parse_path_components. Qed.

(** ** The inbox handler and the registry *)

Section Inbox.
Context `{!PyBuiltins}.

(** What [process_new_file] does with a name it does not ignore. *)
Lemma process_new_file_visible now file_path text outcome w :
  let nm := name (parse_path file_path) in
  startswith (u ".") nm = false → startswith (u "~") nm = false →
  DocumentOrganizer.process_new_file now file_path text outcome w =
  DocumentOrganizer.set_pending
    (<[nm := {| DocumentOrganizer.p_path := path_str (parse_path file_path);
                DocumentOrganizer.p_suggestions :=
                  DocumentOrganizer.get_folder_suggestions
                    (DocumentOrganizer.target_folders w) outcome text;
                DocumentOrganizer.p_text_preview := DocumentOrganizer.text_preview text;
                DocumentOrganizer.p_timestamp := isoformat now |}]>
       (DocumentOrganizer.pending_files w)) w.
Proof.
  intros nm Hdot Htilde. unfold DocumentOrganizer.process_new_file.
  fold nm. by rewrite Hdot, Htilde.
Qed.

Lemma process_new_file_hidden now file_path text outcome w :
  let nm := name (parse_path file_path) in
  startswith (u ".") nm = true ∨ startswith (u "~") nm = true →
  DocumentOrganizer.process_new_file now file_path text outcome w = w.
Proof.
  intros nm [E|E]; unfold DocumentOrganizer.process_new_file; fold nm; rewrite E; [done|].
  by rewrite orb_true_r.
Qed.

End Inbox.

(** X2.  An inbox event touches nothing but the registry entry of the
    file it is about: the file system, the folder set and the learning
    data stay as they are, and so does the entry of every other file.
    An event for a directory, for a file that did not become ready, or
    for a name that starts with [.] or [~] changes nothing at all. *)
Theorem inbox_event_frame `{!PyBuiltins} (is_directory : bool) (src_path : pystr)
    (polls : list (option Z)) (now : datetime) (text : pystr) (outcome : http_outcome)
    (w : DocumentOrganizer.world) :
  let w' := DocumentOrganizer.on_created is_directory src_path polls now text outcome w in
  let nm := name (parse_path src_path) in
  DocumentOrganizer.fs w' = DocumentOrganizer.fs w ∧
  DocumentOrganizer.target_folders w' = DocumentOrganizer.target_folders w ∧
  DocumentOrganizer.learning_data w' = DocumentOrganizer.learning_data w ∧
  DocumentOrganizer.learning_file w' = DocumentOrganizer.learning_file w ∧
  (∀ other, other ≠ nm →
     DocumentOrganizer.pending_files w' !! other = DocumentOrganizer.pending_files w !! other) ∧
  (is_directory = true ∨ DocumentOrganizer.wait_for_file_ready polls = false ∨
   startswith (u ".") nm = true ∨ startswith (u "~") nm = true → w' = w).
Proof.
  cbv zeta. unfold DocumentOrganizer.on_created.
  destruct is_directory; [by split_and!|].
  destruct (DocumentOrganizer.wait_for_file_ready polls); [|by split_and!].
  destruct (startswith (u ".") (name (parse_path src_path))) eqn:Hdot.
  { rewrite process_new_file_hidden by auto. by split_and!. }
  destruct (startswith (u "~") (name (parse_path src_path))) eqn:Htilde.
  { rewrite process_new_file_hidden by auto. by split_and!. }
  rewrite process_new_file_visible by done. simpl. split_and!; try done.
  - intros other Hother. by rewrite lookup_insert_ne.
  - intros [?|[?|[?|?]]]; done.
Qed.

(** The theorem at an event for a directory. *)
Lemma inbox_event_frame_witness :
  @DocumentOrganizer.on_created Samples.sample_builtins true (u "/home/u/NAS/inbox/neu")
    [Some 5; Some 5] Samples.noon (u "text") (HttpRaised HTTPError) Samples.waiting =
  Samples.waiting.
Proof.
  refine (proj2 (proj2 (proj2 (proj2 (proj2
    (@inbox_event_frame Samples.sample_builtins true (u "/home/u/NAS/inbox/neu")
       [Some 5; Some 5] Samples.noon (u "text") (HttpRaised HTTPError) Samples.waiting)))))
    _).
  by left.
Defined.

(** X3.  The registry is keyed by file name.  A ready file with a visible
    name that is not pending yet raises the pending count by one; one
    whose name is pending already leaves the count as it is and replaces
    the entry, whatever path the earlier file had.  In both cases the
    entry then holds the path and the time of this event. *)
Theorem pending_count_by_name `{!PyBuiltins} (src_path : pystr) (polls : list (option Z))
    (now : datetime) (text : pystr) (outcome : http_outcome) (w : DocumentOrganizer.world) :
  let w' := DocumentOrganizer.on_created false src_path polls now text outcome w in
  let nm := name (parse_path src_path) in
  DocumentOrganizer.wait_for_file_ready polls = true →
  startswith (u ".") nm = false → startswith (u "~") nm = false →
  (DocumentOrganizer.pending_files w !! nm = None →
     DocumentOrganizer.pending_count w' = S (DocumentOrganizer.pending_count w)) ∧
  (is_Some (DocumentOrganizer.pending_files w !! nm) →
     DocumentOrganizer.pending_count w' = DocumentOrganizer.pending_count w) ∧
  ∃ info,
    DocumentOrganizer.pending_files w' !! nm = Some info ∧
    DocumentOrganizer.p_path info = path_str (parse_path src_path) ∧
    DocumentOrganizer.p_timestamp info = isoformat now.
Proof.
  intros w' nm Hready Hdot Htilde. subst w'. unfold DocumentOrganizer.on_created.
  rewrite Hready, process_new_file_visible by done. fold nm.
  unfold DocumentOrganizer.pending_count. simpl. split_and!.
  - intros Hnone. by apply map_size_insert_None.
  - intros Hsome. by apply map_size_insert_Some.
  - eexists. rewrite lookup_insert_eq. split_and!; done.
Qed.

(** The theorem at a second [scan.pdf], delivered while the first is
    still pending. *)
Lemma pending_count_by_name_witness :
  DocumentOrganizer.pending_count
    (@DocumentOrganizer.on_created Samples.sample_builtins false
       (u "/home/u/NAS/inbox/scan.pdf") [Some 7; Some 7] Samples.noon_later (u "second")
       (HttpRaised HTTPError) Samples.waiting) =
  DocumentOrganizer.pending_count Samples.waiting.
Proof.
  refine (proj1 (proj2
    (@pending_count_by_name Samples.sample_builtins (u "/home/u/NAS/inbox/scan.pdf")
       [Some 7; Some 7] Samples.noon_later (u "second") (HttpRaised HTTPError)
       Samples.waiting eq_refl eq_refl eq_refl)) _).
  vm_compute. by eexists.
Defined.

(** ** A confirmation that goes through, and one that fails late *)

Lemma stat_delete_eq (fs : gmap path node) k : k ≠ [] → stat (delete k fs) k = None.
Proof. intros Hk. unfold stat. case_decide; [done|]. apply lookup_delete_eq. Qed.

Lemma shutil_move_missing (fault : option exn) (src dst : path) (fs : gmap path node) :
  stat fs src = None → ∃ ex, shutil_move fault src dst fs = inl ex.
Proof.
  intros Hsrc. unfold shutil_move, relocate.
  destruct (is_dir fs dst && path_exists fs _); [by eexists|].
  destruct fault; [by eexists|]. rewrite Hsrc. by eexists.
Qed.

Section Confirmed.
Context `{!PyBuiltins}.

(** The whole state after a move of the full service whose relocation
    goes through: the write of the learning file may still fail. *)
Lemma doc_move_file_run e file_path target_folder w c dst :
  let src := parse_path file_path in
  let target_dir := joinpath (DocumentOrganizer.ablage_path w) target_folder in
  let fs' := <[dst := File c]> (delete src (DocumentOrganizer.fs w)) in
  let learned :=
    DocumentOrganizer.learn (isoformat (DocumentOrganizer.now_learn e)) (name src)
      target_folder (DocumentOrganizer.learning_data w) in
  is_dir (DocumentOrganizer.fs w) target_dir = true →
  stat (DocumentOrganizer.fs w) src = Some (File c) →
  DocumentOrganizer.target_file e (DocumentOrganizer.fs w) target_dir (name src) = dst →
  is_dir (DocumentOrganizer.fs w) dst = false → parent dst = target_dir →
  DocumentOrganizer.move_fault e = None →
  DocumentOrganizer.move_file e file_path target_folder w =
    (DocumentOrganizer.World fs' (DocumentOrganizer.ablage_path w)
       (DocumentOrganizer.target_folders w) learned
       (file_after (DocumentOrganizer.save_fault e) learned
          (DocumentOrganizer.learning_file w))
       (DocumentOrganizer.pending_files w),
     match DocumentOrganizer.save_fault e with
     | None => inr (path_str dst)
     | Some fault => inl (DocumentOrganizer.raised fault)
     end).
Proof.
  intros src target_dir fs' learned Hdir Hsrc Htarget Hdst Hparent Hmove.
  unfold DocumentOrganizer.move_file, DocumentOrganizer._update_learning_data,
    DocumentOrganizer._save_learning_data, DocumentOrganizer.set_learning,
    DocumentOrganizer.on_fs, DocumentOrganizer.get, mbind, mret,
    DocumentOrganizer.io_bind, DocumentOrganizer.io_ret.
  simpl. fold src target_dir. rewrite (mkdir_existing _ _ _ Hdir). simpl.
  rewrite Htarget, Hmove.
  rewrite (shutil_move_file _ _ _ c) by (by rewrite ?Hparent).
  simpl. by destruct (DocumentOrganizer.save_fault e) as [[]|].
Qed.

(** A move of the full service whose source is gone. *)
Lemma doc_move_file_missing e file_path target_folder w :
  is_dir (DocumentOrganizer.fs w)
    (joinpath (DocumentOrganizer.ablage_path w) target_folder) = true →
  stat (DocumentOrganizer.fs w) (parse_path file_path) = None →
  ∃ ex,
    DocumentOrganizer.move_file e file_path target_folder w =
      (DocumentOrganizer.World (DocumentOrganizer.fs w) (DocumentOrganizer.ablage_path w)
         (DocumentOrganizer.target_folders w) (DocumentOrganizer.learning_data w)
         (DocumentOrganizer.learning_file w) (DocumentOrganizer.pending_files w), inl ex).
Proof.
  intros Hdir Hsrc.
  unfold DocumentOrganizer.move_file, DocumentOrganizer.on_fs, DocumentOrganizer.get,
    mbind, DocumentOrganizer.io_bind.
  simpl. rewrite (mkdir_existing _ _ _ Hdir). simpl.
  destruct (shutil_move_missing (DocumentOrganizer.move_fault e) (parse_path file_path)
              (DocumentOrganizer.target_file e (DocumentOrganizer.fs w)
                 (joinpath (DocumentOrganizer.ablage_path w) target_folder)
                 (name (parse_path file_path)))
              (DocumentOrganizer.fs w) Hsrc) as [ex ->].
  by exists ex.
Qed.

(** The destination of a file whose name is free in the target folder. *)
Lemma doc_target_file_free (e : DocumentOrganizer.env) (fs : gmap path node)
    (dir : path) (nm : pystr) :
  plain_name nm → stat fs (dir ++ [nm]) = None →
  DocumentOrganizer.target_file e fs dir nm = dir ++ [nm].
Proof.
  intros Hplain Hfree. unfold DocumentOrganizer.target_file, path_exists.
  rewrite (joinpath_plain _ nm) by done. by rewrite Hfree.
Qed.

End Confirmed.

Section Discovered.
Context `{!PyBuiltins}.

(** The confirmation of a file right after its discovery, when the target
    folder is there, the name is free in it and the relocation goes
    through. *)
Lemma api_move_file_discovered (src_path : pystr) (now : datetime) (text : pystr)
    (outcome : http_outcome) (e : DocumentOrganizer.env) (T c : pystr)
    (w : DocumentOrganizer.world) :
  let p := parse_path src_path in
  let nm := name p in
  let dir := joinpath (DocumentOrganizer.ablage_path w) T in
  let w1 := DocumentOrganizer.process_new_file now src_path text outcome w in
  let fs' := <[dir ++ [nm] := File c]> (delete p (DocumentOrganizer.fs w)) in
  let learned :=
    DocumentOrganizer.learn (isoformat (DocumentOrganizer.now_learn e)) nm T
      (DocumentOrganizer.learning_data w) in
  startswith (u ".") nm = false → startswith (u "~") nm = false →
  T ∈ DocumentOrganizer.target_folders w →
  is_dir (DocumentOrganizer.fs w) dir = true →
  stat (DocumentOrganizer.fs w) p = Some (File c) →
  stat (DocumentOrganizer.fs w) (dir ++ [nm]) = None →
  DocumentOrganizer.move_fault e = None →
  DocumentOrganizer.api_move_file e nm T w1 =
    match DocumentOrganizer.save_fault e with
    | None =>
        (DocumentOrganizer.World fs' (DocumentOrganizer.ablage_path w)
           (DocumentOrganizer.target_folders w) learned (Some learned)
           (delete nm (DocumentOrganizer.pending_files w)),
         DocumentOrganizer.Success (u "Datei nach " ++ T ++ u " verschoben")
           (path_str (dir ++ [nm])))
    | Some fault =>
        (DocumentOrganizer.World fs' (DocumentOrganizer.ablage_path w)
           (DocumentOrganizer.target_folders w) learned
           (file_after (Some fault) learned (DocumentOrganizer.learning_file w))
           (DocumentOrganizer.pending_files w1),
         DocumentOrganizer.FailureExn 500 (DocumentOrganizer.raised fault))
    end.
Proof.
  intros p nm dir w1 fs' learned Hdot Htilde HT Hdir Hp Hfree Hmove.
  assert (p ≠ []) as Hp0 by by eapply stat_file_ne_nil.
  assert (plain_name nm) as Hnm by by apply name_plain.
  subst w1. rewrite process_new_file_visible by done. fold p nm.
  set (m := <[nm := _]> (DocumentOrganizer.pending_files w)).
  pose proof (doc_move_file_run e (path_str p) T (DocumentOrganizer.set_pending m w) c
                (dir ++ [nm])) as Hrun.
  cbv zeta in Hrun. rewrite parse_path_str in Hrun by apply parse_path_all_plain.
  cbn [DocumentOrganizer.set_pending DocumentOrganizer.fs DocumentOrganizer.ablage_path
       DocumentOrganizer.target_folders DocumentOrganizer.learning_data
       DocumentOrganizer.learning_file DocumentOrganizer.pending_files] in Hrun.
  fold p nm dir in Hrun.
  specialize (Hrun Hdir Hp (doc_target_file_free e _ dir nm Hnm Hfree)).
  rewrite parent_snoc in Hrun.
  assert (is_dir (DocumentOrganizer.fs w) (dir ++ [nm]) = false) as Hnd
    by (unfold is_dir; by rewrite Hfree).
  specialize (Hrun Hnd eq_refl Hmove).
  unfold DocumentOrganizer.api_move_file.
  cbn [DocumentOrganizer.set_pending DocumentOrganizer.pending_files
       DocumentOrganizer.target_folders].
  subst m. rewrite lookup_insert_eq. cbn [DocumentOrganizer.p_path].
  rewrite decide_True by done. rewrite Hrun.
  destruct (DocumentOrganizer.save_fault e); [done|].
  cbn [file_after DocumentOrganizer.set_pending DocumentOrganizer.fs DocumentOrganizer.ablage_path
       DocumentOrganizer.target_folders DocumentOrganizer.learning_data
       DocumentOrganizer.learning_file DocumentOrganizer.pending_files].
  by rewrite delete_insert_eq.
Qed.

End Discovered.

(** X4.  A file that was discovered and is then confirmed for a folder of
    the folder set, with the folder there, the name free in it and no
    failure: the answer is the success message with the new path, the
    content is at the new path and no longer at the old one, the file is
    no longer pending, the decision is the last record of the log, and the
    learning file holds what the memory holds.  A second confirmation of
    the same name is answered with 404 and changes nothing. *)
Theorem discovered_then_confirmed `{!PyBuiltins} (src_path : pystr) (now : datetime)
    (text : pystr) (outcome : http_outcome) (e : DocumentOrganizer.env) (T c : pystr)
    (w : DocumentOrganizer.world) :
  let p := parse_path src_path in
  let nm := name p in
  let dir := joinpath (DocumentOrganizer.ablage_path w) T in
  let w1 := DocumentOrganizer.process_new_file now src_path text outcome w in
  startswith (u ".") nm = false → startswith (u "~") nm = false →
  T ∈ DocumentOrganizer.target_folders w →
  is_dir (DocumentOrganizer.fs w) dir = true →
  stat (DocumentOrganizer.fs w) p = Some (File c) →
  stat (DocumentOrganizer.fs w) (dir ++ [nm]) = None →
  DocumentOrganizer.move_fault e = None → DocumentOrganizer.save_fault e = None →
  ∃ w2,
    DocumentOrganizer.api_move_file e nm T w1 =
      (w2, DocumentOrganizer.Success (u "Datei nach " ++ T ++ u " verschoben")
             (path_str (dir ++ [nm]))) ∧
    stat (DocumentOrganizer.fs w2) (dir ++ [nm]) = Some (File c) ∧
    stat (DocumentOrganizer.fs w2) p = None ∧
    DocumentOrganizer.pending_files w2 = delete nm (DocumentOrganizer.pending_files w) ∧
    DocumentOrganizer.decisions (DocumentOrganizer.learning_data w2) =
      DocumentOrganizer.last_n 100
        (DocumentOrganizer.decisions (DocumentOrganizer.learning_data w) ++
         [DocumentOrganizer.Decision (isoformat (DocumentOrganizer.now_learn e)) nm T]) ∧
    DocumentOrganizer.learning_file w2 = Some (DocumentOrganizer.learning_data w2) ∧
    ∀ e' T',
      DocumentOrganizer.api_move_file e' nm T' w2 =
        (w2, DocumentOrganizer.Failure 404 (u "Datei nicht gefunden")).
Proof.
  intros p nm dir w1 Hdot Htilde HT Hdir Hp Hfree Hmove Hsave.
  assert (p ≠ []) as Hp0 by by eapply stat_file_ne_nil.
  assert (dir ++ [nm] ≠ []) as Hd0 by by destruct dir.
  assert (dir ++ [nm] ≠ p) as Hdp by (intros E; rewrite E in Hfree; congruence).
  eexists. split.
  { subst w1. rewrite (api_move_file_discovered src_path now text outcome e T c w) by done.
    fold p nm dir. rewrite Hsave. reflexivity. }
  cbn [DocumentOrganizer.fs DocumentOrganizer.pending_files DocumentOrganizer.learning_data
       DocumentOrganizer.learning_file].
  split_and!; try done.
  - by apply stat_insert_eq.
  - rewrite stat_insert_ne by done. by apply stat_delete_eq.
  - intros e' T'. unfold DocumentOrganizer.api_move_file.
    cbn [DocumentOrganizer.pending_files]. by rewrite lookup_delete_eq.
Qed.

(** The theorem at [scan.pdf] of the sample tree, confirmed for Bank. *)
Lemma discovered_then_confirmed_witness :
  ∃ w2,
    @DocumentOrganizer.api_move_file Samples.sample_builtins (Samples.calm Samples.noon)
      (u "scan.pdf") (u "Bank")
      (@DocumentOrganizer.process_new_file Samples.sample_builtins Samples.noon
         (u "/home/u/NAS/inbox/scan.pdf") (u "first") (HttpRaised HTTPError) Samples.idle) =
      (w2, DocumentOrganizer.Success (u "Datei nach Bank verschoben")
             (u "/home/u/NAS/ablage/Bank/scan.pdf")) ∧
    stat (DocumentOrganizer.fs w2) (Samples.ablage ++ [u "Bank"; u "scan.pdf"]) =
      Some (File (u "first")) ∧
    stat (DocumentOrganizer.fs w2) (Samples.inbox ++ [u "scan.pdf"]) = None.
Proof.
  destruct (@discovered_then_confirmed Samples.sample_builtins
              (u "/home/u/NAS/inbox/scan.pdf") Samples.noon (u "first")
              (HttpRaised HTTPError) (Samples.calm Samples.noon) (u "Bank") (u "first")
              Samples.idle)
    as (w2 & Hrun & Hnew & Hold & _).
  - by vm_compute.
  - by vm_compute.
  - apply (bool_decide_unpack _). by vm_compute.
  - by vm_compute.
  - by vm_compute.
  - by vm_compute.
  - done.
  - done.
  - exists w2. split_and!.
    + exact Hrun.
    + exact Hnew.
    + exact Hold.
Defined.

(** X5.  The same confirmation when only the write of the learning file
    fails: the answer is status 500 with that exception, although the file
    has been relocated already; the file stays pending and the memory has
    the new decision.  The learning file is as it was when the write
    failed in [open]; when it failed after the file was opened, the file
    was truncated and holds no JSON document any more, so the decisions
    written by earlier confirmations are gone from it too.  Every further
    confirmation of the file for that folder is answered with status 500
    and changes nothing, as the stored path no longer leads to a file. *)
Theorem save_failure_after_relocation `{!PyBuiltins} (src_path : pystr) (now : datetime)
    (text : pystr) (outcome : http_outcome) (e : DocumentOrganizer.env) (T c : pystr)
    (fault : DocumentOrganizer.save_failure) (w : DocumentOrganizer.world) :
  let p := parse_path src_path in
  let nm := name p in
  let dir := joinpath (DocumentOrganizer.ablage_path w) T in
  let w1 := DocumentOrganizer.process_new_file now src_path text outcome w in
  startswith (u ".") nm = false → startswith (u "~") nm = false →
  T ∈ DocumentOrganizer.target_folders w →
  is_dir (DocumentOrganizer.fs w) dir = true →
  stat (DocumentOrganizer.fs w) p = Some (File c) →
  stat (DocumentOrganizer.fs w) (dir ++ [nm]) = None →
  DocumentOrganizer.move_fault e = None → DocumentOrganizer.save_fault e = Some fault →
  ∃ w2,
    DocumentOrganizer.api_move_file e nm T w1 =
      (w2, DocumentOrganizer.FailureExn 500 (DocumentOrganizer.raised fault)) ∧
    stat (DocumentOrganizer.fs w2) (dir ++ [nm]) = Some (File c) ∧
    stat (DocumentOrganizer.fs w2) p = None ∧
    DocumentOrganizer.pending_files w2 = DocumentOrganizer.pending_files w1 ∧
    is_Some (DocumentOrganizer.pending_files w2 !! nm) ∧
    DocumentOrganizer.decisions (DocumentOrganizer.learning_data w2) =
      DocumentOrganizer.last_n 100
        (DocumentOrganizer.decisions (DocumentOrganizer.learning_data w) ++
         [DocumentOrganizer.Decision (isoformat (DocumentOrganizer.now_learn e)) nm T]) ∧
    DocumentOrganizer.learning_file w2 =
      match fault with
      | DocumentOrganizer.AtOpen _ => DocumentOrganizer.learning_file w
      | DocumentOrganizer.AfterOpen _ => None
      end ∧
    ∀ e', ∃ ex',
      DocumentOrganizer.api_move_file e' nm T w2 = (w2, DocumentOrganizer.FailureExn 500 ex').
Proof.
  intros p nm dir w1 Hdot Htilde HT Hdir Hp Hfree Hmove Hsave. subst w1.
  assert (p ≠ []) as Hp0 by by eapply stat_file_ne_nil.
  assert (dir ++ [nm] ≠ []) as Hd0 by by destruct dir.
  assert (dir ++ [nm] ≠ p) as Hdp by (intros E; rewrite E in Hfree; congruence).
  assert (dir ++ [nm] ≠ dir) as Hdd.
  { intros E. apply (f_equal length) in E. rewrite length_app in E. simpl in E. lia. }
  assert (p ≠ dir) as Hpd.
  { intros E. unfold is_dir in Hdir. rewrite <- E, Hp in Hdir. done. }
  assert (DocumentOrganizer.pending_files
            (DocumentOrganizer.process_new_file now src_path text outcome w) !! nm =
          Some {| DocumentOrganizer.p_path := path_str p;
                  DocumentOrganizer.p_suggestions :=
                    DocumentOrganizer.get_folder_suggestions
                      (DocumentOrganizer.target_folders w) outcome text;
                  DocumentOrganizer.p_text_preview := DocumentOrganizer.text_preview text;
                  DocumentOrganizer.p_timestamp := isoformat now |}) as Hpending.
  { rewrite process_new_file_visible by done. fold p nm.
    cbn [DocumentOrganizer.set_pending DocumentOrganizer.pending_files].
    by rewrite lookup_insert_eq. }
  eexists. split.
  { rewrite (api_move_file_discovered src_path now text outcome e T c w) by done.
    fold p nm dir. rewrite Hsave. reflexivity. }
  cbn [DocumentOrganizer.fs DocumentOrganizer.pending_files DocumentOrganizer.learning_data
       DocumentOrganizer.learning_file].
  split_and!; try done.
  - by apply stat_insert_eq.
  - rewrite stat_insert_ne by done. by apply stat_delete_eq.
  - intros e'. unfold DocumentOrganizer.api_move_file.
    cbn [DocumentOrganizer.pending_files DocumentOrganizer.target_folders].
    rewrite Hpending. cbn [DocumentOrganizer.p_path].
    rewrite decide_True by done.
    match goal with
    | |- context [DocumentOrganizer.move_file e' (path_str p) T ?w2] =>
        destruct (doc_move_file_missing e' (path_str p) T w2) as [ex' Hex]
    end.
    + cbn [DocumentOrganizer.fs DocumentOrganizer.ablage_path]. fold dir.
      unfold is_dir. rewrite stat_insert_ne, stat_delete_ne by done. exact Hdir.
    + rewrite parse_path_str by apply parse_path_all_plain. fold p.
      cbn [DocumentOrganizer.fs].
      rewrite stat_insert_ne by done. by apply stat_delete_eq.
    + rewrite Hex. by exists ex'.
Qed.

(** The theorem at [scan.pdf] of the sample tree, confirmed for Bank while
    the disk is full (errno 28): the learning file is cut off. *)
Lemma save_failure_after_relocation_witness :
  ∃ w2,
    @DocumentOrganizer.api_move_file Samples.sample_builtins
      (DocumentOrganizer.Env Samples.noon Samples.noon None
         (Some (DocumentOrganizer.AfterOpen (OSError 28))))
      (u "scan.pdf") (u "Bank")
      (@DocumentOrganizer.process_new_file Samples.sample_builtins Samples.noon
         (u "/home/u/NAS/inbox/scan.pdf") (u "first") (HttpRaised HTTPError) Samples.idle) =
      (w2, DocumentOrganizer.FailureExn 500 (OSError 28)) ∧
    stat (DocumentOrganizer.fs w2) (Samples.ablage ++ [u "Bank"; u "scan.pdf"]) =
      Some (File (u "first")) ∧
    DocumentOrganizer.learning_file Samples.idle = Some (DocumentOrganizer.Learning [] ∅) ∧
    DocumentOrganizer.learning_file w2 = None.
Proof.
  destruct (@save_failure_after_relocation Samples.sample_builtins
              (u "/home/u/NAS/inbox/scan.pdf") Samples.noon (u "first")
              (HttpRaised HTTPError)
              (DocumentOrganizer.Env Samples.noon Samples.noon None
                 (Some (DocumentOrganizer.AfterOpen (OSError 28))))
              (u "Bank") (u "first") (DocumentOrganizer.AfterOpen (OSError 28))
              Samples.idle)
    as (w2 & Hrun & Hnew & _ & _ & _ & _ & Hfile & _).
  - by vm_compute.
  - by vm_compute.
  - apply (bool_decide_unpack _). by vm_compute.
  - by vm_compute.
  - by vm_compute.
  - by vm_compute.
  - done.
  - done.
  - exists w2. split_and!.
    + exact Hrun.
    + exact Hnew.
    + reflexivity.
    + exact Hfile.
Defined.

(** ** Suggestions for any folder set *)

Lemma pad_fallback_length_le fuel F base :
  (length base ≤ 3)%nat → (length (pad_fallback fuel F base) ≤ 3)%nat.
Proof.
  revert base. induction fuel as [|k IH]; intros base Hb; simpl; [done|].
  case_decide as Hlt; [|done].
  case_decide.
  - apply IH. rewrite length_app. simpl. lia.
  - destruct (remaining F base); [done|]. apply IH. rewrite length_app. simpl. lia.
Qed.

Lemma pad_fallback_length_ge fuel F base :
  NoDup F → (3 ≤ fuel + length base)%nat →
  (3 `min` length F ≤ length (pad_fallback fuel F base))%nat.
Proof.
  intros HF. revert base.
  induction fuel as [|k IH]; intros base Hk; cbn [pad_fallback]; [lia|].
  case_decide as Hlt; [|lia].
  case_decide as HS.
  - apply IH. rewrite length_app. cbn [length]. lia.
  - destruct (remaining F base) as [|f rest] eqn:E.
    + apply remaining_nil_length in E; [lia|done].
    + apply IH. rewrite length_app. cbn [length]. lia.
Qed.

(** Entries that name different folders of [F] are no more than [F] has. *)
Lemma sound_NoDup_length F (l : list suggestion) :
  Forall (sound F) l → NoDup (map folder l) → (length l ≤ length F)%nat.
Proof.
  intros Hs Hnd. rewrite <- (length_map folder l).
  apply submseteq_length, NoDup_submseteq; [done|].
  intros f Hf. rewrite map_fmap in Hf. apply list_elem_of_fmap in Hf as (s & -> & Hs').
  rewrite Forall_forall in Hs. by destruct (Hs s Hs').
Qed.

Section AnyFolderSet.
Context `{!PyBuiltins}.

Lemma pad_parse_length_ge fuel F base :
  NoDup F → (3 ≤ fuel + length base)%nat →
  (3 `min` length F ≤ length (DocumentOrganizer.pad_parse fuel F base))%nat.
Proof.
  intros HF. revert base.
  induction fuel as [|k IH]; intros base Hk; cbn [DocumentOrganizer.pad_parse]; [lia|].
  case_decide as Hlt; [|lia].
  destruct (remaining F base) as [|f rest] eqn:E.
  - apply remaining_nil_length in E; [lia|done].
  - apply IH. rewrite length_app. cbn [length]. lia.
Qed.

(** The keyword classifier of the full service, for any folder set. *)
Lemma fallback_any F text :
  let r := DocumentOrganizer._fallback_suggestions F text in
  (length r ≤ 3)%nat ∧ Forall (sound F) r ∧ StronglySorted conf_ge r ∧
  NoDup (map folder r) ∧ (NoDup F → length r = (3 `min` length F)%nat).
Proof.
  cbv zeta. unfold DocumentOrganizer._fallback_suggestions.
  set (top := keyword_top2 _ _ _ _ _ _).
  destruct (keyword_top2_spec DocumentOrganizer.keywords (u "Schlüsselwörter gefunden")
              (7 # 10) (1 # 5) F (lower text) keywords_NoDup)
    as (Hlen & Hsound & Habove & Hnd & Hsorted); [done|done|]. fold top in Hlen, Hsound,
    Habove, Hnd, Hsorted.
  pose proof (pad_fallback_padded 3 F top) as Hp.
  assert (Forall (sound F) (pad_fallback 3 F top)) as Hr by by eapply padded_sound.
  assert (NoDup (map folder (pad_fallback 3 F top))) as Hnd'.
  { destruct Hp as (extra & _ & _ & Hk). by apply Hk. }
  assert (length (pad_fallback 3 F top) ≤ 3)%nat as Hle
    by (apply pad_fallback_length_le; lia).
  split_and!; [done|done|by eapply padded_sorted|done|].
  intros HF. pose proof (pad_fallback_length_ge 3 F top HF) as Hge.
  pose proof (sound_NoDup_length F _ Hr Hnd'). lia.
Qed.

(** [_parse_llm_response], for any folder set. *)
Lemma parse_any F response :
  let r := DocumentOrganizer._parse_llm_response F response in
  (length r ≤ 3)%nat ∧ Forall (sound F) r ∧
  (NoDup F → (3 `min` length F ≤ length r)%nat).
Proof.
  cbv zeta. pose proof (parse_cases F response) as Hc.
  destruct (DocumentOrganizer.validated F response) as [e|valid].
  - rewrite Hc. destruct (fallback_any F []) as (? & ? & _ & _ & Hlen).
    split_and!; [done|done|]. intros HF. rewrite Hlen by done. lia.
  - destruct Hc as [-> Hvalid].
    set (gt := λ a b : suggestion, fgt (confidence a) (confidence b)).
    assert (Hperm : sort_desc gt valid ≡ₚ valid) by apply sort_desc_perm.
    split_and!.
    + rewrite length_take. lia.
    + apply Forall_take. eapply padded_sound; [apply pad_parse_padded|]. by rewrite Hperm.
    + intros HF. rewrite length_take.
      pose proof (pad_parse_length_ge 3 F (sort_desc gt valid) HF). lia.
Qed.

Lemma suggestions_dispatch_any F outcome text :
  F ≠ [] →
  DocumentOrganizer.get_folder_suggestions F outcome text =
    DocumentOrganizer._fallback_suggestions F text ∨
  ∃ response,
    DocumentOrganizer.get_folder_suggestions F outcome text =
      DocumentOrganizer._parse_llm_response F response.
Proof.
  intros HF. unfold DocumentOrganizer.get_folder_suggestions.
  case_decide; [done|]. repeat case_match; eauto.
Qed.

Lemma suggestions_any_folder_sound F outcome text :
  F ≠ [] → Forall (sound F) (DocumentOrganizer.get_folder_suggestions F outcome text).
Proof.
  intros HF.
  destruct (suggestions_dispatch_any F outcome text HF) as [->|[response ->]].
  - by destruct (fallback_any F text) as (_ & ? & _).
  - by destruct (parse_any F response) as (_ & ? & _).
Qed.

End AnyFolderSet.

(** X6.  [get_folder_suggestions] for any folder set.  It never returns
    more than three suggestions.  With no folder at all it returns three
    placeholders for Sonstiges at 0.1, a folder that is not in the set.
    With at least one folder every suggestion names a folder of the set,
    is not flagged new and has a confidence in [0, 1].  When the set has
    no repetitions the result has at least as many entries as the set has
    folders, up to three, and the keyword classifier returns exactly that
    many, each folder once: a set of one or two folders gives a list of
    one or two suggestions. *)
Theorem suggestions_any_folder_set `{!PyBuiltins} (F : list pystr)
    (outcome : http_outcome) (text : pystr) :
  let r := DocumentOrganizer.get_folder_suggestions F outcome text in
  let k := DocumentOrganizer._fallback_suggestions F text in
  (length r ≤ 3)%nat ∧
  (F = [] →
     r = replicate 3 (existing (u "Sonstiges") (u "Keine Zielordner gefunden") (Fin (1 # 10))) ∧
     Forall (λ s, folder s ∉ F) r) ∧
  (F ≠ [] → Forall (sound F) r) ∧
  (NoDup F → (3 `min` length F ≤ length r)%nat) ∧
  (NoDup F → length k = (3 `min` length F)%nat ∧ NoDup (map folder k)).
Proof.
  cbv zeta. split_and!.
  - destruct (decide (F = [])) as [->|HF]; [simpl; lia|].
    destruct (suggestions_dispatch_any F outcome text HF) as [->|[response ->]].
    + by destruct (fallback_any F text) as (? & _).
    + by destruct (parse_any F response) as (? & _).
  - intros ->. split; [done|]. simpl. repeat constructor; apply not_elem_of_nil.
  - apply suggestions_any_folder_sound.
  - intros Hnd. destruct (decide (F = [])) as [->|HF]; [simpl; lia|].
    destruct (suggestions_dispatch_any F outcome text HF) as [->|[response ->]].
    + destruct (fallback_any F text) as (_ & _ & _ & _ & Hlen). rewrite Hlen by done. lia.
    + destruct (parse_any F response) as (_ & _ & Hlen). by apply Hlen.
  - intros Hnd. destruct (fallback_any F text) as (_ & _ & _ & ? & Hlen).
    split; [by apply Hlen|done].
Qed.

(** X7.  The suggestions stored for a discovered file can be confirmed
    exactly when there is a folder set.  With at least one target folder,
    confirming a stored suggestion is never answered with 400 or 404: the
    move is attempted.  With no target folder, confirming any of the three
    stored placeholders is answered with 400 and changes nothing. *)
Theorem stored_suggestions_confirmable `{!PyBuiltins} (now : datetime)
    (src_path text : pystr) (outcome : http_outcome) (w : DocumentOrganizer.world) :
  let nm := name (parse_path src_path) in
  let w1 := DocumentOrganizer.process_new_file now src_path text outcome w in
  startswith (u ".") nm = false → startswith (u "~") nm = false →
  ∃ info,
    DocumentOrganizer.pending_files w1 !! nm = Some info ∧
    DocumentOrganizer.p_suggestions info =
      DocumentOrganizer.get_folder_suggestions (DocumentOrganizer.target_folders w)
        outcome text ∧
    ∀ s e, s ∈ DocumentOrganizer.p_suggestions info →
      (DocumentOrganizer.target_folders w ≠ [] →
         ∀ status error,
           (DocumentOrganizer.api_move_file e nm (folder s) w1).2 ≠
             DocumentOrganizer.Failure status error) ∧
      (DocumentOrganizer.target_folders w = [] →
         DocumentOrganizer.api_move_file e nm (folder s) w1 =
           (w1, DocumentOrganizer.Failure 400 (u "Ungültiger Zielordner"))).
Proof.
  intros nm w1 Hdot Htilde. subst w1.
  rewrite process_new_file_visible by done. fold nm.
  cbn [DocumentOrganizer.set_pending DocumentOrganizer.pending_files].
  rewrite lookup_insert_eq. eexists. split; [done|].
  cbn [DocumentOrganizer.p_suggestions]. split; [done|].
  intros s e Hs. unfold DocumentOrganizer.api_move_file.
  cbn [DocumentOrganizer.set_pending DocumentOrganizer.pending_files
       DocumentOrganizer.target_folders].
  rewrite lookup_insert_eq. cbn [DocumentOrganizer.p_path].
  split.
  - intros HF status error.
    pose proof (suggestions_any_folder_sound (DocumentOrganizer.target_folders w)
                  outcome text HF) as Hsound.
    rewrite Forall_forall in Hsound. destruct (Hsound s Hs) as (Hin & _).
    rewrite decide_True by done.
    destruct (DocumentOrganizer.move_file e _ _ _) as [w' [ex|new_path]]; done.
  - intros HF. rewrite HF. rewrite decide_False by apply not_elem_of_nil. done.
Qed.

(** The theorem at [scan.pdf], discovered while the folder set is empty. *)
Lemma stored_suggestions_confirmable_witness :
  ∃ info,
    DocumentOrganizer.pending_files
      (@DocumentOrganizer.process_new_file Samples.sample_builtins Samples.noon
         (u "/home/u/NAS/inbox/scan.pdf") (u "first") (HttpRaised HTTPError)
         (DocumentOrganizer.World Samples.tree Samples.ablage []
            (DocumentOrganizer.Learning [] ∅) (Some (DocumentOrganizer.Learning [] ∅)) ∅))
      !! u "scan.pdf" = Some info ∧
    DocumentOrganizer.p_suggestions info =
      replicate 3 (existing (u "Sonstiges") (u "Keine Zielordner gefunden") (Fin (1 # 10))).
Proof.
  destruct (@stored_suggestions_confirmable Samples.sample_builtins Samples.noon
              (u "/home/u/NAS/inbox/scan.pdf") (u "first") (HttpRaised HTTPError)
              (DocumentOrganizer.World Samples.tree Samples.ablage []
                 (DocumentOrganizer.Learning [] ∅) (Some (DocumentOrganizer.Learning [] ∅)) ∅)
              eq_refl eq_refl) as (info & Hinfo & Hs & _).
  exists info. split; [exact Hinfo|]. rewrite Hs. reflexivity.
Defined.

(** ** The order of the padding *)

Lemma remaining_snoc F base (s : suggestion) :
  remaining F (base ++ [s]) = filter (λ f, f ≠ folder s) (remaining F base).
Proof.
  unfold remaining. rewrite list_filter_filter. apply list_filter_iff.
  intros f. rewrite map_app. simpl. rewrite elem_of_app, list_elem_of_singleton. tauto.
Qed.

Lemma filter_ne_absent (f : pystr) (l : list pystr) :
  f ∉ l → filter (λ x, x ≠ f) l = l.
Proof.
  induction l as [|x l IH]; [done|].
  intros [Hx Hl]%not_elem_of_cons. rewrite filter_cons_True by done. f_equal. by apply IH.
Qed.

Lemma remaining_nil F : remaining F [] = F.
Proof.
  unfold remaining. induction F as [|f F IH]; [done|].
  rewrite filter_cons_True by apply not_elem_of_nil. by f_equal.
Qed.

Lemma sonstiges_first_absent l : u "Sonstiges" ∉ l → sonstiges_first l = l.
Proof. intros Hl. unfold sonstiges_first. by rewrite decide_False. Qed.

Lemma fallback_pad_other f :
  f ≠ u "Sonstiges" → fallback_pad f = existing f (u "Automatische Zuordnung") (Fin (1 # 10)).
Proof. intros Hf. unfold fallback_pad. by rewrite decide_False. Qed.

(** The padding loop of the keyword classifier in closed form. *)
Lemma pad_fallback_closed fuel F base :
  NoDup F →
  pad_fallback fuel F base =
    base ++ map fallback_pad
              (take (fuel `min` (3 - length base)) (sonstiges_first (remaining F base))).
Proof.
  intros HF. revert base. induction fuel as [|k IH]; intros base; cbn [pad_fallback].
  { by rewrite app_nil_r. }
  case_decide as Hlt.
  2:{ replace (3 - length base)%nat with 0%nat by lia. rewrite Nat.min_0_r.
      by rewrite app_nil_r. }
  assert (NoDup (remaining F base)) as Hnd by by apply NoDup_filter.
  replace (S k `min` (3 - length base))%nat
    with (S (k `min` (3 - S (length base))))%nat by lia.
  case_decide as HS.
  - rewrite IH, remaining_snoc, length_app. cbn [length folder existing].
    rewrite Nat.add_1_r, <- app_assoc. f_equal.
    rewrite sonstiges_first_absent.
    2:{ intros [Hne _]%list_elem_of_filter. by apply Hne. }
    unfold sonstiges_first. rewrite decide_True by done.
    cbn [take map app]. f_equal.
  - rewrite (sonstiges_first_absent _ HS).
    destruct (remaining F base) as [|f rest] eqn:E.
    + by rewrite take_nil, app_nil_r.
    + apply NoDup_cons in Hnd as [Hf Hrest].
      apply not_elem_of_cons in HS as [HfS HrestS].
      rewrite IH, remaining_snoc, E, length_app. cbn [length folder existing].
      rewrite Nat.add_1_r, <- app_assoc. f_equal.
      rewrite filter_cons_False by (intros ?; done).
      rewrite filter_ne_absent by done.
      rewrite sonstiges_first_absent by done.
      cbn [take map app]. f_equal. symmetry. apply fallback_pad_other. congruence.
Qed.

Lemma keyword_scores_no_hit table F text_lower :
  no_keyword_hit table F text_lower → keyword_scores table F text_lower = [].
Proof.
  unfold no_keyword_hit, keyword_scores.
  induction table as [|[f words] rest IH]; intros Hno; [done|].
  cbn [flat_map]. rewrite IH.
  2:{ intros g ws Hg. apply Hno. by right. }
  rewrite app_nil_r. case_decide as HF; [|done].
  rewrite (Hno f words) by (done || by left). done.
Qed.

Section PaddingOrder.
Context `{!PyBuiltins}.

(** The padding loop of [_parse_llm_response] in closed form. *)
Lemma pad_parse_closed fuel F base :
  NoDup F →
  DocumentOrganizer.pad_parse fuel F base =
    base ++ map parse_pad (take (fuel `min` (3 - length base)) (remaining F base)).
Proof.
  intros HF. revert base.
  induction fuel as [|k IH]; intros base; cbn [DocumentOrganizer.pad_parse].
  { by rewrite app_nil_r. }
  case_decide as Hlt.
  2:{ replace (3 - length base)%nat with 0%nat by lia. rewrite Nat.min_0_r.
      by rewrite app_nil_r. }
  assert (NoDup (remaining F base)) as Hnd by by apply NoDup_filter.
  replace (S k `min` (3 - length base))%nat
    with (S (k `min` (3 - S (length base))))%nat by lia.
  destruct (remaining F base) as [|f rest] eqn:E.
  - by rewrite take_nil, app_nil_r.
  - apply NoDup_cons in Hnd as [Hf Hrest].
    rewrite IH, remaining_snoc, E, length_app. cbn [length folder existing].
    rewrite Nat.add_1_r, <- app_assoc. f_equal.
    rewrite filter_cons_False by (intros ?; done).
    rewrite filter_ne_absent by done. done.
Qed.

End PaddingOrder.

(** X8.  What fills the list up, for a folder set without repetitions.
    The keyword classifier keeps its keyword entries and appends, up to a
    total of three, the folders it has not suggested: Sonstiges first when
    it is among them (reason Standard-Fallback), then the others in the
    order of the folder set (reason Automatische Zuordnung), all at 0.1.
    So a text without any keyword of the table gives Sonstiges, if there
    is such a folder, followed by the first folders of the set.  A
    validated model answer is sorted and filled up with the folders it
    does not name, in the order of the folder set, with no preference for
    Sonstiges. *)
Theorem padding_order `{!PyBuiltins} (F : list pystr) (text : pystr) :
  NoDup F →
  let top := keyword_top2 DocumentOrganizer.keywords (u "Schlüsselwörter gefunden")
               (7 # 10) (1 # 5) F (lower text) in
  DocumentOrganizer._fallback_suggestions F text =
    top ++ map fallback_pad (take (3 - length top) (sonstiges_first (remaining F top))) ∧
  (no_keyword_hit DocumentOrganizer.keywords F (lower text) →
     DocumentOrganizer._fallback_suggestions F text =
       map fallback_pad (take 3 (sonstiges_first F))) ∧
  (∀ response valid,
     DocumentOrganizer.validated F response = inr valid →
     let ranked := sort_desc (λ a b, fgt (confidence a) (confidence b)) valid in
     DocumentOrganizer._parse_llm_response F response =
       take 3 (ranked ++ map parse_pad (take (3 - length ranked) (remaining F ranked)))).
Proof.
  intros HF top.
  assert (DocumentOrganizer._fallback_suggestions F text =
          top ++ map fallback_pad
                   (take (3 - length top) (sonstiges_first (remaining F top)))) as Hclosed.
  { unfold DocumentOrganizer._fallback_suggestions. fold top.
    rewrite pad_fallback_closed by done. do 3 f_equal. lia. }
  split_and!; [done| |].
  - intros Hno. rewrite Hclosed. subst top. unfold keyword_top2.
    rewrite keyword_scores_no_hit by done. cbn [sort_desc take map app length].
    by rewrite remaining_nil.
  - intros response valid Hv ranked.
    pose proof (parse_cases F response) as Hc. rewrite Hv in Hc. destruct Hc as [-> _].
    fold ranked. rewrite pad_parse_closed by done. do 4 f_equal. lia.
Qed.

(** The theorem at the folders Bank, Rechnungen, Sonstiges and a text
    without keywords: Sonstiges comes first. *)
Lemma padding_order_witness :
  map folder
    (@DocumentOrganizer._fallback_suggestions Samples.sample_builtins Samples.office
       (u "Hallo")) =
  [u "Sonstiges"; u "Bank"; u "Rechnungen"].
Proof.
  assert (NoDup Samples.office) as Hnd by (apply (bool_decide_unpack _); by vm_compute).
  destruct (@padding_order Samples.sample_builtins Samples.office (u "Hallo") Hnd)
    as (_ & Hzero & _).
  rewrite Hzero; [by vm_compute|].
  intros f words Hin _.
  repeat (apply elem_of_cons in Hin as [Hin|Hin]; [injection Hin as -> ->; by vm_compute|]).
  destruct (not_elem_of_nil _ Hin).
Defined.

(** ** The learning store: what the index holds and what the file holds *)

Section IndexInvariants.
Context `{!PyBuiltins}.

Lemma add_keywords_prefix keywords known :
  known `prefix_of` DocumentOrganizer.add_keywords keywords known.
Proof.
  revert known. induction keywords as [|keyword rest IH]; intros known; simpl; [done|].
  case_decide; [|apply IH].
  etrans; [|apply IH]. by apply prefix_app_r.
Qed.

Lemma add_keywords_origin keywords known kw :
  kw ∈ DocumentOrganizer.add_keywords keywords known →
  kw ∈ known ∨ (kw ∈ keywords ∧ (3 < length kw)%nat).
Proof.
  revert known. induction keywords as [|keyword rest IH]; intros known; simpl; [by left|].
  case_decide as Hd.
  - intros [[Hk|Hk%list_elem_of_singleton]%elem_of_app|[Hr Hlen]]%IH.
    + by left.
    + subst kw. right. split; [by left|by destruct Hd].
    + right. split; [by right|done].
  - intros [Hk|[Hr Hlen]]%IH; [by left|]. right. split; [by right|done].
Qed.

Lemma add_keywords_NoDup keywords known :
  NoDup known → NoDup (DocumentOrganizer.add_keywords keywords known).
Proof.
  revert known. induction keywords as [|keyword rest IH]; intros known Hnd; simpl; [done|].
  case_decide as Hd; [|by apply IH].
  apply IH. apply NoDup_app. split_and!; [done| |apply NoDup_singleton].
  intros x Hx ->%list_elem_of_singleton. by destruct Hd.
Qed.

Lemma keywords_of_learn stamp filename chosen_folder l folder :
  keywords_of (DocumentOrganizer.learn stamp filename chosen_folder l) folder =
  if decide (chosen_folder = folder)
  then DocumentOrganizer.add_keywords (DocumentOrganizer.filename_keywords filename)
         (keywords_of l folder)
  else keywords_of l folder.
Proof.
  unfold keywords_of, DocumentOrganizer.learn. simpl. case_decide as E.
  - subst. by rewrite lookup_insert_eq.
  - by rewrite lookup_insert_ne.
Qed.

Lemma record_all_app calls1 calls2 w :
  DocumentOrganizer.record_all (calls1 ++ calls2) w =
  DocumentOrganizer.record_all calls2 (DocumentOrganizer.record_all calls1 w).
Proof. unfold DocumentOrganizer.record_all. apply foldl_app. Qed.

(** One call, in full. *)
Lemma update_learning_data_run e filename chosen_folder w :
  let learned :=
    DocumentOrganizer.learn (isoformat (DocumentOrganizer.now_learn e)) filename
      chosen_folder (DocumentOrganizer.learning_data w) in
  DocumentOrganizer._update_learning_data e filename chosen_folder w =
    (DocumentOrganizer.World (DocumentOrganizer.fs w) (DocumentOrganizer.ablage_path w)
       (DocumentOrganizer.target_folders w) learned
       (file_after (DocumentOrganizer.save_fault e) learned
          (DocumentOrganizer.learning_file w))
       (DocumentOrganizer.pending_files w),
     match DocumentOrganizer.save_fault e with
     | None => inr tt
     | Some fault => inl (DocumentOrganizer.raised fault)
     end).
Proof.
  unfold DocumentOrganizer._update_learning_data, DocumentOrganizer._save_learning_data,
    DocumentOrganizer.set_learning, DocumentOrganizer.get, mbind, DocumentOrganizer.io_bind.
  simpl. by destruct (DocumentOrganizer.save_fault e) as [[]|].
Qed.

Lemma record_all_failed_at_open calls w :
  Forall failed_at_open calls →
  DocumentOrganizer.learning_file (DocumentOrganizer.record_all calls w) =
  DocumentOrganizer.learning_file w.
Proof.
  intros Hcalls. revert w.
  induction Hcalls as [|call calls [ex Hcall] _ IH]; intros w; [done|].
  rewrite record_all_cons, IH, update_learning_data_run. simpl. by rewrite Hcall.
Qed.

Lemma record_all_frame calls w :
  DocumentOrganizer.fs (DocumentOrganizer.record_all calls w) = DocumentOrganizer.fs w ∧
  DocumentOrganizer.target_folders (DocumentOrganizer.record_all calls w) =
    DocumentOrganizer.target_folders w ∧
  DocumentOrganizer.pending_files (DocumentOrganizer.record_all calls w) =
    DocumentOrganizer.pending_files w.
Proof.
  revert w. induction calls as [|call calls IH]; intros w; [done|].
  rewrite record_all_cons. destruct (IH (DocumentOrganizer._update_learning_data
                                            call.1.1 call.1.2 call.2 w).1) as (-> & -> & ->).
  by rewrite update_learning_data_run.
Qed.

End IndexInvariants.

(** X9.  What the keyword index of a folder holds after a run of
    confirmations: the list it held before, in its order, followed by
    additions; every addition is a token of more than three characters of
    the name of a file confirmed for that folder; a list without
    repetitions stays without repetitions; and the list of a folder for
    which nothing was confirmed is the list it was. *)
Theorem index_only_from_confirmations `{!PyBuiltins}
    (calls : list (DocumentOrganizer.env * pystr * pystr)) (w : DocumentOrganizer.world) :
  let before := DocumentOrganizer.learning_data w in
  let after := DocumentOrganizer.learning_data (DocumentOrganizer.record_all calls w) in
  ∀ folder,
    keywords_of before folder `prefix_of` keywords_of after folder ∧
    (∀ kw, indexed after folder kw →
       indexed before folder kw ∨
       ∃ e filename, (e, filename, folder) ∈ calls ∧
         kw ∈ DocumentOrganizer.filename_keywords filename ∧ (3 < length kw)%nat) ∧
    (NoDup (keywords_of before folder) → NoDup (keywords_of after folder)) ∧
    ((∀ e filename, (e, filename, folder) ∉ calls) →
       DocumentOrganizer.folder_keywords after !! folder =
       DocumentOrganizer.folder_keywords before !! folder).
Proof.
  cbv zeta. revert w. induction calls as [|[[e filename] chosen] calls IH]; intros w folder.
  { split_and!; [done|by left|done|done]. }
  rewrite record_all_cons. cbn [fst snd].
  specialize (IH (DocumentOrganizer._update_learning_data e filename chosen w).1 folder).
  rewrite update_learning_data in IH.
  destruct IH as (Hpre & Horigin & Hnd & Hsame).
  unfold indexed in *. fold (keywords_of (DocumentOrganizer.learning_data w) folder).
  fold (keywords_of (DocumentOrganizer.learning_data
          (DocumentOrganizer.record_all calls
             (DocumentOrganizer._update_learning_data e filename chosen w).1)) folder)
    in Horigin |- *.
  fold (keywords_of (DocumentOrganizer.learn (isoformat (DocumentOrganizer.now_learn e))
          filename chosen (DocumentOrganizer.learning_data w)) folder) in Horigin.
  rewrite keywords_of_learn in Hpre, Horigin, Hnd.
  split_and!.
  - etrans; [|exact Hpre]. case_decide; [apply add_keywords_prefix|done].
  - intros kw [Hkw|(e' & filename' & Hin & Htok & Hlen)]%Horigin.
    + case_decide as E; [|by left].
      apply add_keywords_origin in Hkw as [Hkw|[Htok Hlen]]; [by left|].
      right. exists e, filename. subst chosen. split_and!; [by left|done|done].
    + right. exists e', filename'. split_and!; [by right|done|done].
  - intros Hb. apply Hnd. case_decide; [by apply add_keywords_NoDup|done].
  - intros Hnone. rewrite Hsame.
    + unfold DocumentOrganizer.learn. simpl. rewrite lookup_insert_ne; [done|].
      intros ->. apply (Hnone e filename). by left.
    + intros e' filename' Hin. apply (Hnone e' filename'). by right.
Qed.

(** X10.  The learning file is settled by the last call whose write got
    as far as opening the file.  When that write went through, the file
    holds the learning data as it was after that call; when it failed
    after the file was opened, the file was truncated and holds no JSON
    document.  Calls whose write fails in [open] update the memory only,
    and leave the file as it is.  No call touches the file system, the
    folder set or the pending registry. *)
Theorem learning_file_last_write `{!PyBuiltins}
    (calls1 calls2 : list (DocumentOrganizer.env * pystr * pystr))
    (call : DocumentOrganizer.env * pystr * pystr) (w : DocumentOrganizer.world) :
  Forall failed_at_open calls2 →
  let w' := DocumentOrganizer.record_all (calls1 ++ call :: calls2) w in
  (saved call →
     DocumentOrganizer.learning_file w' =
       Some (DocumentOrganizer.learning_data
               (DocumentOrganizer.record_all (calls1 ++ [call]) w))) ∧
  (cut_off call → DocumentOrganizer.learning_file w' = None) ∧
  (saved call → calls2 = [] →
     DocumentOrganizer.learning_file w' = Some (DocumentOrganizer.learning_data w')) ∧
  DocumentOrganizer.learning_file (DocumentOrganizer.record_all calls2 w) =
    DocumentOrganizer.learning_file w ∧
  DocumentOrganizer.fs w' = DocumentOrganizer.fs w ∧
  DocumentOrganizer.target_folders w' = DocumentOrganizer.target_folders w ∧
  DocumentOrganizer.pending_files w' = DocumentOrganizer.pending_files w.
Proof.
  intros Hcalls2 w'.
  assert (DocumentOrganizer.learning_file w' =
          file_after (DocumentOrganizer.save_fault call.1.1)
            (DocumentOrganizer.learning_data
               (DocumentOrganizer.record_all (calls1 ++ [call]) w))
            (DocumentOrganizer.learning_file (DocumentOrganizer.record_all calls1 w)))
    as Hfile.
  { subst w'. rewrite (record_all_app calls1 (call :: calls2)), record_all_cons.
    rewrite record_all_failed_at_open by done.
    rewrite (record_all_app calls1 [call]), record_all_cons.
    by rewrite update_learning_data_run. }
  destruct (record_all_frame (calls1 ++ call :: calls2) w) as (Hfs & Htf & Hpend).
  split_and!; [| | |by apply record_all_failed_at_open|done|done|done].
  - intros Hsaved. unfold saved in Hsaved. by rewrite Hfile, Hsaved.
  - intros [ex Hcut]. by rewrite Hfile, Hcut.
  - intros Hsaved ->. unfold saved in Hsaved. by rewrite Hfile, Hsaved.
Qed.

(** The theorem at a write that goes through, followed by one that is
    refused in [open] (errno 13); and at a write that hits a full disk
    (errno 28) after the file was opened. *)
Lemma learning_file_last_write_witness :
  DocumentOrganizer.learning_file
    (@DocumentOrganizer.record_all Samples.sample_builtins
       ([] ++ (Samples.calm Samples.noon, u "brief_steuer.pdf", u "Bank") ::
        [(DocumentOrganizer.Env Samples.noon Samples.noon None
            (Some (DocumentOrganizer.AtOpen (OSError 13))),
          u "konto_auszug.pdf", u "Bank")])
       Samples.idle) =
  Some (DocumentOrganizer.learning_data
          (@DocumentOrganizer.record_all Samples.sample_builtins
             ([] ++ [(Samples.calm Samples.noon, u "brief_steuer.pdf", u "Bank")])
             Samples.idle)) ∧
  DocumentOrganizer.learning_file
    (@DocumentOrganizer.record_all Samples.sample_builtins
       ([(Samples.calm Samples.noon, u "brief_steuer.pdf", u "Bank")] ++
        (DocumentOrganizer.Env Samples.noon Samples.noon None
           (Some (DocumentOrganizer.AfterOpen (OSError 28))),
         u "konto_auszug.pdf", u "Bank") :: [])
       Samples.idle) = None.
Proof.
  split.
  - refine (proj1 (@learning_file_last_write Samples.sample_builtins []
                     [(DocumentOrganizer.Env Samples.noon Samples.noon None
                         (Some (DocumentOrganizer.AtOpen (OSError 13))),
                       u "konto_auszug.pdf", u "Bank")]
                     (Samples.calm Samples.noon, u "brief_steuer.pdf", u "Bank")
                     Samples.idle _) _).
    + constructor; [|constructor]. by exists (OSError 13).
    + reflexivity.
  - refine (proj1 (proj2 (@learning_file_last_write Samples.sample_builtins
                     [(Samples.calm Samples.noon, u "brief_steuer.pdf", u "Bank")] []
                     (DocumentOrganizer.Env Samples.noon Samples.noon None
                        (Some (DocumentOrganizer.AfterOpen (OSError 28))),
                      u "konto_auszug.pdf", u "Bank")
                     Samples.idle _)) _).
    + constructor.
    + by exists (OSError 28).
Defined.

(** ** Learning hints *)

Section Hints.
Context `{!PyBuiltins}.

Lemma hints_nil_iff items text_lower :
  DocumentOrganizer.hints items text_lower = [] ↔
  ∀ folder keywords kw, (folder, keywords) ∈ items → kw ∈ keywords →
    contains (lower kw) text_lower = false.
Proof.
  unfold DocumentOrganizer.hints. induction items as [|[folder keywords] items IH].
  { split; [|done]. by intros _ ??? ?%not_elem_of_nil. }
  cbn [flat_map]. rewrite app_nil, IH. split.
  - intros [Hhere Hrest] folder' keywords' kw [Heq|Hin]%elem_of_cons Hkw.
    + injection Heq as -> ->.
      apply map_eq_nil in Hhere.
      destruct (contains (lower kw) text_lower) eqn:E; [|done].
      destruct (filter_nil_not_elem_of _ _ kw Hhere E Hkw).
    + by eapply Hrest.
  - intros Hall. split.
    + destruct (filter _ keywords) as [|kw rest] eqn:E; [done|].
      assert (kw ∈ filter (λ keyword, contains (lower keyword) text_lower = true) keywords)
        as [Hc Hkw]%list_elem_of_filter by (rewrite E; by left).
      rewrite (Hall folder keywords kw) in Hc; [done|by left|done].
    + intros folder' keywords' kw Hin. apply (Hall folder' keywords' kw). by right.
Qed.

Lemma learning_hints_nil_iff items text_lower :
  DocumentOrganizer._get_learning_hints items text_lower = [] ↔
  DocumentOrganizer.hints items text_lower = [].
Proof.
  unfold DocumentOrganizer._get_learning_hints. cbv zeta.
  case_decide as E; [done|]. split; [|done]. intros Hnil.
  apply (f_equal length) in Hnil. rewrite length_app in Hnil.
  change (length (u "Lern-Hinweise:")) with 14%nat in Hnil. simpl in Hnil. lia.
Qed.

Lemma index_items_indexed l items folder kw :
  index_items l items →
  indexed l folder kw ↔ ∃ keywords, (folder, keywords) ∈ items ∧ kw ∈ keywords.
Proof.
  unfold index_items, indexed. intros Hitems. split.
  - destruct (DocumentOrganizer.folder_keywords l !! folder) as [keywords|] eqn:E; simpl.
    + intros Hkw. exists keywords. split; [|done].
      rewrite Hitems. by apply elem_of_map_to_list.
    + by intros ?%not_elem_of_nil.
  - intros (keywords & Hin & Hkw). rewrite Hitems in Hin.
    apply elem_of_map_to_list in Hin. by rewrite Hin.
Qed.

End Hints.

(** X11.  [_get_learning_hints] returns the empty string exactly when no
    keyword of the index, lower-cased, occurs in the text; the order in
    which the index lists its folders does not matter for that.  So after
    a run of confirmations every later text that contains a token of more
    than three characters of a confirmed file name gets a hint block. *)
Theorem learning_hints_when `{!PyBuiltins} (l : DocumentOrganizer.learning)
    (items : list (pystr * list pystr)) (text_lower : pystr) :
  index_items l items →
  (DocumentOrganizer._get_learning_hints items text_lower = [] ↔
   ∀ folder kw, indexed l folder kw → contains (lower kw) text_lower = false) ∧
  (∀ calls w e filename chosen_folder kw,
     l = DocumentOrganizer.learning_data (DocumentOrganizer.record_all calls w) →
     (e, filename, chosen_folder) ∈ calls →
     kw ∈ DocumentOrganizer.filename_keywords filename → (3 < length kw)%nat →
     contains (lower kw) text_lower = true →
     DocumentOrganizer._get_learning_hints items text_lower ≠ []).
Proof.
  intros Hitems.
  assert (DocumentOrganizer._get_learning_hints items text_lower = [] ↔
          ∀ folder kw, indexed l folder kw → contains (lower kw) text_lower = false) as Hiff.
  { rewrite learning_hints_nil_iff, hints_nil_iff. split.
    - intros Hall folder kw (keywords & Hin & Hkw)%(index_items_indexed l items); [|done].
      by eapply Hall.
    - intros Hall folder keywords kw Hin Hkw. apply (Hall folder).
      apply (index_items_indexed l items); [done|]. by exists keywords. }
  split; [done|].
  intros calls w e filename chosen_folder kw -> Hcall Htok Hlen Hc Hnil.
  rewrite Hiff in Hnil.
  rewrite (Hnil chosen_folder kw) in Hc; [done|].
  destruct (record_all_indexed calls w) as [_ Hr]. by eapply Hr.
Qed.

(** The theorem at an index with one keyword for Bank. *)
Lemma learning_hints_when_witness :
  @DocumentOrganizer._get_learning_hints Samples.sample_builtins
    [(u "Bank", [u "steuer"])] (u "ihre steuer 2024") ≠ [].
Proof.
  pose proof (@learning_hints_when Samples.sample_builtins
                (DocumentOrganizer.Learning [] {[ u "Bank" := [u "steuer"] ]})
                [(u "Bank", [u "steuer"])] (u "ihre steuer 2024")) as Hw.
  destruct Hw as [Hiff _].
  { unfold index_items. simpl. by rewrite map_to_list_singleton. }
  intros Hnil. rewrite Hiff in Hnil.
  specialize (Hnil (u "Bank") (u "steuer")).
  assert (contains (@lower Samples.sample_builtins (u "steuer")) (u "ihre steuer 2024") = true)
    as Hc by by vm_compute.
  rewrite Hnil in Hc; [done|].
  unfold indexed. simpl. rewrite lookup_singleton_eq. by left.
Defined.

(** ** The folder set *)

Lemma str_ltb_irrefl a : MinimalOrganizer.str_ltb a a = false.
Proof.
  induction a as [|x a IH]; [done|]. cbn [MinimalOrganizer.str_ltb].
  by rewrite N.ltb_irrefl, N.eqb_refl, IH.
Qed.

Lemma str_ltb_asym a b :
  MinimalOrganizer.str_ltb a b = true → MinimalOrganizer.str_ltb b a = false.
Proof.
  revert b. induction a as [|x a IH]; intros [|y b]; cbn [MinimalOrganizer.str_ltb];
    try done.
  destruct (N.ltb_spec x y), (N.ltb_spec y x), (N.eqb_spec x y), (N.eqb_spec y x);
    cbn [orb andb]; try lia; try done. apply IH.
Qed.

Lemma str_ltb_total a b :
  MinimalOrganizer.str_ltb a b = false → MinimalOrganizer.str_ltb b a = false → a = b.
Proof.
  revert b. induction a as [|x a IH]; intros [|y b]; cbn [MinimalOrganizer.str_ltb];
    try done.
  destruct (N.ltb_spec x y), (N.ltb_spec y x), (N.eqb_spec x y), (N.eqb_spec y x);
    cbn [orb andb]; try lia; try done.
  intros Hab Hba. subst y. f_equal. by apply IH.
Qed.

Lemma str_le_trans a b c :
  MinimalOrganizer.str_ltb b a = false → MinimalOrganizer.str_ltb c b = false →
  MinimalOrganizer.str_ltb c a = false.
Proof.
  revert b c. induction a as [|x a IH]; intros [|y b] [|z c];
    cbn [MinimalOrganizer.str_ltb]; try done.
  destruct (N.ltb_spec y x), (N.ltb_spec z y), (N.ltb_spec z x),
    (N.eqb_spec y x), (N.eqb_spec z y), (N.eqb_spec z x);
    cbn [orb andb]; try lia; try done.
  apply IH.
Qed.

Lemma sorted_strict (l : list pystr) :
  StronglySorted (λ a b, MinimalOrganizer.str_ltb b a = false) l → NoDup l →
  StronglySorted (λ a b, MinimalOrganizer.str_ltb a b = true) l.
Proof.
  induction 1 as [|a l Hs IH Ha]; intros Hnd; [constructor|].
  apply NoDup_cons in Hnd as [Hin Hnd]. constructor; [by apply IH|].
  rewrite Forall_forall in Ha |- *. intros b Hb.
  destruct (MinimalOrganizer.str_ltb a b) eqn:E; [done|].
  destruct Hin. by rewrite (str_ltb_total a b E (Ha b Hb)).
Qed.

Lemma NoDup_omap_inj {A B} (g : A → option B) (l : list A) :
  (∀ x y z, x ∈ l → y ∈ l → g x = Some z → g y = Some z → x = y) →
  NoDup l → NoDup (omap g l).
Proof.
  intros Hinj Hnd. induction Hnd as [|x l Hx Hl IH]; [constructor|].
  assert (NoDup (omap g l)) as Hrest.
  { apply IH. intros y1 y2 z H1 H2. apply Hinj; by right. }
  cbn [omap list_omap]. destruct (g x) as [z|] eqn:E; [|done].
  constructor; [|done].
  intros (y & Hy & Hgy)%list_elem_of_omap.
  rewrite (Hinj x y z) in Hx; [done|by left|by right|done|done].
Qed.

Lemma parent_name (p : path) : p ≠ [] → p = parent p ++ [name p].
Proof.
  destruct p as [|x p _] using rev_ind; [done|]. intros _.
  unfold parent, name. by rewrite removelast_last, last_snoc.
Qed.

Lemma name_snoc (dir : path) (x : pystr) : name (dir ++ [x]) = x.
Proof. unfold name. by rewrite last_snoc. Qed.

Lemma is_dir_snoc (fs : gmap path node) (dir : path) (f : pystr) :
  is_dir fs (dir ++ [f]) = true ↔ fs !! (dir ++ [f] : path) = Some Dir.
Proof.
  unfold is_dir, stat. rewrite decide_False by (by destruct dir).
  destruct (fs !! (dir ++ [f] : path)) as [[]|]; split; done.
Qed.

(** The listing when [ablage/] is a directory. *)
Lemma get_target_folders_dir (w : MinimalOrganizer.world) :
  stat (MinimalOrganizer.fs w) (MinimalOrganizer.ablage_path w) = Some Dir →
  ∃ folders,
    MinimalOrganizer._get_target_folders w = (w, inr folders) ∧
    (∀ f, f ∈ folders ↔
          is_dir (MinimalOrganizer.fs w) (MinimalOrganizer.ablage_path w ++ [f]) = true ∧
          startswith (u ".") f = false) ∧
    StronglySorted (λ a b, MinimalOrganizer.str_ltb a b = true) folders ∧
    NoDup folders.
Proof.
  intros Hablage. unfold MinimalOrganizer._get_target_folders. rewrite Hablage.
  set (g := λ '(p, n), match n with
                       | Dir =>
                           if bool_decide (p ≠ [] ∧ parent p = MinimalOrganizer.ablage_path w)
                              && negb (startswith (u ".") (name p))
                           then Some (name p) else None
                       | File _ => None
                       end).
  assert (∀ p n f, g (p, n) = Some f ↔
                   n = Dir ∧ p = MinimalOrganizer.ablage_path w ++ [f] ∧
                   startswith (u ".") f = false) as Hg.
  { intros p n f. unfold g. destruct n as [c|].
    { split; [done|]. by intros (? & _). }
    destruct (bool_decide _) eqn:E1; cbn [andb].
    - apply bool_decide_eq_true in E1 as [Hne Hparent].
      destruct (startswith (u ".") (name p)) eqn:E2; cbn [negb].
      + split; [done|]. intros (_ & -> & Hdot). rewrite name_snoc in E2. congruence.
      + split.
        * intros [= <-]. split_and!; [done| |done].
          rewrite <- Hparent. by apply parent_name.
        * intros (_ & -> & _). by rewrite name_snoc.
    - apply bool_decide_eq_false in E1. split; [done|].
      intros (_ & -> & _). destruct E1. split; [by destruct (MinimalOrganizer.ablage_path w)|].
      apply parent_snoc. }
  set (raw := omap g (map_to_list (MinimalOrganizer.fs w))).
  assert (∀ f, f ∈ raw ↔
               is_dir (MinimalOrganizer.fs w) (MinimalOrganizer.ablage_path w ++ [f]) = true ∧
               startswith (u ".") f = false) as Hraw.
  { intros f. unfold raw. rewrite list_elem_of_omap. split.
    - intros ([p n] & Hin & (-> & -> & Hdot)%Hg). split; [|done].
      apply elem_of_map_to_list in Hin. by apply is_dir_snoc.
    - intros [Hdir Hdot]. exists (MinimalOrganizer.ablage_path w ++ [f], Dir). split.
      + apply elem_of_map_to_list. by apply is_dir_snoc.
      + by apply Hg. }
  assert (NoDup raw) as Hnd.
  { apply NoDup_omap_inj; [|apply NoDup_map_to_list].
    intros [p n] [q m] f _ _ (-> & -> & _)%Hg (-> & -> & _)%Hg. done. }
  exists (sort_desc MinimalOrganizer.str_ltb raw).
  assert (sort_desc MinimalOrganizer.str_ltb raw ≡ₚ raw) as Hperm by apply sort_desc_perm.
  split_and!.
  - done.
  - intros f. by rewrite Hperm.
  - apply sorted_strict; [|by rewrite Hperm].
    apply (sort_desc_sorted MinimalOrganizer.str_ltb _ (λ _, True)).
    + intros a b _ _. apply str_ltb_asym.
    + by intros a b _ _.
    + intros a b c. apply str_le_trans.
    + by apply Forall_true.
  - by rewrite Hperm.
Qed.

(** X12.  [_get_target_folders] changes nothing and, when [ablage/] is a
    directory, returns exactly the names of the directories directly
    below it that do not start with a dot, in strictly ascending order of
    code points, so each name once.  Without [ablage/] it returns the
    empty list, and when [ablage/] is a regular file it raises
    [NotADirectoryError]. *)
Theorem target_folders_listing (w : MinimalOrganizer.world) :
  match stat (MinimalOrganizer.fs w) (MinimalOrganizer.ablage_path w) with
  | None => MinimalOrganizer._get_target_folders w = (w, inr [])
  | Some (File _) => MinimalOrganizer._get_target_folders w = (w, inl NotADirectoryError)
  | Some Dir =>
      ∃ folders,
        MinimalOrganizer._get_target_folders w = (w, inr folders) ∧
        (∀ f, f ∈ folders ↔
              is_dir (MinimalOrganizer.fs w) (MinimalOrganizer.ablage_path w ++ [f]) = true ∧
              startswith (u ".") f = false) ∧
        StronglySorted (λ a b, MinimalOrganizer.str_ltb a b = true) folders ∧
        NoDup folders
  end.
Proof.
  destruct (stat (MinimalOrganizer.fs w) (MinimalOrganizer.ablage_path w)) as [[c|]|] eqn:E.
  - unfold MinimalOrganizer._get_target_folders. by rewrite E.
  - by apply get_target_folders_dir.
  - unfold MinimalOrganizer._get_target_folders. by rewrite E.
Qed.

(** ** New folders *)

Lemma prefix_of_snoc {A} (q d : list A) (x : A) :
  q `prefix_of` d ++ [x] ↔ q `prefix_of` d ∨ q = d ++ [x].
Proof.
  split.
  - intros [k Hk]. destruct k as [|y k _] using rev_ind.
    + right. by rewrite app_nil_r in Hk.
    + left. rewrite app_assoc in Hk. apply app_inj_tail in Hk as [-> _].
      by apply prefix_app_r.
  - intros [Hq| ->]; [by apply prefix_app_r|done].
Qed.

Lemma snoc_not_prefix {A} (d : list A) (x : A) : ¬ d ++ [x] `prefix_of` d.
Proof. intros Hp%prefix_length. rewrite length_app in Hp. simpl in Hp. lia. Qed.

(** [mkdir(parents=True, exist_ok=True)]: afterwards every path on the way
    is a directory, and whatever was there before is as it was. *)
Lemma mkdir_fuel_parents (fuel : nat) (p : path) (fs : gmap path node) :
  (length p ≤ fuel)%nat → no_file_on fs p → ancestors_first fs p →
  ∃ fs',
    mkdir_fuel fuel true true p fs = inr fs' ∧
    (∀ q, q `prefix_of` p → stat fs' q = Some Dir) ∧
    (∀ q, ¬ q `prefix_of` p → stat fs' q = stat fs q) ∧
    (∀ q, stat fs q ≠ None → stat fs' q = stat fs q).
Proof.
  revert p. induction fuel as [|k IH]; intros p Hlen Hfile Hanc.
  { destruct p; [|simpl in Hlen; lia]. exists fs. split_and!; [done| |done|done].
    intros q ->%prefix_nil_inv. done. }
  destruct (stat fs p) as [n|] eqn:Hp.
  - assert (n = Dir) as ->.
    { destruct n as [c|]; [|done]. by destruct (Hfile p c). }
    exists fs. split_and!; [| |done|done].
    + destruct k; cbn [mkdir_fuel]; unfold os_mkdir, is_dir; rewrite Hp; done.
    + intros q Hq. destruct (stat fs q) as [[c|]|] eqn:Hsq; [|done|].
      * by destruct (Hfile q c).
      * rewrite (Hanc q p Hq) in Hp; done.
  - destruct p as [|x d _] using rev_ind; [done|].
    assert (d ++ [x] ≠ []) as Hne by by destruct d.
    assert (d ++ [x] ≠ d) as Hpd.
    { intros E. apply (f_equal length) in E. rewrite length_app in E. simpl in E. lia. }
    assert (∀ q, q `prefix_of` d → q ≠ d ++ [x]) as Hqp.
    { intros q Hq ->. by apply snoc_not_prefix in Hq. }
    destruct (stat fs d) as [[c|]|] eqn:Hd.
    + destruct (Hfile d c); [by apply prefix_app_r|done].
    + exists (<[d ++ [x] := Dir]> fs). split_and!.
      * cbn [mkdir_fuel]. unfold os_mkdir. by rewrite Hp, parent_snoc, Hd.
      * intros q [Hq| ->]%prefix_of_snoc; [|by apply stat_insert_eq].
        rewrite stat_insert_ne by (symmetry; by apply Hqp).
        destruct (stat fs q) as [[c|]|] eqn:Hsq; [|done|].
        -- destruct (Hfile q c); [by apply prefix_app_r|done].
        -- rewrite (Hanc q d Hq) in Hd; [done|by apply prefix_app_r|done].
      * intros q Hq. apply stat_insert_ne. by intros <-.
      * intros q Hq. apply stat_insert_ne. intros <-. done.
    + rewrite length_app in Hlen. simpl in Hlen.
      destruct (IH d) as (fs1 & Hmk & HA & HB & HC); [lia| | |].
      { intros q c Hq. apply Hfile. by apply prefix_app_r. }
      { intros q1 q2 H12 H2. apply Hanc; [done|by apply prefix_app_r]. }
      exists (<[d ++ [x] := Dir]> fs1). split_and!.
      * cbn [mkdir_fuel]. unfold os_mkdir at 1. rewrite Hp, parent_snoc, Hd.
        cbn [andb]. rewrite bool_decide_eq_true_2 by done.
        rewrite Hmk. unfold os_mkdir.
        rewrite (HB (d ++ [x])) by apply snoc_not_prefix.
        by rewrite Hp, parent_snoc, (HA d).
      * intros q [Hq| ->]%prefix_of_snoc; [|by apply stat_insert_eq].
        rewrite stat_insert_ne by (symmetry; by apply Hqp). by apply HA.
      * intros q Hq. rewrite stat_insert_ne by (by intros <-). apply HB.
        intros Hqd. apply Hq. by apply prefix_app_r.
      * intros q Hq. rewrite stat_insert_ne by (intros <-; done). by apply HC.
Qed.

Lemma join_slash_path (base : path) (comps : list pystr) :
  Forall plain_name comps → comps ≠ [] →
  joinpath base (join (u "/") comps) = base ++ comps.
Proof.
  intros Hcomps Hne. unfold joinpath.
  assert (parse_path (join (u "/") comps) = comps) as ->.
  { unfold parse_path. rewrite slash_eq, split_slash_join by done.
    induction Hcomps as [|c comps (Hc & Hdot & _) Hcomps IH]; [done|].
    rewrite filter_cons_True by done. f_equal.
    destruct comps; [done|]. by apply IH. }
  destruct comps as [|c comps]; [done|].
  apply Forall_cons in Hcomps as [(Hc & _ & Hslash) _].
  destruct c as [|x c]; [done|]. apply not_elem_of_cons in Hslash as [Hx _].
  rewrite slash_eq.
  assert ((47 =? x)%N = false) as Hx' by (apply N.eqb_neq; congruence).
  destruct comps; cbn [join app startswith]; by rewrite Hx'.
Qed.

(** The two steps [move_file] (for a new folder) and [create_folder]
    share: create the directory with its parents, list the folders. *)
Lemma new_folder_refresh (w : MinimalOrganizer.world) (comps : list pystr) :
  let full := MinimalOrganizer.ablage_path w ++ comps in
  no_file_on (MinimalOrganizer.fs w) full → ancestors_first (MinimalOrganizer.fs w) full →
  ∃ fs1 folders,
    let w1 := MinimalOrganizer.World fs1 (MinimalOrganizer.inbox_path w)
                (MinimalOrganizer.ablage_path w) (MinimalOrganizer.target_folders w) in
    mkdir true true full (MinimalOrganizer.fs w) = inr fs1 ∧
    MinimalOrganizer._get_target_folders w1 = (w1, inr folders) ∧
    (∀ q, q `prefix_of` full → stat fs1 q = Some Dir) ∧
    (∀ q, ¬ q `prefix_of` full → stat fs1 q = stat (MinimalOrganizer.fs w) q) ∧
    (∀ q, stat (MinimalOrganizer.fs w) q ≠ None → stat fs1 q = stat (MinimalOrganizer.fs w) q) ∧
    (∀ f, f ∈ folders ↔
          is_dir fs1 (MinimalOrganizer.ablage_path w ++ [f]) = true ∧
          startswith (u ".") f = false) ∧
    StronglySorted (λ a b, MinimalOrganizer.str_ltb a b = true) folders.
Proof.
  intros full Hfile Hanc.
  destruct (mkdir_fuel_parents (length full) full (MinimalOrganizer.fs w))
    as (fs1 & Hmk & HA & HB & HC); [done|done|done|].
  destruct (get_target_folders_dir
              (MinimalOrganizer.World fs1 (MinimalOrganizer.inbox_path w)
                 (MinimalOrganizer.ablage_path w) (MinimalOrganizer.target_folders w)))
    as (folders & Hget & Hlist & Hsorted & _).
  { cbn [MinimalOrganizer.fs MinimalOrganizer.ablage_path]. apply HA.
    by apply prefix_app_r. }
  exists fs1, folders. cbv zeta. split_and!; done.
Qed.

(** A path of two or more components is not the name of its first one. *)
Lemma nested_not_listed (base : path) (comps : list pystr) :
  (1 < length comps)%nat → ¬ base ++ [join (u "/") comps] `prefix_of` base ++ comps.
Proof.
  intros Hlen Hp. apply prefix_app_inv in Hp.
  destruct comps as [|c0 [|c1 rest]]; [simpl in Hlen; lia..|].
  destruct Hp as [k Hk]. injection Hk as Hc _.
  apply (f_equal length) in Hc. cbn [join] in Hc. rewrite !length_app in Hc.
  rewrite slash_eq in Hc. simpl in Hc. lia.
Qed.

(** X13.  A file moved in the minimal service to a new, possibly nested
    folder [a/b/...], when the paths involved are ordinary (no [..]
    component, no NUL character), no regular file lies on the way, the
    source is a regular file of the inbox and its name is free in the
    folder: every directory on the way exists afterwards, the file is in the innermost
    one and gone from the inbox, and the folder set is the sorted list of
    the directories directly below [ablage/] whose name does not start
    with a dot.  So the first component [a] is in the folder set (unless
    it starts with a dot), and a nested path [a/b] itself never is. *)
Theorem new_nested_folder (e : MinimalOrganizer.env) (filename c : pystr)
    (comps : list pystr) (w : MinimalOrganizer.world) :
  let folder_path := join (u "/") comps in
  let full := MinimalOrganizer.ablage_path w ++ comps in
  let src := MinimalOrganizer.inbox_path w ++ [filename] in
  Forall plain_name comps → comps ≠ [] → plain_name filename →
  ordinary full → ordinary src →
  no_file_on (MinimalOrganizer.fs w) full → ancestors_first (MinimalOrganizer.fs w) full →
  stat (MinimalOrganizer.fs w) src = Some (File c) →
  stat (MinimalOrganizer.fs w) (full ++ [filename]) = None →
  MinimalOrganizer.move_fault e = None →
  ∃ w',
    MinimalOrganizer.move_file e filename folder_path true w =
      (w', inr (path_str (full ++ [filename]))) ∧
    stat (MinimalOrganizer.fs w') (full ++ [filename]) = Some (File c) ∧
    stat (MinimalOrganizer.fs w') src = None ∧
    (∀ q, q `prefix_of` full → is_dir (MinimalOrganizer.fs w') q = true) ∧
    (∀ f, f ∈ MinimalOrganizer.target_folders w' ↔
          is_dir (MinimalOrganizer.fs w') (MinimalOrganizer.ablage_path w ++ [f]) = true ∧
          startswith (u ".") f = false) ∧
    StronglySorted (λ a b, MinimalOrganizer.str_ltb a b = true)
      (MinimalOrganizer.target_folders w') ∧
    (∀ c0 rest, comps = c0 :: rest → startswith (u ".") c0 = false →
                c0 ∈ MinimalOrganizer.target_folders w') ∧
    ((1 < length comps)%nat →
     is_dir (MinimalOrganizer.fs w) (MinimalOrganizer.ablage_path w ++ [folder_path]) = false →
     folder_path ∉ MinimalOrganizer.target_folders w').
Proof.
  intros folder_path full src Hcomps Hne Hname _ _ Hfile Hanc Hsrc Hfree Hfault.
  destruct (new_folder_refresh w comps Hfile Hanc)
    as (fs1 & folders & Hmk & Hget & HA & HB & HC & Hlist & Hsorted).
  cbv zeta in Hget. fold full in Hmk, HA, HB.
  set (dst := full ++ [filename]) in *.
  assert (src ≠ []) as Hsrc0 by by eapply stat_file_ne_nil.
  assert (dst ≠ []) as Hdst0 by (subst dst; by destruct full).
  assert (dst ≠ src) as Hds by (intros E; rewrite E in Hfree; congruence).
  assert (stat fs1 src = Some (File c)) as Hsrc1 by (rewrite HC; [done|by rewrite Hsrc]).
  assert (stat fs1 dst = None) as Hdst1.
  { rewrite HB; [done|]. apply snoc_not_prefix. }
  assert (stat fs1 full = Some Dir) as Hfull1 by by apply HA.
  set (fs2 := <[dst := File c]> (delete src fs1)).
  assert (∀ q, is_dir fs2 q = is_dir fs1 q) as Hdirs.
  { intros q. unfold is_dir. destruct (decide (q = dst)) as [->|Hqd].
    - subst fs2. by rewrite stat_insert_eq, Hdst1.
    - subst fs2. rewrite stat_insert_ne by done.
      destruct (decide (q = src)) as [->|Hqs].
      + by rewrite stat_delete_eq, Hsrc1.
      + by rewrite stat_delete_ne. }
  exists (MinimalOrganizer.World fs2 (MinimalOrganizer.inbox_path w)
            (MinimalOrganizer.ablage_path w) folders).
  cbn [MinimalOrganizer.fs MinimalOrganizer.target_folders].
  split_and!.
  - unfold MinimalOrganizer.move_file.
    unfold mbind, mret, MinimalOrganizer.io_bind, MinimalOrganizer.io_ret,
      MinimalOrganizer.get, MinimalOrganizer.on_fs, MinimalOrganizer.set_target_folders.
    cbn [MinimalOrganizer.fs MinimalOrganizer.inbox_path MinimalOrganizer.ablage_path
         MinimalOrganizer.target_folders].
    unfold folder_path. rewrite join_slash_path by done.
    rewrite (joinpath_plain _ filename) by done. fold full src.
    rewrite Hmk. cbn [mbind result_bind]. simpl. rewrite Hget.
    cbn [MinimalOrganizer.fs MinimalOrganizer.inbox_path MinimalOrganizer.ablage_path
         MinimalOrganizer.target_folders].
    assert (MinimalOrganizer.target_file e fs1 full filename = dst) as ->.
    { unfold MinimalOrganizer.target_file, path_exists.
      rewrite (joinpath_plain _ filename) by done. fold dst. by rewrite Hdst1. }
    rewrite Hfault.
    rewrite (shutil_move_file fs1 src dst c).
    + done.
    + done.
    + unfold is_dir. by rewrite Hdst1.
    + subst dst. rewrite parent_snoc. unfold is_dir. by rewrite Hfull1.
  - subst fs2. by apply stat_insert_eq.
  - subst fs2. rewrite stat_insert_ne by done. by apply stat_delete_eq.
  - intros q Hq. rewrite Hdirs. unfold is_dir. by rewrite HA.
  - intros f. rewrite Hdirs. apply Hlist.
  - done.
  - intros c0 rest -> Hdot. apply Hlist. split; [|done].
    unfold is_dir. rewrite HA; [done|].
    subst full. apply prefix_app, prefix_cons, prefix_nil.
  - intros Hlen Hold [Hdir _]%Hlist.
    unfold is_dir in Hdir, Hold. rewrite HB in Hdir by by apply nested_not_listed.
    fold folder_path in Hold. congruence.
Qed.

(** Checking a property of all prefixes of a path by running through
    them. *)
Lemma prefix_check (P : path → bool) (p : path) :
  forallb (λ n, P (take n p)) (seq 0 (S (length p))) = true →
  ∀ q, q `prefix_of` p → P q = true.
Proof.
  intros Hall q [k ->]. rewrite forallb_forall in Hall.
  specialize (Hall (length q)). rewrite take_app_length in Hall. apply Hall.
  apply in_seq. rewrite length_app. lia.
Qed.

Lemma no_file_on_check (fs : gmap path node) (p : path) :
  forallb (λ n, match stat fs (take n p) with Some (File _) => false | _ => true end)
          (seq 0 (S (length p))) = true →
  no_file_on fs p.
Proof.
  intros Hall q c Hq Hst.
  pose proof (prefix_check
                (λ q, match stat fs q with Some (File _) => false | _ => true end)
                p Hall q Hq) as Hc.
  cbv beta in Hc. by rewrite Hst in Hc.
Qed.

Lemma ancestors_first_check (fs : gmap path node) (p : path) :
  forallb (λ n, forallb (λ m, match stat fs (take m (take n p)), stat fs (take n p) with
                              | None, Some _ => false
                              | _, _ => true
                              end)
                        (seq 0 (S (length (take n p)))))
          (seq 0 (S (length p))) = true →
  ancestors_first fs p.
Proof.
  intros Hall q1 q2 H12 H2 Hnone.
  pose proof (prefix_check
                (λ q2, forallb (λ m, match stat fs (take m q2), stat fs q2 with
                                     | None, Some _ => false
                                     | _, _ => true
                                     end)
                               (seq 0 (S (length q2))))
                p Hall q2 H2) as Hc.
  cbv beta in Hc.
  pose proof (prefix_check
                (λ q1, match stat fs q1, stat fs q2 with
                       | None, Some _ => false
                       | _, _ => true
                       end)
                q2 Hc q1 H12) as Hc'.
  cbv beta in Hc'. rewrite Hnone in Hc'. by destruct (stat fs q2).
Qed.

Ltac plain_name_by_computation :=
  split_and!; [by vm_compute|by vm_compute|apply (bool_decide_unpack _); by vm_compute].

(** The theorem at [scan.pdf] of the sample tree, moved to the new folder
    [Kunden/Neu]. *)
Lemma new_nested_folder_witness :
  ∃ w',
    @MinimalOrganizer.move_file (Samples.calm_minimal Samples.noon) (u "scan.pdf")
      (u "Kunden/Neu") true Samples.minimal =
      (w', inr (u "/home/u/NAS/ablage/Kunden/Neu/scan.pdf")) ∧
    u "Kunden" ∈ MinimalOrganizer.target_folders w' ∧
    (u "Kunden/Neu" ∉ MinimalOrganizer.target_folders w').
Proof.
  destruct (new_nested_folder (Samples.calm_minimal Samples.noon) (u "scan.pdf")
              (u "first") [u "Kunden"; u "Neu"] Samples.minimal)
    as (w' & Hrun & _ & _ & _ & _ & _ & Hfirst & Hnested).
  - repeat (apply Forall_cons; split); [plain_name_by_computation..|constructor].
  - done.
  - plain_name_by_computation.
  - apply (bool_decide_unpack _). by vm_compute.
  - apply (bool_decide_unpack _). by vm_compute.
  - apply no_file_on_check. by vm_compute.
  - apply ancestors_first_check. by vm_compute.
  - by vm_compute.
  - by vm_compute.
  - done.
  - exists w'. split_and!.
    + exact Hrun.
    + apply (Hfirst (u "Kunden") [u "Neu"]); [done|by vm_compute].
    + apply Hnested; [simpl; lia|by vm_compute].
Defined.

(** The listing depends on the file system and on [ablage/] only, and
    leaves the state as it is. *)
Lemma get_target_folders_indep (fs : gmap path node) (inbox ablage : path)
    (t t' : list pystr) (folders : list pystr) :
  MinimalOrganizer._get_target_folders (MinimalOrganizer.World fs inbox ablage t) =
    (MinimalOrganizer.World fs inbox ablage t, inr folders) →
  MinimalOrganizer._get_target_folders (MinimalOrganizer.World fs inbox ablage t') =
    (MinimalOrganizer.World fs inbox ablage t', inr folders).
Proof.
  unfold MinimalOrganizer._get_target_folders.
  cbn [MinimalOrganizer.fs MinimalOrganizer.ablage_path].
  destruct (stat fs ablage) as [[c|]|]; intros [= <-]; done.
Qed.

(** X14.  [create_folder] for a path [a/b/...], when the full path is
    ordinary (no [..] component, no NUL character) and no regular file
    lies on the way: it returns the full path, which is a directory
    afterwards together with every path on the way; what existed before is as it
    was; the folder set is the listing of the directories directly below
    [ablage/].  Calling it again with the same path returns the same
    answer and changes nothing. *)
Theorem create_folder_idempotent (comps : list pystr) (w : MinimalOrganizer.world) :
  let folder_path := join (u "/") comps in
  let full := MinimalOrganizer.ablage_path w ++ comps in
  Forall plain_name comps → comps ≠ [] → ordinary full →
  no_file_on (MinimalOrganizer.fs w) full → ancestors_first (MinimalOrganizer.fs w) full →
  ∃ w',
    MinimalOrganizer.create_folder folder_path w = (w', inr (path_str full)) ∧
    (∀ q, q `prefix_of` full → is_dir (MinimalOrganizer.fs w') q = true) ∧
    (∀ q, stat (MinimalOrganizer.fs w) q ≠ None →
          stat (MinimalOrganizer.fs w') q = stat (MinimalOrganizer.fs w) q) ∧
    (∀ f, f ∈ MinimalOrganizer.target_folders w' ↔
          is_dir (MinimalOrganizer.fs w') (MinimalOrganizer.ablage_path w ++ [f]) = true ∧
          startswith (u ".") f = false) ∧
    MinimalOrganizer.create_folder folder_path w' = (w', inr (path_str full)).
Proof.
  intros folder_path full Hcomps Hne _ Hfile Hanc.
  destruct (new_folder_refresh w comps Hfile Hanc)
    as (fs1 & folders & Hmk & Hget & HA & HB & HC & Hlist & Hsorted).
  cbv zeta in Hget. fold full in Hmk, HA, HB.
  exists (MinimalOrganizer.World fs1 (MinimalOrganizer.inbox_path w)
            (MinimalOrganizer.ablage_path w) folders).
  cbn [MinimalOrganizer.fs MinimalOrganizer.target_folders].
  split_and!.
  - unfold MinimalOrganizer.create_folder.
    unfold mbind, mret, MinimalOrganizer.io_bind, MinimalOrganizer.io_ret,
      MinimalOrganizer.get, MinimalOrganizer.on_fs, MinimalOrganizer.set_target_folders.
    cbn [MinimalOrganizer.fs MinimalOrganizer.inbox_path MinimalOrganizer.ablage_path
         MinimalOrganizer.target_folders].
    unfold folder_path. rewrite join_slash_path by done. fold full.
    rewrite Hmk. simpl. rewrite Hget. done.
  - intros q Hq. unfold is_dir. by rewrite HA.
  - done.
  - done.
  - unfold MinimalOrganizer.create_folder.
    unfold mbind, mret, MinimalOrganizer.io_bind, MinimalOrganizer.io_ret,
      MinimalOrganizer.get, MinimalOrganizer.on_fs, MinimalOrganizer.set_target_folders.
    cbn [MinimalOrganizer.fs MinimalOrganizer.inbox_path MinimalOrganizer.ablage_path
         MinimalOrganizer.target_folders].
    unfold folder_path. rewrite join_slash_path by done. fold full.
    rewrite mkdir_existing by (unfold is_dir; by rewrite HA). simpl.
    rewrite (get_target_folders_indep _ _ _ _ folders folders Hget). done.
Qed.

(** The theorem at the new folder [Kunden/Neu] below the sample tree. *)
Lemma create_folder_idempotent_witness :
  ∃ w',
    @MinimalOrganizer.create_folder (u "Kunden/Neu") Samples.minimal =
      (w', inr (u "/home/u/NAS/ablage/Kunden/Neu")) ∧
    @MinimalOrganizer.create_folder (u "Kunden/Neu") w' =
      (w', inr (u "/home/u/NAS/ablage/Kunden/Neu")).
Proof.
  destruct (create_folder_idempotent [u "Kunden"; u "Neu"] Samples.minimal)
    as (w' & Hrun & _ & _ & _ & Hagain).
  - repeat (apply Forall_cons; split); [plain_name_by_computation..|constructor].
  - done.
  - apply (bool_decide_unpack _). by vm_compute.
  - apply no_file_on_check. by vm_compute.
  - apply ancestors_first_check. by vm_compute.
  - exists w'. split; [exact Hrun|exact Hagain].
Defined.

(** ** The result of the minimal service *)

Lemma good_mono (l : list suggestion) :
  (length (MinimalOrganizer.good (6 # 10) l) ≤ length (MinimalOrganizer.good (5 # 10) l))%nat.
Proof.
  unfold MinimalOrganizer.good. induction l as [|s l IH]; [done|].
  destruct (decide (fge (confidence s) (Fin (6 # 10)) = true)) as [H6|H6].
  - assert (fge (confidence s) (Fin (5 # 10)) = true) as H5.
    { unfold fge in *. eapply fle_trans; [|exact H6]. done. }
    rewrite !filter_cons_True by done. cbn [length]. lia.
  - rewrite (filter_cons_False _ s l H6).
    destruct (decide (fge (confidence s) (Fin (5 # 10)) = true)).
    + rewrite filter_cons_True by done. cbn [length]. lia.
    + by rewrite filter_cons_False.
Qed.

Section MinimalShape.
Context `{!PyBuiltins}.

Lemma min_keywords_NoDup : NoDup (map fst MinimalOrganizer.keywords).
Proof. apply (bool_decide_unpack _). by vm_compute. Qed.

Lemma min_validate_item_spec F item v :
  MinimalOrganizer.validate_item F item = inr v →
  Forall (λ s, folder s ∈ F ∧ is_new s = false) v ∧ (length v ≤ 1)%nat.
Proof.
  unfold MinimalOrganizer.validate_item. intros Hv.
  repeat (case_match; simplify_eq; try done); simpl in *;
    try (destruct (py_float _); simplify_eq; simpl in *; simplify_eq);
    (split; [repeat constructor; simpl; eauto|simpl; lia]).
Qed.

Lemma min_validate_spec F items valid :
  MinimalOrganizer.validate F items = inr valid →
  Forall (λ s, folder s ∈ F ∧ is_new s = false) valid ∧ (length valid ≤ length items)%nat.
Proof.
  revert valid. induction items as [|item rest IH]; simpl; intros valid Hv.
  - simplify_eq. by split.
  - destruct (MinimalOrganizer.validate_item F item) as [|v] eqn:E1; [done|].
    destruct (MinimalOrganizer.validate F rest) as [|vs] eqn:E2; [done|].
    simpl in Hv. simplify_eq.
    destruct (min_validate_item_spec _ _ _ E1), (IH _ eq_refl).
    split; [by apply Forall_app|]. rewrite length_app. lia.
Qed.

Lemma min_validated_spec F choice valid :
  MinimalOrganizer.validated F choice = inr valid →
  Forall (λ s, folder s ∈ F ∧ is_new s = false) valid ∧ (length valid ≤ 3)%nat.
Proof.
  unfold MinimalOrganizer.validated. intros Hv.
  destruct (MinimalOrganizer.llm_text choice) as [|llm]; [done|]. simpl in Hv.
  destruct (json_loads _) as [suggestions|]; [|done]. simpl in Hv.
  destruct (MinimalOrganizer.slice3 suggestions) as [|items] eqn:E; [done|]. simpl in Hv.
  apply slice3_length in E. destruct (min_validate_spec _ _ _ Hv). split; [done|lia].
Qed.

Lemma fallback_candidates_spec F text :
  let r := MinimalOrganizer.fallback_candidates F text in
  Forall (sound F) r ∧ (length r ≤ 3)%nat.
Proof.
  cbv zeta. unfold MinimalOrganizer.fallback_candidates.
  set (top := keyword_top2 _ _ _ _ _ _).
  destruct (keyword_top2_spec MinimalOrganizer.keywords (u "Schlüsselwörter erkannt")
              (8 # 10) (3 # 10) F (lower text) min_keywords_NoDup)
    as (Hlen & Hsound & _); [done|done|]. fold top in Hlen, Hsound.
  split.
  - eapply padded_sound; [apply pad_fallback_padded|done].
  - apply pad_fallback_length_le. lia.
Qed.

End MinimalShape.

(** X15.  What [get_folder_suggestions_llm] of the minimal service can
    return: never more than three entries, and either new-folder
    proposals only, or entries for folders of the folder set only, none
    flagged new, at least two of them with a confidence of 0.5 or more.
    It never mixes the two kinds. *)
Theorem minimal_result_shape `{!PyBuiltins} (F : list pystr)
    (choice creation : http_outcome) (text : pystr) :
  let r := MinimalOrganizer.get_folder_suggestions_llm F choice creation text in
  (length r ≤ 3)%nat ∧
  (Forall proposal r ∨
   Forall (λ s, folder s ∈ F ∧ is_new s = false) r ∧
   (2 ≤ length (MinimalOrganizer.good (5 # 10) r))%nat).
Proof.
  cbv zeta. unfold MinimalOrganizer.get_folder_suggestions_llm.
  destruct (creation_spec creation text) as [Hprop Hplen].
  destruct (MinimalOrganizer.validated F choice) as [ex|valid] eqn:E.
  - unfold MinimalOrganizer.get_fallback_suggestions.
    destruct (fallback_candidates_spec F text) as [Hsound Hlen].
    case_decide as Hgood; [|by split; [|left]].
    rewrite take_ge by done. split; [done|]. right. split; [|done].
    eapply Forall_impl; [exact Hsound|]. by intros s (? & ? & _).
  - destruct (min_validated_spec F choice valid E) as [Hvalid Hlen].
    case_decide as Hgood; [|by split; [|left]].
    split; [done|]. right. split; [done|].
    pose proof (good_mono valid). lia.
Qed.

(** ** The status route of the minimal service *)

Lemma stat_snoc (fs : gmap path node) (dir : path) (f : pystr) :
  stat fs (dir ++ [f]) = fs !! (dir ++ [f] : path).
Proof. unfold stat. by rewrite decide_False by (by destruct dir). Qed.

(** The names [/status] lists are those of the regular files directly in
    the inbox, each once. *)
Lemma status_files_spec (w : MinimalOrganizer.world) :
  (∀ f, f ∈ MinimalOrganizer.status_files w ↔
        ∃ c, stat (MinimalOrganizer.fs w) (MinimalOrganizer.inbox_path w ++ [f]) =
               Some (File c)) ∧
  NoDup (MinimalOrganizer.status_files w).
Proof.
  unfold MinimalOrganizer.status_files.
  set (g := λ '(p, n), match n with
                       | File _ =>
                           if bool_decide (p ≠ [] ∧ parent p = MinimalOrganizer.inbox_path w)
                           then Some (name p) else None
                       | Dir => None
                       end).
  assert (∀ p n f, g (p, n) = Some f ↔
                   (∃ c, n = File c) ∧ p = MinimalOrganizer.inbox_path w ++ [f]) as Hg.
  { intros p n f. unfold g. destruct n as [c|].
    2:{ split; [done|]. by intros [[c ?] _]. }
    destruct (bool_decide _) eqn:E1.
    - apply bool_decide_eq_true in E1 as [Hne Hparent]. split.
      + intros [= <-]. split; [by exists c|]. rewrite <- Hparent. by apply parent_name.
      + intros (_ & ->). by rewrite name_snoc.
    - apply bool_decide_eq_false in E1. split; [done|].
      intros (_ & ->). destruct E1.
      split; [by destruct (MinimalOrganizer.inbox_path w)|]. apply parent_snoc. }
  split.
  - intros f. rewrite list_elem_of_omap. split.
    + intros ([p n] & Hin & ([c ->] & ->)%Hg). exists c.
      apply elem_of_map_to_list in Hin. by rewrite stat_snoc.
    + intros [c Hc]. exists (MinimalOrganizer.inbox_path w ++ [f], File c). split.
      * apply elem_of_map_to_list. by rewrite <- stat_snoc.
      * apply Hg. split; [by exists c|done].
  - apply NoDup_omap_inj; [|apply NoDup_map_to_list].
    intros [p n] [q m] f H1%elem_of_map_to_list H2%elem_of_map_to_list
      ([c ->] & ->)%Hg ([c' ->] & ->)%Hg.
    rewrite H1 in H2. by injection H2 as ->.
Qed.

(** X16.  The [/move] route and the [/status] route of the minimal
    service.  [/status] lists the regular files directly in the inbox.
    When a file of the inbox is moved to an existing folder other than
    the inbox, its name being free there, the route answers 200, the name
    is no longer listed, every other name is listed as before, and the
    pending count is one less. *)
Theorem status_after_move (e : MinimalOrganizer.env) (filename T c : pystr)
    (w : MinimalOrganizer.world) :
  let src := MinimalOrganizer.inbox_path w ++ [filename] in
  let target_dir := joinpath (MinimalOrganizer.ablage_path w) T in
  plain_name filename →
  is_dir (MinimalOrganizer.fs w) target_dir = true →
  target_dir ≠ MinimalOrganizer.inbox_path w →
  stat (MinimalOrganizer.fs w) src = Some (File c) →
  stat (MinimalOrganizer.fs w) (target_dir ++ [filename]) = None →
  MinimalOrganizer.move_fault e = None →
  ∃ w',
    MinimalOrganizer.form_move e filename T w = (w', MinimalOrganizer.Plain 200) ∧
    (∀ f, f ∈ MinimalOrganizer.status_files w ↔
          ∃ c', stat (MinimalOrganizer.fs w) (MinimalOrganizer.inbox_path w ++ [f]) =
                  Some (File c')) ∧
    filename ∈ MinimalOrganizer.status_files w ∧
    (filename ∉ MinimalOrganizer.status_files w') ∧
    (∀ f, f ≠ filename →
          f ∈ MinimalOrganizer.status_files w' ↔ f ∈ MinimalOrganizer.status_files w) ∧
    length (MinimalOrganizer.status_files w) = S (length (MinimalOrganizer.status_files w')).
Proof.
  intros src target_dir Hname Hdir Hinbox Hsrc Hfree Hfault.
  assert (src ≠ []) as Hsrc0 by (subst src; by destruct (MinimalOrganizer.inbox_path w)).
  assert (target_dir ++ [filename] ≠ []) as Hdst0 by by destruct target_dir.
  destruct (min_move_file_ok e filename T w c (target_dir ++ [filename]))
    as (w' & Hrun & Hfs & Hin & _).
  { exact Hdir. }
  { rewrite (joinpath_plain _ filename) by done. exact Hsrc. }
  { unfold MinimalOrganizer.target_file, path_exists. fold target_dir.
    rewrite (joinpath_plain _ filename) by done. by rewrite Hfree. }
  { unfold is_dir. by rewrite Hfree. }
  { apply parent_snoc. }
  { exact Hfault. }
  destruct (status_files_spec w) as [Hlist Hnd].
  destruct (status_files_spec w') as [Hlist' Hnd'].
  rewrite (joinpath_plain _ filename) in Hfs by done. fold src in Hfs.
  assert (∀ f, stat (MinimalOrganizer.fs w') (MinimalOrganizer.inbox_path w' ++ [f]) =
               if decide (f = filename) then None
               else stat (MinimalOrganizer.fs w) (MinimalOrganizer.inbox_path w ++ [f]))
    as Hstat.
  { intros f. rewrite Hfs, Hin. rewrite stat_insert_ne.
    2:{ intros [E _]%app_inj_tail. done. }
    case_decide as E.
    - subst f. by apply stat_delete_eq.
    - apply stat_delete_ne. subst src. intros [_ E']%app_inj_tail. done. }
  assert (filename ∈ MinimalOrganizer.status_files w) as Hold
    by (apply Hlist; by exists c).
  assert (filename ∉ MinimalOrganizer.status_files w') as Hnew.
  { intros [c' Hc']%Hlist'. rewrite Hstat, decide_True in Hc' by done. done. }
  assert (∀ f, f ≠ filename →
               f ∈ MinimalOrganizer.status_files w' ↔ f ∈ MinimalOrganizer.status_files w)
    as Hother.
  { intros f Hf. rewrite Hlist, Hlist'. by rewrite Hstat, decide_False. }
  exists w'. split_and!; [|done|done|done|done|].
  - unfold MinimalOrganizer.form_move. by rewrite Hrun.
  - assert (MinimalOrganizer.status_files w ≡ₚ filename :: MinimalOrganizer.status_files w')
      as ->; [|done].
    apply NoDup_Permutation; [done|by constructor|].
    intros f. rewrite elem_of_cons. destruct (decide (f = filename)) as [->|Hf].
    + split; [by left|done].
    + rewrite (Hother f Hf). split; [by right|by intros [?|?]].
Qed.

(** The theorem at [scan.pdf] of the sample tree, moved to Bank. *)
Lemma status_after_move_witness :
  ∃ w',
    @MinimalOrganizer.form_move (Samples.calm_minimal Samples.noon) (u "scan.pdf")
      (u "Bank") Samples.minimal = (w', MinimalOrganizer.Plain 200) ∧
    (u "scan.pdf" ∉ MinimalOrganizer.status_files w').
Proof.
  destruct (status_after_move (Samples.calm_minimal Samples.noon) (u "scan.pdf") (u "Bank")
              (u "first") Samples.minimal)
    as (w' & Hrun & _ & _ & Hnew & _).
  - plain_name_by_computation.
  - by vm_compute.
  - by vm_compute.
  - by vm_compute.
  - by vm_compute.
  - done.
  - exists w'. split; [exact Hrun|exact Hnew].
Defined.

(** ** Ties in the keyword classifier *)

Section Ties.
Context {A : Type} (key : A → nat).

(** The stable sort keeps the entries of one key in their order. *)
Lemma insert_desc_stable (v : nat) (x : A) (l : list A) :
  filter (λ a, key a = v) (insert_desc (λ a b, Nat.ltb (key b) (key a)) x l) =
  filter (λ a, key a = v) (x :: l).
Proof.
  induction l as [|y l IH]; [done|]. cbn [insert_desc].
  destruct (Nat.ltb (key x) (key y)) eqn:E; [|done].
  apply Nat.ltb_lt in E.
  destruct (decide (key x = v)) as [Hx|Hx].
  - rewrite filter_cons_False by lia. rewrite IH.
    rewrite !filter_cons_True by done. by rewrite filter_cons_False by lia.
  - rewrite (filter_cons_False _ x (y :: l)) by done.
    destruct (decide (key y = v)) as [Hy|Hy].
    + rewrite !filter_cons_True by done. f_equal. rewrite IH. by rewrite filter_cons_False.
    + rewrite !filter_cons_False by done. rewrite IH. by rewrite filter_cons_False.
Qed.

Lemma sort_desc_stable (v : nat) (l : list A) :
  filter (λ a, key a = v) (sort_desc (λ a b, Nat.ltb (key b) (key a)) l) =
  filter (λ a, key a = v) l.
Proof.
  induction l as [|x l IH]; [done|]. cbn [sort_desc]. rewrite insert_desc_stable.
  destruct (decide (key x = v)).
  - rewrite !filter_cons_True by done. by f_equal.
  - by rewrite !filter_cons_False.
Qed.

(** The first entry with the greatest key comes out first. *)
Lemma sort_desc_head (l1 l2 : list A) (x : A) :
  Forall (λ a, key a < key x)%nat l1 → Forall (λ a, key a ≤ key x)%nat l2 →
  head (sort_desc (λ a b, Nat.ltb (key b) (key a)) (l1 ++ x :: l2)) = Some x.
Proof.
  intros H1 H2.
  set (gt := λ a b : A, Nat.ltb (key b) (key a)).
  set (l := l1 ++ x :: l2).
  assert (Hperm : sort_desc gt l ≡ₚ l) by apply sort_desc_perm.
  assert (Hsorted : StronglySorted (λ a b, (key b ≤ key a)%nat) (sort_desc gt l)).
  { apply (sort_desc_sorted gt _ (λ _, True)).
    - intros a b _ _ E%Nat.ltb_lt. lia.
    - intros a b _ _ E%Nat.ltb_ge. lia.
    - intros a b c ??. lia.
    - by apply Forall_true. }
  pose proof (sort_desc_stable (key x) l) as Hstable.
  change (sort_desc _ l) with (sort_desc gt l) in Hstable.
  assert (filter (λ a, key a = key x) l = x :: filter (λ a, key a = key x) l2) as Hl.
  { subst l. rewrite filter_app, filter_cons_True by done.
    replace (filter (λ a, key a = key x) l1) with (@nil A); [done|].
    symmetry. clear -H1. induction H1 as [|a l1 Ha H1 IH]; [done|].
    by rewrite filter_cons_False by lia. }
  rewrite Hl in Hstable.
  assert (Forall (λ a, key a ≤ key x)%nat (sort_desc gt l)) as Hle.
  { rewrite Hperm. subst l. apply Forall_app. split.
    - eapply Forall_impl; [exact H1|]. intros a Ha. simpl in Ha. lia.
    - by constructor. }
  assert (x ∈ sort_desc gt l) as Hx.
  { rewrite Hperm. subst l. apply elem_of_app. right. by left. }
  destruct (sort_desc gt l) as [|y r].
  { by rewrite filter_nil in Hstable. }
  apply StronglySorted_inv in Hsorted as [_ Hy].
  apply Forall_cons in Hle as [Hyx _].
  assert (key y = key x) as Hkey.
  { apply elem_of_cons in Hx as [->|Hx]; [done|].
    rewrite Forall_forall in Hy. specialize (Hy x Hx). simpl in Hy. lia. }
  rewrite filter_cons_True in Hstable by done.
  simpl. f_equal. congruence.
Qed.

End Ties.

(** X17.  The first suggestion of the keyword classifier is for the
    folder with the most keyword hits, and among folders with equally
    many hits for the one that comes first in the keyword table.  In
    general the sort keeps the folders of one score in the order of the
    table. *)
Theorem ties_keep_table_order (table : list (pystr * list pystr)) (why : pystr)
    (cap step : Q) (F : list pystr) (text_lower : pystr)
    (l1 l2 : list (pystr * nat)) (f : pystr) (n : nat) :
  keyword_scores table F text_lower = l1 ++ (f, n) :: l2 →
  Forall (λ gm, gm.2 < n)%nat l1 → Forall (λ gm, gm.2 ≤ n)%nat l2 →
  head (keyword_top2 table why cap step F text_lower) =
    Some (existing f why (mapped cap step n)) ∧
  ∀ v, filter (λ gm, gm.2 = v)
         (sort_desc (λ a b, Nat.ltb b.2 a.2) (keyword_scores table F text_lower)) =
       filter (λ gm, gm.2 = v) (keyword_scores table F text_lower).
Proof.
  intros Hscores H1 H2. split.
  - unfold keyword_top2. rewrite Hscores.
    pose proof (sort_desc_head snd l1 l2 (f, n) H1 H2) as Hhead.
    destruct (sort_desc _ (l1 ++ (f, n) :: l2)) as [|y r]; [done|].
    injection Hhead as ->. done.
  - intros v. apply (sort_desc_stable snd).
Qed.

(** The theorem at a text with one invoice word and one bank word: both
    folders score 1, and Rechnungen comes first in the table. *)
Lemma ties_keep_table_order_witness :
  head (keyword_top2 (@DocumentOrganizer.keywords) (u "Schlüsselwörter gefunden")
          (7 # 10) (1 # 5) Samples.office (u "rechnung iban")) =
  Some (existing (u "Rechnungen") (u "Schlüsselwörter gefunden") (mapped (7 # 10) (1 # 5) 1)).
Proof.
  refine (proj1 (ties_keep_table_order (@DocumentOrganizer.keywords)
                   (u "Schlüsselwörter gefunden") (7 # 10) (1 # 5) Samples.office
                   (u "rechnung iban") [] [(u "Bank", 1%nat)] (u "Rechnungen") 1 _ _ _)).
  - by vm_compute.
  - constructor.
  - repeat constructor.
Defined.

(** ** Folders created on the way *)




(** ** Confirmations that cannot go through *)


Section CannotProceed.
Context `{!PyBuiltins}.


End CannotProceed.



(** ** Confidences a model answer may carry *)

Lemma clamp_cases (x : pyfloat) :
  match x with
  | Fin q =>
      ((0 < q)%Q → (q < 1)%Q → py_max (Fin 0) (py_min (Fin 1) x) = Fin q) ∧
      ((1 <= q)%Q → py_max (Fin 0) (py_min (Fin 1) x) = Fin 1) ∧
      ((q <= 0)%Q → py_max (Fin 0) (py_min (Fin 1) x) = Fin 0)
  | NaN | PosInf => py_max (Fin 0) (py_min (Fin 1) x) = Fin 1
  | NegInf => py_max (Fin 0) (py_min (Fin 1) x) = Fin 0
  end.
Proof.
  destruct x as [q| | |]; [|done..].
  unfold py_max, py_min, fgt, flt.
  split_and!.
  - intros H0 H1.
    destruct (Qle_bool 1 q) eqn:E1; [apply Qle_bool_iff in E1; lra|]. cbn [negb].
    destruct (Qle_bool q 0) eqn:E0; [apply Qle_bool_iff in E0; lra|]. done.
  - intros H1. apply Qle_bool_iff in H1. by rewrite H1.
  - intros H0.
    destruct (Qle_bool 1 q) eqn:E1; [apply Qle_bool_iff in E1; lra|]. cbn [negb].
    apply Qle_bool_iff in H0. by rewrite H0.
Qed.

Section Confidences.
Context `{!PyBuiltins}.

Lemma validate_raises F l1 item l2 ex :
  DocumentOrganizer.validate_item F item = inl ex →
  ∃ ex', DocumentOrganizer.validate F (l1 ++ item :: l2) = inl ex'.
Proof.
  intros Hitem. induction l1 as [|i l1 [ex' IH]]; simpl.
  - rewrite Hitem. by eexists.
  - destruct (DocumentOrganizer.validate_item F i); simpl; [by eexists|].
    rewrite IH. by eexists.
Qed.

End Confidences.

(** X20.  What [_parse_llm_response] makes of the confidence of an item
    that names a folder of the set.  A number strictly between 0 and 1 is
    kept as it is, a number of 1 or more becomes 1.0 and a number of 0 or
    less 0.0; NaN and positive infinity become 1.0, so such an item ranks
    first; negative infinity becomes 0.0.  A value [float] rejects with
    [TypeError] or [ValueError] gives 0.0.  Any other exception of [float]
    (an integer too large for a float) leaves the loop: validation raises
    for every array that holds the item, whatever the other items are. *)
Theorem confidence_clamped `{!PyBuiltins} (F : list pystr) (fields : list (pystr * json))
    (f : pystr) (r c : json) :
  jget (u "folder") fields = Some (JStr f) → jget (u "reason") fields = Some r →
  jget (u "confidence") fields = Some c → f ∈ F →
  let stored y :=
    DocumentOrganizer.validate_item F (JObj fields) =
      inr [existing f (take 100 (py_str r)) y] in
  (∀ q, py_float c = inr (Fin q) →
     ((0 < q)%Q → (q < 1)%Q → stored (Fin q)) ∧
     ((1 <= q)%Q → stored (Fin 1)) ∧
     ((q <= 0)%Q → stored (Fin 0))) ∧
  (py_float c = inr NaN ∨ py_float c = inr PosInf → stored (Fin 1)) ∧
  (py_float c = inr NegInf → stored (Fin 0)) ∧
  (py_float c = inl TypeError ∨ py_float c = inl ValueError → stored (Fin 0)) ∧
  (∀ ex, py_float c = inl ex → ex ≠ TypeError → ex ≠ ValueError →
     DocumentOrganizer.validate_item F (JObj fields) = inl ex ∧
     ∀ l1 l2, ∃ ex', DocumentOrganizer.validate F (l1 ++ JObj fields :: l2) = inl ex').
Proof.
  intros Hf Hr Hc HF stored. subst stored. cbv beta.
  unfold DocumentOrganizer.validate_item. rewrite Hf, Hr, Hc, decide_True by done.
  split_and!.
  - intros q ->. destruct (clamp_cases (Fin q)) as (Hmid & Hhigh & Hlow).
    split_and!.
    + intros H0 H1. by rewrite Hmid.
    + intros H1. by rewrite Hhigh.
    + intros H0. by rewrite Hlow.
  - intros [-> | ->]; done.
  - intros ->. done.
  - intros [-> | ->]; done.
  - intros ex Hex Hty Hval.
    assert (DocumentOrganizer.validate_item F (JObj fields) = inl ex) as Hitem.
    { unfold DocumentOrganizer.validate_item. rewrite Hf, Hr, Hc, decide_True by done.
      rewrite Hex. by destruct ex. }
    unfold DocumentOrganizer.validate_item in Hitem.
    rewrite Hf, Hr, Hc, decide_True in Hitem by done.
    split; [exact Hitem|]. intros l1 l2.
    apply (validate_raises F l1 (JObj fields) l2 ex).
    unfold DocumentOrganizer.validate_item. by rewrite Hf, Hr, Hc, decide_True.
Qed.

(** The theorem at an item for Bank whose confidence is NaN. *)
Lemma confidence_clamped_witness :
  @DocumentOrganizer.validate_item Samples.sample_builtins Samples.office
    (JObj [(u "folder", JStr (u "Bank")); (u "reason", JStr (u "IBAN"));
           (u "confidence", JFloat NaN)]) =
  inr [existing (u "Bank")
         (take 100 (@py_str Samples.sample_builtins (JStr (u "IBAN")))) (Fin 1)].
Proof.
  refine (proj1 (proj2 (@confidence_clamped Samples.sample_builtins Samples.office
                          [(u "folder", JStr (u "Bank")); (u "reason", JStr (u "IBAN"));
                           (u "confidence", JFloat NaN)]
                          (u "Bank") (JStr (u "IBAN")) (JFloat NaN) _ _ _ _)) _).
  - by vm_compute.
  - by vm_compute.
  - by vm_compute.
  - apply (bool_decide_unpack _). by vm_compute.
  - by left.
Defined.

(** ** Further instances *)

(** X6 at a folder set of two: the keyword classifier returns two
    suggestions. *)
Lemma suggestions_any_folder_set_witness :
  length (@DocumentOrganizer._fallback_suggestions Samples.sample_builtins
            [u "Bank"; u "Rechnungen"] (u "Hallo")) = 2%nat.
Proof.
  assert (NoDup [u "Bank"; u "Rechnungen"]) as Hnd
    by (apply (bool_decide_unpack _); by vm_compute).
  exact (proj1 (proj2 (proj2 (proj2 (proj2
    (@suggestions_any_folder_set Samples.sample_builtins [u "Bank"; u "Rechnungen"]
       (HttpRaised HTTPError) (u "Hallo"))))) Hnd)).
Defined.

(** X9 at 101 confirmations for Bank: the keyword list of Bank has no
    repetitions. *)
Lemma index_only_from_confirmations_witness :
  NoDup (keywords_of
           (DocumentOrganizer.learning_data
              (@DocumentOrganizer.record_all Samples.sample_builtins
                 Samples.confirmations Samples.idle))
           (u "Bank")).
Proof.
  refine (proj1 (proj2 (proj2
    (@index_only_from_confirmations Samples.sample_builtins Samples.confirmations
       Samples.idle (u "Bank")))) _).
  constructor.
Defined.
